(** * helproad74bot: the incident-report bot of [bot.py]

    A shallow embedding of the bot's handlers, its field extractor, the
    administrator roster and the broadcast of a confirmed report, with the
    properties the specification states about them.

    Python values are modelled as the code has them: a [str] is a sequence of
    Unicode code points, the application dict (whose seven keys [start]
    creates and nothing deletes) is a record of optional texts, the roster is
    the list [load_admins] returns, and every handler is a computation in a
    state monad over the environment it reads and writes (the roster file,
    the log, the replies sent to the user, the deliveries to administrators,
    the requests sent to the text-generation backend and the per-user
    [user_data]). *)

From Stdlib Require Import List String Ascii Bool NArith ZArith Lia DecimalString.
Import ListNotations.

Set Implicit Arguments.

(** ** Text *)

Module Text.

Definition codepoint := N.
Definition str := list codepoint.

(** The literals of the source are written as Rocq strings, which are UTF-8
    byte sequences; [utf8] decodes them into code points. A continuation byte
    ([10xxxxxx]) extends the code point being read, any other byte starts one. *)
Fixpoint decode (pending : option N) (bytes : list N) : str :=
  match bytes with
  | [] => match pending with Some c => [c] | None => [] end
  | b :: rest =>
      if ((128 <=? b) && (b <? 192))%N then
        decode (option_map (fun c => c * 64 + (b - 128)) pending)%N rest
      else
        let first := (if b <? 128 then b
                      else if b <? 224 then b - 192
                      else if b <? 240 then b - 224
                      else b - 240)%N in
        match pending with
        | Some c => c :: decode (Some first) rest
        | None => decode (Some first) rest
        end
  end.

Definition utf8 (s : string) : str :=
  decode None (map N_of_ascii (list_ascii_of_string s)).

Definition str_eqb (a b : str) : bool :=
  if list_eq_dec N.eq_dec a b then true else false.

(** [s.startswith(p)] *)
Fixpoint starts_with (p s : str) : bool :=
  match p, s with
  | [], _ => true
  | _ :: _, [] => false
  | a :: p', b :: s' => N.eqb a b && starts_with p' s'
  end.

(** [p in s] for two strings: [p] occurs in [s] as a substring. *)
Fixpoint str_in (p s : str) : bool :=
  starts_with p s ||
  match s with
  | [] => false
  | _ :: s' => str_in p s'
  end.

(** [sep.join(parts)] *)
Fixpoint join (sep : str) (parts : list str) : str :=
  match parts with
  | [] => []
  | [p] => p
  | p :: rest => p ++ sep ++ join sep rest
  end.

(** [str(n)] for an integer. *)
Definition str_of_int (n : Z) : str :=
  map N_of_ascii (list_ascii_of_string (NilZero.string_of_int (Z.to_int n))).

(** [x in l] for a list of strings and for a list of integers. *)
Definition str_in_list (x : str) (l : list str) : bool := existsb (str_eqb x) l.
Definition int_in_list (x : Z) (l : list Z) : bool := existsb (Z.eqb x) l.

(** [l[-n:]], the slice the source takes of the history: the last [n]
    elements, the whole list when it has no more than [n]. *)
Definition last_n {A} (n : nat) (l : list A) : list A :=
  skipn (List.length l - n) l.

(** [l[:n]] *)
Definition first_n {A} (n : nat) (l : list A) : list A := firstn n l.

(** [s[i:j]] for indices that are not negative. *)
Definition slice {A} (i j : nat) (l : list A) : list A := firstn (j - i) (skipn i l).

(** [s.split(sep)] for a separator of one character: the parts between the
    occurrences of [sep], of which there is always at least one. *)
Fixpoint split (sep : codepoint) (s : str) : list str :=
  match s with
  | [] => [[]]
  | c :: s' =>
      if N.eqb c sep then [] :: split sep s'
      else match split sep s' with
           | part :: parts => (c :: part) :: parts
           | [] => [[c]]
           end
  end.

(** [l.remove(x)]: the first occurrence of [x] is deleted. The source calls it
    only after checking [x in l], so the [ValueError] of an absent [x] does
    not arise; here an absent [x] leaves the list as it is. *)
Fixpoint list_remove (x : Z) (l : list Z) : list Z :=
  match l with
  | [] => []
  | y :: l' => if Z.eqb x y then l' else y :: list_remove x l'
  end.

(** Truthiness of a value that is [None] or a string: [None] and the empty
    string are false. *)
Definition truthy (v : option str) : bool :=
  match v with
  | Some (_ :: _) => true
  | _ => false
  end.

(** How an f-string renders such a value: [None] prints as the word None. *)
Definition render (v : option str) : str :=
  match v with
  | Some s => s
  | None => utf8 "None"
  end.

(** The parts of Python's Unicode database and built-ins the bot relies on.
    They belong to the interpreter, not to the repository, so the model takes
    them as an interface; [Basic] below implements it for the Latin and
    Cyrillic texts the bot is written for. *)
Class PyBuiltins := {
  (** [str.lower] and [str.upper] *)
  lower : str -> str;
  upper : str -> str;
  (** the class [\d] of [re] on [str] patterns *)
  isdecimal : codepoint -> bool;
  (** the class [\s] of [re], and what [str.strip] removes *)
  isspace : codepoint -> bool;
  (** [int(s)]; [None] stands for the [ValueError] *)
  int_of_str : str -> option Z
}.

Section Strip.
Context {py : PyBuiltins}.

Fixpoint lstrip (s : str) : str :=
  match s with
  | c :: s' => if isspace c then lstrip s' else s
  | [] => []
  end.

(** [s.strip()] *)
Definition strip (s : str) : str := rev (lstrip (rev (lstrip s))).
End Strip.

End Text.
Import Text.

(** ** A fragment of [re]

    The three phone patterns use a literal character, the class [\d], the
    set [[\s-]], the optional [?] and the counted repetition [{n}]. *)

Module Re.

Inductive char_class :=
| Lit (c : codepoint)
| Digit
| SpaceOrHyphen.

Inductive item :=
| One (k : char_class)
| Optional (k : char_class)
| Times (n : nat) (k : char_class).

Definition regex := list item.

Section Matching.
Context {py : PyBuiltins}.

Definition in_class (k : char_class) (c : codepoint) : bool :=
  match k with
  | Lit x => N.eqb c x
  | Digit => isdecimal c
  | SpaceOrHyphen => isspace c || N.eqb c 45
  end.

(** Exactly [n] characters of the class: the text matched and the rest. *)
Fixpoint match_times (k : char_class) (n : nat) (s : str) : option (str * str) :=
  match n with
  | O => Some ([], s)
  | S n' =>
      match s with
      | c :: s' =>
          if in_class k c then
            match match_times k n' s' with
            | Some (m, r) => Some (c :: m, r)
            | None => None
            end
          else None
      | [] => None
      end
  end.

(** A match of the whole pattern at the start of [s], as the backtracking
    matcher finds it: an optional item first tries to take a character and
    falls back to taking none. The result is the text matched. *)
Fixpoint match_here (p : regex) (s : str) : option str :=
  match p with
  | [] => Some []
  | One k :: p' =>
      match s with
      | c :: s' => if in_class k c then option_map (cons c) (match_here p' s') else None
      | [] => None
      end
  | Times n k :: p' =>
      match match_times k n s with
      | Some (m, r) => option_map (app m) (match_here p' r)
      | None => None
      end
  | Optional k :: p' =>
      match s with
      | c :: s' =>
          if in_class k c then
            match match_here p' s' with
            | Some m => Some (c :: m)
            | None => match_here p' s
            end
          else match_here p' s
      | [] => match_here p' s
      end
  end.

(** [re.search(p, s)]: the match at the leftmost position that has one;
    the result is [match.group()]. *)
Fixpoint search (p : regex) (s : str) : option str :=
  match match_here p s with
  | Some m => Some m
  | None =>
      match s with
      | [] => None
      | _ :: s' => search p s'
      end
  end.

(** The first pattern of the list, in order, that is found in [s]. *)
Fixpoint first_found (ps : list regex) (s : str) : option str :=
  match ps with
  | [] => None
  | p :: ps' =>
      match search p s with
      | Some m => Some m
      | None => first_found ps' s
      end
  end.
End Matching.

End Re.

(** ** The environment of a handler *)

Module Runtime.

(** A [datetime], with the fields [isoformat] and [strftime] print. The
    application stores [datetime.now().isoformat()] and reads it back with
    [datetime.fromisoformat]; the model stores the [datetime] itself. *)
Record datetime := {
  year : Z; month : Z; day : Z;
  hour : Z; minute : Z; second : Z;
  microsecond : Z
}.

(** [str(n).zfill(width)], for the numeric fields of a date. *)
Definition zfill (width : nat) (s : str) : str :=
  repeat 48%N (width - List.length s) ++ s.

Definition two (n : Z) : str := zfill 2 (str_of_int n).

Definition date_dmy (t : datetime) : str :=
  two (day t) ++ utf8 "." ++ two (month t) ++ utf8 "." ++ zfill 4 (str_of_int (year t)).

(** [t.strftime('%d.%m.%Y %H:%M')] *)
Definition strftime_minutes (t : datetime) : str :=
  date_dmy t ++ utf8 " " ++ two (hour t) ++ utf8 ":" ++ two (minute t).

(** [t.strftime('%d.%m.%Y %H:%M:%S')] *)
Definition strftime_seconds (t : datetime) : str :=
  strftime_minutes t ++ utf8 ":" ++ two (second t).

(** [t.isoformat()] *)
Definition isoformat (t : datetime) : str :=
  zfill 4 (str_of_int (year t)) ++ utf8 "-" ++ two (month t) ++ utf8 "-" ++ two (day t)
  ++ utf8 "T" ++ two (hour t) ++ utf8 ":" ++ two (minute t) ++ utf8 ":" ++ two (second t)
  ++ (if Z.eqb (microsecond t) 0 then []
      else utf8 "." ++ zfill 6 (str_of_int (microsecond t))).

(** [context.user_data["application"]] *)
Record Application := {
  timestamp : datetime;
  location : option str;
  participants : option str;
  damage : option str;
  injuries : option str;
  photos_count : Z;
  contact : option str
}.

Definition set_location (v : option str) (a : Application) : Application :=
  {| timestamp := timestamp a; location := v; participants := participants a;
     damage := damage a; injuries := injuries a; photos_count := photos_count a;
     contact := contact a |}.
Definition set_participants (v : option str) (a : Application) : Application :=
  {| timestamp := timestamp a; location := location a; participants := v;
     damage := damage a; injuries := injuries a; photos_count := photos_count a;
     contact := contact a |}.
Definition set_damage (v : option str) (a : Application) : Application :=
  {| timestamp := timestamp a; location := location a; participants := participants a;
     damage := v; injuries := injuries a; photos_count := photos_count a;
     contact := contact a |}.
Definition set_injuries (v : option str) (a : Application) : Application :=
  {| timestamp := timestamp a; location := location a; participants := participants a;
     damage := damage a; injuries := v; photos_count := photos_count a;
     contact := contact a |}.
Definition set_contact (v : option str) (a : Application) : Application :=
  {| timestamp := timestamp a; location := location a; participants := participants a;
     damage := damage a; injuries := injuries a; photos_count := photos_count a;
     contact := v |}.

(** One turn of [context.user_data["ai_history"]], and one message of a
    request to the backend. *)
Record chat_message := { role : str; content : str }.

(** [telegram.MessageEntity]: a part of the text that Telegram has marked,
    with the index of its first character and its length. Of the types of
    entity only [bot_command] is looked at, by the filters of [main]. *)
Module MessageEntity.
Inductive kind := BOT_COMMAND | OTHER (name : str).
Record t := { type : kind; offset : nat; length : nat }.
End MessageEntity.

(** [update.effective_user] and the update a handler receives:
    [update.message.text] and [update.message.entities]. A message without a
    text (a photo, a sticker) is one whose text is empty: [filters.TEXT]
    takes the truth value of the text and refuses both. *)
Record User := { id : Z; first_name : str; username : option str }.
Record Update := {
  effective_user : User;
  message_text : str;
  message_entities : list MessageEntity.t
}.

(** The file [admins.txt]: missing, holding one identity per line, or failing
    to load (an unreadable file or a line that is no integer) with the text
    of the exception. *)
Inductive admins_file :=
| Absent
| Lines (ids : list Z)
| Unreadable (e : str).

(** How [save_admins] can fail. Either [open("admins.txt", "w")] raises and
    the file is as it was; or the file is opened, which empties it, and one
    of the calls of [f.write] or the closing of the file raises, with the
    first [written] of the lines in the file by then (none of them when the
    first write fails, all of them when only the closing does). *)
Inductive write_failure :=
| OpenRaises (e : str)
| WriteRaises (written : nat) (e : str).

Inductive level := INFO | WARNING | ERROR.

Inductive markup :=
| NoMarkup
| ReplyKeyboardMarkup (keyboard : list (list str))
| ReplyKeyboardRemove.

(** A call of [update.message.reply_text]. *)
Record reply := { text : str; reply_markup : markup; parse_mode : option str }.

(** A call of [context.bot.send_message]; [raised] is the exception it ended
    with, if any. *)
Record delivery := { chat_id : Z; body : str; raised : option str }.

Record Env := {
  admins_txt : admins_file;
  (** the way in which writing [admins.txt] fails, if it does *)
  write_error : option write_failure;
  log : list (level * str);
  replies : list reply;
  deliveries : list delivery;
  (** the [messages] of each call of [chat.completions.create] *)
  requests : list (list chat_message);
  (** the number of calls of [datetime.now] so far *)
  clock_reads : nat;
  application : Application;
  ai_history : list chat_message
}.

(** What lies outside the process: whether the OpenAI client could be
    constructed, what the backend answers to a request ([inl] is the
    exception it raises, [inr] the content of its first choice), whether a
    delivery to a chat succeeds, the clock, and the user name Telegram has
    for the bot. The answers may depend on everything that happened
    before. *)
Class Services := {
  openai_client : bool;
  chat_completions_create : list (list chat_message) -> list chat_message -> str + str;
  send_message : list delivery -> Z -> str -> option str;
  now : nat -> datetime;
  bot_username : str
}.

(** Handlers are state transformers over [Env]. *)
Definition M (A : Type) : Type := Env -> A * Env.

Definition ret {A} (a : A) : M A := fun e => (a, e).
Definition bind {A B} (m : M A) (k : A -> M B) : M B :=
  fun e => let (a, e') := m e in k a e'.
Definition gets {A} (f : Env -> A) : M A := fun e => (f e, e).
Definition modify (f : Env -> Env) : M unit := fun e => (tt, f e).

Definition run {A} (m : M A) (e : Env) : A * Env := m e.
Definition result {A} (m : M A) (e : Env) : A := fst (m e).
Definition after {A} (m : M A) (e : Env) : Env := snd (m e).

Declare Scope monad_scope.
Delimit Scope monad_scope with monad.
Notation "x <- c1 ;; c2" := (bind c1 (fun x => c2))
  (at level 61, c1 at next level, right associativity) : monad_scope.
Notation "c1 ;; c2" := (bind c1 (fun _ => c2))
  (at level 61, right associativity) : monad_scope.
Open Scope monad_scope.

Definition put_admins_txt (f : admins_file) : M unit :=
  modify (fun e =>
    {| admins_txt := f; write_error := write_error e; log := log e;
       replies := replies e; deliveries := deliveries e; requests := requests e;
       clock_reads := clock_reads e; application := application e;
       ai_history := ai_history e |}).

Definition logger (l : level) (s : str) : M unit :=
  modify (fun e =>
    {| admins_txt := admins_txt e; write_error := write_error e;
       log := log e ++ [(l, s)];
       replies := replies e; deliveries := deliveries e; requests := requests e;
       clock_reads := clock_reads e; application := application e;
       ai_history := ai_history e |}).

Definition reply_text (s : str) (k : markup) (mode : option str) : M unit :=
  modify (fun e =>
    {| admins_txt := admins_txt e; write_error := write_error e; log := log e;
       replies := replies e ++ [{| text := s; reply_markup := k; parse_mode := mode |}];
       deliveries := deliveries e; requests := requests e;
       clock_reads := clock_reads e; application := application e;
       ai_history := ai_history e |}).

Definition put_application (a : Application) : M unit :=
  modify (fun e =>
    {| admins_txt := admins_txt e; write_error := write_error e; log := log e;
       replies := replies e; deliveries := deliveries e; requests := requests e;
       clock_reads := clock_reads e; application := a;
       ai_history := ai_history e |}).

Definition put_ai_history (h : list chat_message) : M unit :=
  modify (fun e =>
    {| admins_txt := admins_txt e; write_error := write_error e; log := log e;
       replies := replies e; deliveries := deliveries e; requests := requests e;
       clock_reads := clock_reads e; application := application e;
       ai_history := h |}).

Section Effects.
Context {world : Services}.

(** [datetime.now()] *)
Definition datetime_now : M datetime :=
  fun e =>
    (now (clock_reads e),
     {| admins_txt := admins_txt e; write_error := write_error e; log := log e;
        replies := replies e; deliveries := deliveries e; requests := requests e;
        clock_reads := S (clock_reads e); application := application e;
        ai_history := ai_history e |}).

(** [context.bot.send_message(chat_id=..., text=..., parse_mode="Markdown")]:
    the attempt is recorded with its outcome, which is also the result. *)
Definition bot_send_message (to : Z) (s : str) : M (option str) :=
  fun e =>
    let outcome := send_message (deliveries e) to s in
    (outcome,
     {| admins_txt := admins_txt e; write_error := write_error e; log := log e;
        replies := replies e;
        deliveries := deliveries e ++ [{| chat_id := to; body := s; raised := outcome |}];
        requests := requests e;
        clock_reads := clock_reads e; application := application e;
        ai_history := ai_history e |}).

(** [openai_client.chat.completions.create(messages=...)] followed by
    [response.choices[0].message.content]. *)
Definition create_completion (messages : list chat_message) : M (str + str) :=
  fun e =>
    (chat_completions_create (requests e) messages,
     {| admins_txt := admins_txt e; write_error := write_error e; log := log e;
        replies := replies e; deliveries := deliveries e;
        requests := requests e ++ [messages];
        clock_reads := clock_reads e; application := application e;
        ai_history := ai_history e |}).
End Effects.

End Runtime.

(** ** The bot *)

Module Bot.
Import Runtime.

(** The conversation states, [range(12)] in the source, and
    [ConversationHandler.END]. *)
Inductive State :=
| CHOOSING_MODE | LOCATION | PARTICIPANTS | DAMAGE | INJURIES | PHOTOS
| CONTACT | AI_CHAT | CONFIRM | ADMIN_MENU | ADMIN_ADD | ADMIN_REMOVE
| END.

Definition state_code (s : State) : Z :=
  match s with
  | CHOOSING_MODE => 0 | LOCATION => 1 | PARTICIPANTS => 2 | DAMAGE => 3
  | INJURIES => 4 | PHOTOS => 5 | CONTACT => 6 | AI_CHAT => 7 | CONFIRM => 8
  | ADMIN_MENU => 9 | ADMIN_ADD => 10 | ADMIN_REMOVE => 11
  | END => -1
  end.

Definition ADMIN_IDS : list Z := [].

(** [len(l)] *)
Definition len {A} (l : list A) : Z := Z.of_nat (List.length l).

(** [if l:] for a list *)
Definition nonempty {A} (l : list A) : bool :=
  match l with [] => false | _ :: _ => true end.

Section Handlers.
Context {py : PyBuiltins} {world : Services}.

(** *** Administrators *)

Definition load_admins : M (list Z) :=
  f <- gets admins_txt ;;
  match f with
  | Lines admins =>
      logger INFO (utf8 "📋 Загружено " ++ str_of_int (len admins)
                   ++ utf8 " администраторов из файла") ;;
      ret admins
  | Absent =>
      logger INFO (utf8 "📋 Файл admins.txt не найден, используются администраторы из кода") ;;
      ret ADMIN_IDS
  | Unreadable e =>
      logger ERROR (utf8 "❌ Ошибка загрузки администраторов: " ++ e) ;;
      ret ADMIN_IDS
  end.

(** [open("admins.txt", "w")] empties the file, one line is written for each
    identity, and the file is closed. An exception at any of these steps is
    caught, logged and answered by [False]: when it is raised by [open] the
    file is as it was, when it is raised later the file holds the lines
    written until then. *)
Definition save_admins (admins : list Z) : M bool :=
  w <- gets write_error ;;
  match w with
  | None =>
      put_admins_txt (Lines admins) ;;
      logger INFO (utf8 "💾 Сохранено " ++ str_of_int (len admins)
                   ++ utf8 " администраторов в файл") ;;
      ret true
  | Some (OpenRaises e) =>
      logger ERROR (utf8 "❌ Ошибка сохранения администраторов: " ++ e) ;;
      ret false
  | Some (WriteRaises written e) =>
      put_admins_txt (Lines (first_n written admins)) ;;
      logger ERROR (utf8 "❌ Ошибка сохранения администраторов: " ++ e) ;;
      ret false
  end.

Definition is_admin (user_id : Z) : M bool :=
  admins <- load_admins ;;
  ret (int_in_list user_id admins).

(** The loop of [send_to_admins]: one delivery per administrator, the
    exception of a delivery caught inside the loop. *)
Fixpoint deliver_each (admins : list Z) (message : str) (success_count : Z) : M Z :=
  match admins with
  | [] => ret success_count
  | admin_id :: rest =>
      outcome <- bot_send_message admin_id message ;;
      match outcome with
      | None =>
          logger INFO (utf8 "✅ Заявка отправлена администратору " ++ str_of_int admin_id) ;;
          deliver_each rest message (success_count + 1)
      | Some e =>
          logger ERROR (utf8 "❌ Ошибка отправки администратору " ++ str_of_int admin_id
                        ++ utf8 ": " ++ e) ;;
          deliver_each rest message success_count
      end
  end.

Definition send_to_admins (message : str) : M unit :=
  admins <- load_admins ;;
  if negb (nonempty admins) then
    logger WARNING (utf8 "⚠️ Нет администраторов для отправки заявки!")
  else
    success_count <- deliver_each admins message 0 ;;
    logger INFO (utf8 "📨 Заявка отправлена " ++ str_of_int success_count ++ utf8 " из "
                 ++ str_of_int (len admins) ++ utf8 " администраторов").

(** *** The assistant *)

Definition system_prompt (application_data : Application) : str :=
  utf8 "Ты - помощник аварийного комиссара. Помогаешь оформить заявку после ДТП.

Твоя задача:
1. Собрать информацию: место ДТП, участники, повреждения, пострадавшие, контакт
2. Быть вежливым и кратким
3. Задавать по одному вопросу за раз

Текущие данные заявки:
- Место: " ++ render (location application_data) ++ utf8 "
- Участники: " ++ render (participants application_data) ++ utf8 "
- Повреждения: " ++ render (damage application_data) ++ utf8 "
- Пострадавшие: " ++ render (injuries application_data) ++ utf8 "
- Контакт: " ++ render (contact application_data) ++ utf8 "

Если поле не заполнено, спроси о нём. Отвечай кратко на русском языке.".

Definition get_ai_response (user_message : str) (conversation_history : list chat_message)
    (application_data : Application) : M str :=
  if negb openai_client then
    ret (utf8 "Извините, AI-помощник временно недоступен. Пожалуйста, используйте режим с кнопками или попробуйте позже.")
  else
    let messages := [{| role := utf8 "system"; content := system_prompt application_data |}] in
    let messages := messages ++ last_n 10 conversation_history in
    let messages := messages ++ [{| role := utf8 "user"; content := user_message |}] in
    response <- create_completion messages ;;
    match response with
    | inr ai_message =>
        logger INFO (utf8 "✅ Получен ответ от AI: " ++ first_n 50 ai_message ++ utf8 "...") ;;
        ret ai_message
    | inl e =>
        logger ERROR (utf8 "❌ Ошибка OpenAI API: " ++ e) ;;
        ret (utf8 "Извините, произошла ошибка при обработке сообщения. Попробуйте ещё раз или используйте режим с кнопками (/start).")
    end.

(** *** The field extractor *)

Definition address_keywords : list str :=
  [utf8 "улица"; utf8 "ул."; utf8 "проспект"; utf8 "пр."; utf8 "переулок";
   utf8 "пер."; utf8 "площадь"; utf8 "шоссе"; utf8 "дом"; utf8 "д."].

Definition damage_keywords : list str :=
  [utf8 "бампер"; utf8 "фара"; utf8 "крыло"; utf8 "дверь"; utf8 "капот";
   utf8 "повреждение"; utf8 "царапина"; utf8 "вмятина"; utf8 "разбит"].

(** [\+7[\s-]?\d{3}[\s-]?\d{3}[\s-]?\d{2}[\s-]?\d{2}],
    [8[\s-]?\d{3}[\s-]?\d{3}[\s-]?\d{2}[\s-]?\d{2}] and [\d{11}];
    43, 55 and 56 are the characters plus, 7 and 8. *)
Definition phone_tail : Re.regex :=
  [Re.Optional Re.SpaceOrHyphen; Re.Times 3 Re.Digit;
   Re.Optional Re.SpaceOrHyphen; Re.Times 3 Re.Digit;
   Re.Optional Re.SpaceOrHyphen; Re.Times 2 Re.Digit;
   Re.Optional Re.SpaceOrHyphen; Re.Times 2 Re.Digit].

Definition phone_patterns : list Re.regex :=
  [ Re.One (Re.Lit 43%N) :: Re.One (Re.Lit 55%N) :: phone_tail;
    Re.One (Re.Lit 56%N) :: phone_tail;
    [Re.Times 11 Re.Digit] ].

(** The source mutates [application] in place and returns [updated], a dict
    whose keys are the fields it has just filled, in the order it filled
    them; here both come back as a pair. *)
Definition extract_info_from_message (message : str) (application : Application)
    : list str * Application :=
  let message_lower := lower message in
  let updated : list str := [] in
  let '(updated, application) :=
    if negb (truthy (location application)) then
      if existsb (fun word => str_in word message_lower) address_keywords then
        (updated ++ [utf8 "location"], set_location (Some message) application)
      else (updated, application)
    else (updated, application) in
  let '(updated, application) :=
    if negb (truthy (participants application)) then
      if str_in (utf8 "два") message_lower || str_in (utf8 "2") message then
        (updated ++ [utf8 "participants"],
         set_participants (Some (utf8 "2 автомобиля")) application)
      else if str_in (utf8 "три") message_lower || str_in (utf8 "3") message then
        (updated ++ [utf8 "participants"],
         set_participants (Some (utf8 "3 автомобиля")) application)
      else (updated, application)
    else (updated, application) in
  let '(updated, application) :=
    if negb (truthy (damage application)) then
      if existsb (fun word => str_in word message_lower) damage_keywords then
        (updated ++ [utf8 "damage"], set_damage (Some message) application)
      else (updated, application)
    else (updated, application) in
  let '(updated, application) :=
    if negb (truthy (injuries application)) then
      if str_in (utf8 "нет пострадавших") message_lower
         || str_in (utf8 "никто не пострадал") message_lower then
        (updated ++ [utf8 "injuries"],
         set_injuries (Some (utf8 "Нет пострадавших")) application)
      else if str_in (utf8 "пострадал") message_lower
              || str_in (utf8 "ранен") message_lower then
        (updated ++ [utf8 "injuries"],
         set_injuries (Some (utf8 "Есть пострадавшие")) application)
      else (updated, application)
    else (updated, application) in
  let '(updated, application) :=
    if negb (truthy (contact application)) then
      match Re.first_found phone_patterns message with
      | Some group => (updated ++ [utf8 "contact"], set_contact (Some group) application)
      | None => (updated, application)
      end
    else (updated, application) in
  (updated, application).

(** The extractor is five blocks of one shape, one per field: when the field
    is not filled and the message yields a value for it, the value is stored
    and the key reported. [rule] is that shape and the [found_] functions are
    the values the blocks look for; [extract_rules] below proves that the
    function is the sequence of the five. *)
Definition rule (key : str) (get : Application -> option str)
    (set : option str -> Application -> Application) (found : option str)
    (st : list str * Application) : list str * Application :=
  let '(updated, application) := st in
  if negb (truthy (get application)) then
    match found with
    | Some v => (updated ++ [key], set (Some v) application)
    | None => (updated, application)
    end
  else (updated, application).

Definition found_location (message : str) : option str :=
  if existsb (fun word => str_in word (lower message)) address_keywords
  then Some message else None.

Definition found_participants (message : str) : option str :=
  if str_in (utf8 "два") (lower message) || str_in (utf8 "2") message
  then Some (utf8 "2 автомобиля")
  else if str_in (utf8 "три") (lower message) || str_in (utf8 "3") message
       then Some (utf8 "3 автомобиля")
       else None.

Definition found_damage (message : str) : option str :=
  if existsb (fun word => str_in word (lower message)) damage_keywords
  then Some message else None.

Definition found_injuries (message : str) : option str :=
  if str_in (utf8 "нет пострадавших") (lower message)
     || str_in (utf8 "никто не пострадал") (lower message)
  then Some (utf8 "Нет пострадавших")
  else if str_in (utf8 "пострадал") (lower message) || str_in (utf8 "ранен") (lower message)
       then Some (utf8 "Есть пострадавшие")
       else None.

Definition found_contact (message : str) : option str :=
  Re.first_found phone_patterns message.

(** What a block leaves in its field, and the key it reports, if any. *)
Definition stored (get : Application -> option str) (found : option str)
    (a : Application) : option str :=
  if negb (truthy (get a)) then
    match found with Some v => Some v | None => get a end
  else get a.

Definition reported (key : str) (get : Application -> option str) (found : option str)
    (a : Application) : list str :=
  if negb (truthy (get a)) then
    match found with Some _ => [key] | None => [] end
  else [].

(** *** Formatting *)

Definition format_application (app : Application) (user_info : option User) : M str :=
  let user_section :=
    match user_info with
    | Some user => utf8 "
👤 *ИНФОРМАЦИЯ О ПОЛЬЗОВАТЕЛЕ:*
Имя: " ++ first_name user ++ utf8 "
Username: @" ++ render (username user) ++ utf8 "
Telegram ID: `" ++ str_of_int (id user) ++ utf8 "`

"
    | None => []
    end in
  received <- datetime_now ;;
  ret (utf8 "
🚨 *НОВАЯ ЗАЯВКА НА АВАРИЙНОГО КОМИССАРА*
━━━━━━━━━━━━━━━━━━━━━
" ++ user_section ++ utf8 "
🕐 *Дата и время:*
" ++ strftime_seconds (timestamp app) ++ utf8 "

📍 *Место ДТП:*
" ++ render (location app) ++ utf8 "

👥 *Участники:*
" ++ render (participants app) ++ utf8 "

🚗 *Повреждения:*
" ++ render (damage app) ++ utf8 "

🚑 *Пострадавшие:*
" ++ render (injuries app) ++ utf8 "

📞 *Контакт:*
" ++ render (contact app) ++ utf8 "

━━━━━━━━━━━━━━━━━━━━━
⏰ Время получения: " ++ strftime_seconds received ++ utf8 "
").

(** The summary [get_contact] and [finish_ai_application] show for review. *)
Definition summary (app : Application) : str :=
  utf8 "
━━━━━━━━━━━━━━━━━━━━━
📋 ЗАЯВКА НА АВАРИЙНОГО КОМИССАРА
━━━━━━━━━━━━━━━━━━━━━

🕐 Время: " ++ strftime_minutes (timestamp app) ++ utf8 "

📍 Место ДТП:
" ++ render (location app) ++ utf8 "

👥 Участники:
" ++ render (participants app) ++ utf8 "

🚗 Повреждения:
" ++ render (damage app) ++ utf8 "

🚑 Пострадавшие:
" ++ render (injuries app) ++ utf8 "

📞 Контакт:
" ++ render (contact app) ++ utf8 "

━━━━━━━━━━━━━━━━━━━━━
".

Definition confirm_keyboard : markup :=
  ReplyKeyboardMarkup [[utf8 "✅ Подтвердить и отправить"]; [utf8 "❌ Отменить"]].

(** *** Handlers *)

Definition start (update : Update) : M State :=
  let user := effective_user update in
  logger INFO (utf8 "👤 Пользователь " ++ first_name user ++ utf8 " ("
               ++ str_of_int (id user) ++ utf8 ") начал работу") ;;
  admin <- is_admin (id user) ;;
  let keyboard :=
    if admin then
      [[utf8 "🤖 Общаться с AI-помощником"];
       [utf8 "📋 Заполнить по шагам"];
       [utf8 "⚙️ Управление администраторами"]]
    else
      [[utf8 "🤖 Общаться с AI-помощником"];
       [utf8 "📋 Заполнить по шагам"]] in
  created <- datetime_now ;;
  put_application
    {| timestamp := created; location := None; participants := None;
       damage := None; injuries := None; photos_count := 0; contact := None |} ;;
  put_ai_history [] ;;
  reply_text (utf8 "Здравствуйте, " ++ first_name user ++ utf8 "! 👋

Я помогу оформить заявку для аварийного комиссара после ДТП.

Выберите удобный способ:") (ReplyKeyboardMarkup keyboard) None ;;
  ret CHOOSING_MODE.

Definition admin_menu (update : Update) : M State :=
  admin <- is_admin (id (effective_user update)) ;;
  if negb admin then
    reply_text (utf8 "❌ У вас нет доступа к этой функции.") ReplyKeyboardRemove None ;;
    ret END
  else
    admins <- load_admins ;;
    let admin_list :=
      if nonempty admins then
        join (utf8 "
") (map (fun admin_id => utf8 "• " ++ str_of_int admin_id) admins)
      else utf8 "Нет администраторов" in
    let keyboard :=
      [[utf8 "➕ Добавить администратора"];
       [utf8 "➖ Удалить администратора"];
       [utf8 "📋 Список администраторов"];
       [utf8 "◀️ Вернуться назад"]] in
    reply_text (utf8 "⚙️ *УПРАВЛЕНИЕ АДМИНИСТРАТОРАМИ*

Текущие администраторы (" ++ str_of_int (len admins) ++ utf8 "):
" ++ admin_list ++ utf8 "

Выберите действие:") (ReplyKeyboardMarkup keyboard) (Some (utf8 "Markdown")) ;;
    ret ADMIN_MENU.

Definition ai_greeting : M State :=
  reply_text (utf8 "🤖 Отлично! Теперь общайтесь со мной свободно.

Расскажите, что произошло и где?") ReplyKeyboardRemove None ;;
  ret AI_CHAT.

Definition guided_greeting : M State :=
  reply_text (utf8 "📋 Буду задавать вопросы по порядку.

📍 Шаг 1/5: Где произошло ДТП?
Укажите адрес или ориентиры:") ReplyKeyboardRemove None ;;
  ret LOCATION.

(** [is_admin] is called only when the choice has the gear sign: [and] does
    not evaluate its right operand otherwise. *)
Definition choose_mode (update : Update) : M State :=
  let choice := message_text update in
  logger INFO (utf8 "📌 Выбран режим: " ++ choice) ;;
  admin <- (if str_in (utf8 "⚙️") choice then is_admin (id (effective_user update))
            else ret false) ;;
  if admin then admin_menu update
  else if str_in (utf8 "🤖") choice || str_in (utf8 "AI") (upper choice) then ai_greeting
  else guided_greeting.

Definition admin_menu_handler (update : Update) : M State :=
  let choice := message_text update in
  if str_in (utf8 "➕") choice then
    reply_text (utf8 "➕ Отправьте Telegram ID нового администратора:

💡 Как узнать ID:
1. Напишите боту @userinfobot
2. Он отправит вам ваш ID

Для отмены отправьте /cancel") ReplyKeyboardRemove None ;;
    ret ADMIN_ADD
  else if str_in (utf8 "➖") choice then
    admins <- load_admins ;;
    if negb (nonempty admins) then
      reply_text (utf8 "❌ Нет администраторов для удаления.") ReplyKeyboardRemove None ;;
      ret END
    else
      reply_text (utf8 "➖ Отправьте Telegram ID администратора для удаления:

Текущие администраторы:
" ++ join (utf8 "
") (map (fun aid => utf8 "• " ++ str_of_int aid) admins) ++ utf8 "

Для отмены отправьте /cancel") ReplyKeyboardRemove None ;;
      ret ADMIN_REMOVE
  else if str_in (utf8 "📋") choice then
    admins <- load_admins ;;
    let admin_list :=
      if nonempty admins then
        join (utf8 "
") (map (fun admin_id => utf8 "• `" ++ str_of_int admin_id ++ utf8 "`") admins)
      else utf8 "Нет администраторов" in
    reply_text (utf8 "📋 *СПИСОК АДМИНИСТРАТОРОВ* (" ++ str_of_int (len admins) ++ utf8 "):

" ++ admin_list) ReplyKeyboardRemove (Some (utf8 "Markdown")) ;;
    admin_menu update
  else start update.

Definition invalid_id_text : str :=
  utf8 "❌ Неверный формат ID. Введите числовой ID.
Для отмены отправьте /cancel".

Definition admin_add_handler (update : Update) : M State :=
  match int_of_str (strip (message_text update)) with
  | Some new_admin_id =>
      admins <- load_admins ;;
      (if int_in_list new_admin_id admins then
         reply_text (utf8 "⚠️ Администратор " ++ str_of_int new_admin_id
                     ++ utf8 " уже есть в списке!") NoMarkup None
       else
         saved <- save_admins (admins ++ [new_admin_id]) ;;
         if saved then
           reply_text (utf8 "✅ Администратор " ++ str_of_int new_admin_id
                       ++ utf8 " успешно добавлен!") NoMarkup None ;;
           logger INFO (utf8 "✅ Добавлен новый администратор: " ++ str_of_int new_admin_id)
         else
           reply_text (utf8 "❌ Ошибка при сохранении администратора.") NoMarkup None) ;;
      admin_menu update
  | None =>
      reply_text invalid_id_text NoMarkup None ;;
      ret ADMIN_ADD
  end.

Definition last_admin_text : str :=
  utf8 "❌ Нельзя удалить последнего администратора (себя)!".

Definition admin_remove_handler (update : Update) : M State :=
  match int_of_str (strip (message_text update)) with
  | Some remove_admin_id =>
      admins <- load_admins ;;
      (if negb (int_in_list remove_admin_id admins) then
         reply_text (utf8 "⚠️ Администратор " ++ str_of_int remove_admin_id
                     ++ utf8 " не найден в списке!") NoMarkup None
       else if Z.eqb remove_admin_id (id (effective_user update))
               && Z.eqb (len admins) 1 then
         reply_text last_admin_text NoMarkup None
       else
         saved <- save_admins (list_remove remove_admin_id admins) ;;
         if saved then
           reply_text (utf8 "✅ Администратор " ++ str_of_int remove_admin_id
                       ++ utf8 " успешно удалён!") NoMarkup None ;;
           logger INFO (utf8 "✅ Удалён администратор: " ++ str_of_int remove_admin_id)
         else
           reply_text (utf8 "❌ Ошибка при сохранении изменений.") NoMarkup None) ;;
      admin_menu update
  | None =>
      reply_text invalid_id_text NoMarkup None ;;
      ret ADMIN_REMOVE
  end.

(** *** The guided form *)

Definition get_location (update : Update) : M State :=
  app <- gets application ;;
  put_application (set_location (Some (message_text update)) app) ;;
  logger INFO (utf8 "📍 Место ДТП: " ++ message_text update) ;;
  reply_text (utf8 "✅ Место ДТП сохранено.

👥 Шаг 2/5: Сколько автомобилей участвовало?")
    (ReplyKeyboardMarkup [[utf8 "2 автомобиля"; utf8 "3 автомобиля"];
                          [utf8 "Более 3 автомобилей"]]) None ;;
  ret PARTICIPANTS.

Definition get_participants (update : Update) : M State :=
  app <- gets application ;;
  put_application (set_participants (Some (message_text update)) app) ;;
  logger INFO (utf8 "👥 Участники: " ++ message_text update) ;;
  reply_text (utf8 "✅ Количество участников сохранено.

🚗 Шаг 3/5: Опишите повреждения вашего автомобиля:
(например: разбита фара, помят бампер)") ReplyKeyboardRemove None ;;
  ret DAMAGE.

Definition get_damage (update : Update) : M State :=
  app <- gets application ;;
  put_application (set_damage (Some (message_text update)) app) ;;
  logger INFO (utf8 "🚗 Повреждения: " ++ message_text update) ;;
  reply_text (utf8 "✅ Повреждения зафиксированы.

🚑 Шаг 4/5: Есть ли пострадавшие?")
    (ReplyKeyboardMarkup [[utf8 "Нет пострадавших"]; [utf8 "Есть пострадавшие"]]) None ;;
  ret INJURIES.

Definition get_injuries (update : Update) : M State :=
  app <- gets application ;;
  put_application (set_injuries (Some (message_text update)) app) ;;
  logger INFO (utf8 "🚑 Пострадавшие: " ++ message_text update) ;;
  reply_text (utf8 "✅ Информация сохранена.

📞 Шаг 5/5: Укажите ваш контактный телефон:
(например: +79001234567)") ReplyKeyboardRemove None ;;
  ret CONTACT.

Definition get_contact (update : Update) : M State :=
  app <- gets application ;;
  put_application (set_contact (Some (message_text update)) app) ;;
  logger INFO (utf8 "📞 Контакт: " ++ message_text update) ;;
  app <- gets application ;;
  reply_text (summary app ++ utf8 "

Проверьте данные:") confirm_keyboard None ;;
  ret CONFIRM.

(** *** The assisted interview *)

Definition finish_words : list str :=
  [utf8 "/finish"; utf8 "завершить"; utf8 "закончить"; utf8 "готово"].

(** The fields [finish_ai_application] requires, by the names it shows. *)
Definition missing_fields (app : Application) : list str :=
  let missing : list str := [] in
  let missing :=
    if negb (truthy (location app)) then missing ++ [utf8 "место ДТП"] else missing in
  let missing :=
    if negb (truthy (contact app)) then missing ++ [utf8 "телефон"] else missing in
  missing.

Definition finish_ai_application (update : Update) : M State :=
  app <- gets application ;;
  let missing := missing_fields app in
  if nonempty missing then
    reply_text (utf8 "⚠️ Пожалуйста, укажите: " ++ join (utf8 ", ") missing) NoMarkup None ;;
    ret AI_CHAT
  else
    reply_text (summary app ++ utf8 "

Проверьте данные:") confirm_keyboard None ;;
    ret CONFIRM.

Definition ai_chat (update : Update) : M State :=
  let user_message := message_text update in
  logger INFO (utf8 "💬 AI-чат: " ++ user_message) ;;
  if str_in_list (lower user_message) finish_words then
    finish_ai_application update
  else
    app <- gets application ;;
    let '(updated_fields, app) := extract_info_from_message user_message app in
    put_application app ;;
    history <- gets ai_history ;;
    put_ai_history (history ++ [{| role := utf8 "user"; content := user_message |}]) ;;
    history <- gets ai_history ;;
    ai_response <- get_ai_response user_message history app ;;
    history <- gets ai_history ;;
    put_ai_history (history ++ [{| role := utf8 "assistant"; content := ai_response |}]) ;;
    let ai_response :=
      if nonempty updated_fields then
        utf8 "✅ Сохранено: " ++ join (utf8 ", ") updated_fields ++ utf8 "

" ++ ai_response
      else ai_response in
    reply_text (ai_response ++ utf8 "

💡 Когда закончите, напишите /finish") NoMarkup None ;;
    ret AI_CHAT.

(** *** Confirmation *)

Definition submitted_text : str :=
  utf8 "✅ ЗАЯВКА УСПЕШНО ОТПРАВЛЕНА!

Наш специалист свяжется с вами в ближайшее время.".

Definition confirm_application (update : Update) : M State :=
  let choice := message_text update in
  if str_in (utf8 "✅") choice then
    app <- gets application ;;
    let user := effective_user update in
    formatted_application <- format_application app (Some user) ;;
    send_to_admins formatted_application ;;
    logger INFO (repeat 61%N 50) ;;
    logger INFO (utf8 "📨 НОВАЯ ЗАЯВКА ОТПРАВЛЕНА:") ;;
    logger INFO (utf8 "От: " ++ first_name user ++ utf8 " (@" ++ render (username user)
                 ++ utf8 ", ID: " ++ str_of_int (id user) ++ utf8 ")") ;;
    logger INFO (utf8 "Время: " ++ isoformat (timestamp app)) ;;
    logger INFO (utf8 "Место: " ++ render (location app)) ;;
    logger INFO (utf8 "Участники: " ++ render (participants app)) ;;
    logger INFO (utf8 "Повреждения: " ++ render (damage app)) ;;
    logger INFO (utf8 "Пострадавшие: " ++ render (injuries app)) ;;
    logger INFO (utf8 "Контакт: " ++ render (contact app)) ;;
    logger INFO (repeat 61%N 50) ;;
    reply_text submitted_text ReplyKeyboardRemove None ;;
    ret END
  else
    reply_text (utf8 "❌ Заявка отменена. Если хотите начать заново — отправьте /start")
      ReplyKeyboardRemove None ;;
    ret END.

Definition cancel (update : Update) : M State :=
  reply_text (utf8 "❌ Диалог отменён. Если хотите начать заново — отправьте /start")
    ReplyKeyboardRemove None ;;
  ret END.

(** *** The conversation

    [main] registers one [ConversationHandler] and nothing else, so an
    update is handled by the handler this one selects, or not at all. The
    selection is the library's (python-telegram-bot 20): a handler gets an
    update when its [check_update] accepts it. *)

(** [filters.TEXT]: the message has a text, and the text is not empty. *)
Definition TEXT (update : Update) : bool := nonempty (message_text update).

(** [entity.type == MessageEntity.BOT_COMMAND] *)
Definition is_bot_command (entity : MessageEntity.t) : bool :=
  match MessageEntity.type entity with
  | MessageEntity.BOT_COMMAND => true
  | MessageEntity.OTHER _ => false
  end.

(** [filters.COMMAND]: the first entity of the message is a bot command that
    starts at the first character of the text. *)
Definition COMMAND (update : Update) : bool :=
  match message_entities update with
  | [] => false
  | first :: _ => is_bot_command first && Nat.eqb (MessageEntity.offset first) 0
  end.

Record Handler := {
  check_update : Update -> bool;
  callback : Update -> M State
}.

(** [MessageHandler(filters, callback)] *)
Definition MessageHandler (filters : Update -> bool) (callback : Update -> M State)
  : Handler :=
  {| check_update := filters; callback := callback |}.

(** [CommandHandler(command, callback)]: the message starts with a bot
    command; the name of the command, which is the text of the entity
    without its slash and up to an [@], is [command] in any case of the
    letters; and the name after the [@], if there is one, is the bot's own. *)
Definition CommandHandler (command : str) (callback : Update -> M State) : Handler :=
  {| check_update := fun update =>
       match message_entities update with
       | [] => false
       | first :: _ =>
           is_bot_command first && Nat.eqb (MessageEntity.offset first) 0
           && nonempty (message_text update)
           && (let command_parts :=
                 split 64%N (slice 1 (MessageEntity.length first) (message_text update))
                 ++ [bot_username] in
               match command_parts with
               | name :: bot :: _ =>
                   str_in_list (lower name) [lower command]
                   && str_eqb (lower bot) (lower bot_username)
               | _ => false
               end)
       end;
     callback := callback |}.

(** [filters.TEXT & ~filters.COMMAND], the filter of every state. *)
Definition TEXT_and_not_COMMAND (update : Update) : bool :=
  TEXT update && negb (COMMAND update).

Definition entry_points : list Handler := [CommandHandler (utf8 "start") start].

(** The [states] table of the [ConversationHandler] built in [main].
    [PHOTOS] has no entry. *)
Definition states (s : State) : list Handler :=
  match s with
  | CHOOSING_MODE => [MessageHandler TEXT_and_not_COMMAND choose_mode]
  | LOCATION => [MessageHandler TEXT_and_not_COMMAND get_location]
  | PARTICIPANTS => [MessageHandler TEXT_and_not_COMMAND get_participants]
  | DAMAGE => [MessageHandler TEXT_and_not_COMMAND get_damage]
  | INJURIES => [MessageHandler TEXT_and_not_COMMAND get_injuries]
  | CONTACT => [MessageHandler TEXT_and_not_COMMAND get_contact]
  | AI_CHAT => [MessageHandler TEXT_and_not_COMMAND ai_chat]
  | CONFIRM => [MessageHandler TEXT_and_not_COMMAND confirm_application]
  | ADMIN_MENU => [MessageHandler TEXT_and_not_COMMAND admin_menu_handler]
  | ADMIN_ADD => [MessageHandler TEXT_and_not_COMMAND admin_add_handler]
  | ADMIN_REMOVE => [MessageHandler TEXT_and_not_COMMAND admin_remove_handler]
  | PHOTOS | END => []
  end.

Definition fallbacks : list Handler := [CommandHandler (utf8 "cancel") cancel].

(** The first of the handlers that accepts the update. *)
Fixpoint first_accepting (handlers : list Handler) (update : Update) : option Handler :=
  match handlers with
  | [] => None
  | handler :: rest =>
      if check_update handler update then Some handler
      else first_accepting rest update
  end.

(** One update in state [s], where [END] stands for no conversation being
    under way. Without a conversation only an entry point is tried. With
    one, the handlers of the state are tried, then the fallbacks; the
    handler found runs and the conversation moves to the state it returns.
    An update that no handler accepts is dropped: nothing happens and the
    state stays. *)
Definition process_update (s : State) (update : Update) : M State :=
  match s with
  | END =>
      match first_accepting entry_points update with
      | Some handler => callback handler update
      | None => ret END
      end
  | _ =>
      match first_accepting (states s) update with
      | Some handler => callback handler update
      | None =>
          match first_accepting fallbacks update with
          | Some handler => callback handler update
          | None => ret s
          end
      end
  end.

(** A sequence of updates; the result lists the state reached after each of
    them. *)
Fixpoint conversation (s : State) (updates : list Update) : M (list State) :=
  match updates with
  | [] => ret []
  | update :: rest =>
      s' <- process_update s update ;;
      visited <- conversation s' rest ;;
      ret (s' :: visited)
  end.

End Handlers.

End Bot.

(** ** A concrete interpreter and a concrete world

    [Basic] implements [PyBuiltins] on the code points the bot's own texts
    use: case mapping for the Latin and Cyrillic alphabets, the decimal
    digits 0 to 9, Python's white space, and [int] on decimal numerals.
    The general theorems below hold for every implementation of the
    interface; the concrete runs use this one. *)

Module Concrete.
Import Runtime Bot.
Local Open Scope N_scope.

Definition between (lo hi c : N) : bool := (lo <=? c) && (c <=? hi).

Definition lower_char (c : codepoint) : codepoint :=
  if between 65 90 c then c + 32                      (* A-Z *)
  else if between 192 222 c && negb (c =? 215) then c + 32
  else if between 0x410 0x42F c then c + 32           (* А-Я *)
  else if between 0x400 0x40F c then c + 80           (* Ѐ-Џ *)
  else c.

Definition upper_char (c : codepoint) : codepoint :=
  if between 97 122 c then c - 32
  else if between 224 254 c && negb (c =? 247) then c - 32
  else if between 0x430 0x44F c then c - 32
  else if between 0x450 0x45F c then c - 80
  else c.

Definition digit (c : codepoint) : bool := between 48 57 c.

Definition space (c : codepoint) : bool :=
  between 9 13 c || between 28 32 c || (c =? 0x85) || (c =? 0xA0) || (c =? 0x1680)
  || between 0x2000 0x200A c || (c =? 0x2028) || (c =? 0x2029) || (c =? 0x202F)
  || (c =? 0x205F) || (c =? 0x3000).

Fixpoint drop_spaces (s : str) : str :=
  match s with
  | c :: s' => if space c then drop_spaces s' else s
  | [] => []
  end.

Fixpoint digits_value (s : str) (acc : Z) : option Z :=
  match s with
  | [] => Some acc
  | c :: s' => if digit c then digits_value s' (acc * 10 + Z.of_N (c - 48))%Z else None
  end.

(** [int(s)] on an optional sign and decimal digits, white space around
    them allowed; anything else is a [ValueError]. *)
Definition int_of (s : str) : option Z :=
  match rev (drop_spaces (rev (drop_spaces s))) with
  | [] => None
  | c :: d =>
      if c =? 45 then
        match d with [] => None | _ => option_map Z.opp (digits_value d 0) end
      else if c =? 43 then
        match d with [] => None | _ => digits_value d 0 end
      else digits_value (c :: d) 0
  end.

Definition Basic : PyBuiltins :=
  {| lower := map lower_char;
     upper := map upper_char;
     isdecimal := digit;
     isspace := space;
     int_of_str := int_of |}.

Definition noon : datetime :=
  {| year := 2025; month := 3; day := 9; hour := 12; minute := 5; second := 7;
     microsecond := 0 |}.

(** A world in which the backend answers every request with one question,
    every delivery succeeds except those to the chat 7, and the clock stands
    at [noon]. *)
Definition Scripted : Services :=
  {| openai_client := true;
     chat_completions_create := fun _ _ => inr (utf8 "Где произошло ДТП?");
     send_message := fun _ to _ =>
       if Z.eqb to 7 then Some (utf8 "Forbidden: bot was blocked by the user") else None;
     now := fun _ => noon;
     bot_username := utf8 "helproad74bot" |}.

(** A world without a client of the backend; deliveries succeed. *)
Definition Offline : Services :=
  {| openai_client := false;
     chat_completions_create := fun _ _ => inl (utf8 "no client");
     send_message := fun _ _ _ => None;
     now := fun _ => noon;
     bot_username := utf8 "helproad74bot" |}.

(** The application [start] creates. *)
Definition fresh (t : datetime) : Application :=
  {| timestamp := t; location := None; participants := None; damage := None;
     injuries := None; photos_count := 0; contact := None |}.

(** The environment of a user who has just sent [/start], with the roster
    file in the state given. *)
Definition session (f : admins_file) (app : Application) : Env :=
  {| admins_txt := f; write_error := None; log := []; replies := [];
     deliveries := []; requests := []; clock_reads := 1;
     application := app; ai_history := [] |}.

(** The same on a file system that refuses to open a file for writing. *)
Definition read_only (f : admins_file) : Env :=
  {| admins_txt := f;
     write_error := Some (OpenRaises (utf8 "[Errno 30] Read-only file system"));
     log := []; replies := []; deliveries := []; requests := []; clock_reads := 1;
     application := fresh noon; ai_history := [] |}.

Definition somebody (n : Z) : User :=
  {| id := n; first_name := utf8 "Анна"; username := None |}.

(** A text message of the user [n] in which Telegram has marked nothing. *)
Definition says (n : Z) (s : string) : Update :=
  {| effective_user := somebody n; message_text := utf8 s; message_entities := [] |}.

(** A message of the user [n] that is one command, as Telegram delivers it:
    the whole text is marked as a bot command. *)
Definition command (n : Z) (s : string) : Update :=
  {| effective_user := somebody n; message_text := utf8 s;
     message_entities :=
       [{| MessageEntity.type := MessageEntity.BOT_COMMAND;
           MessageEntity.offset := 0;
           MessageEntity.length := List.length (utf8 s) |}] |}.

(** An environment like [read_only], on a disk that is full: the file is
    opened and the write of the first line fails. *)
Definition disk_full (f : admins_file) : Env :=
  {| admins_txt := f;
     write_error := Some (WriteRaises 0 (utf8 "[Errno 28] No space left on device"));
     log := []; replies := []; deliveries := []; requests := []; clock_reads := 1;
     application := fresh noon; ai_history := [] |}.

(** The message of the specification's example of an extraction. *)
Definition accident_message : str :=
  utf8 "авария на улице Ленина, два автомобиля, никто не пострадал, +79001234567".

(** A report with the location filled and no contact yet. *)
Definition located : Application :=
  set_location (Some (utf8 "перекрёсток у вокзала")) (fresh noon).

(** The same with the contact filled as well. *)
Definition complete : Application :=
  set_contact (Some (utf8 "+79001234567")) located.

(** A history of twelve turns whose contents are the numbers 1 to 12. *)
Definition twelve_turns : list chat_message :=
  map (fun n => {| role := if Z.even n then utf8 "assistant" else utf8 "user";
                   content := str_of_int n |})
      [1; 2; 3; 4; 5; 6; 7; 8; 9; 10; 11; 12]%Z.

(** A message with the digit 2 in a house number only. *)
Definition house_message : str := utf8 "дом 23, три машины, 3 человека".

End Concrete.

Import Runtime Bot.

(** ** Observations

    What the properties below say about a run: whether a field of the report
    is set, the roster a file stands for, the first reply a handler sends,
    and whether a delivery went through. *)

(** A field of the report is set when it holds a text that is not empty. *)
Definition is_set (v : option str) : Prop := exists s, v = Some s /\ s <> [].

(** The roster a file stands for. *)
Definition roster_of (f : admins_file) : list Z :=
  match f with
  | Lines ids => ids
  | Absent | Unreadable _ => ADMIN_IDS
  end.

(** The file a save of [admins] that fails leaves, for the file [f] there
    was before it. *)
Definition left_by (failure : write_failure) (admins : list Z) (f : admins_file)
  : admins_file :=
  match failure with
  | OpenRaises _ => f
  | WriteRaises written _ => Lines (first_n written admins)
  end.

(** The first reply sent between two environments. *)
Definition first_reply (before after : Env) : option reply :=
  nth_error (replies after) (List.length (replies before)).

Definition first_text (before after : Env) : option str :=
  option_map text (first_reply before after).

(** A delivery that raised nothing. *)
Definition delivered (d : delivery) : bool :=
  match raised d with
  | None => true
  | Some _ => false
  end.

(** The least and the greatest number of characters a pattern can match. *)
Definition shortest (p : Re.regex) : nat :=
  list_sum (map (fun i => match i with
                          | Re.One _ => 1
                          | Re.Optional _ => 0
                          | Re.Times n _ => n
                          end) p).

Definition longest (p : Re.regex) : nat :=
  list_sum (map (fun i => match i with
                          | Re.One _ => 1
                          | Re.Optional _ => 1
                          | Re.Times n _ => n
                          end) p).

(** * Properties *)

(** ** Text *)

Lemma truthy_nonempty (v : option str) :
  truthy v = true <-> exists s, v = Some s /\ s <> [].
Proof.
  split.
  - destruct v as [[|c s]|]; simpl; intro H; try discriminate.
    exists (c :: s). split; [reflexivity | discriminate].
  - intros [s [-> Hs]]. destruct s; [contradiction | reflexivity].
Qed.

Lemma starts_with_cons (c : codepoint) (s : str) : starts_with [c] (c :: s) = true.
Proof. simpl. now rewrite N.eqb_refl. Qed.

(** A character that occurs in a string is a substring of it. *)
Lemma str_in_char (c : codepoint) (s : str) : In c s -> str_in [c] s = true.
Proof.
  induction s as [|d s IH]; intros Hin; [contradiction|].
  destruct Hin as [-> | Hin].
  - unfold str_in; fold str_in. now rewrite starts_with_cons.
  - unfold str_in; fold str_in. rewrite (IH Hin). apply orb_true_r.
Qed.

Lemma application_ext (a b : Application) :
  timestamp a = timestamp b -> location a = location b ->
  participants a = participants b -> damage a = damage b ->
  injuries a = injuries b -> photos_count a = photos_count b ->
  contact a = contact b -> a = b.
Proof. destruct a, b; simpl; intros; subst; reflexivity. Qed.

(** ** The field extractor *)

Section Extractor.
Context {py : PyBuiltins}.

(** One block of the extractor is an instance of [rule]. *)
Ltac block_is_rule :=
  unfold rule, found_location, found_participants, found_damage, found_injuries,
    found_contact;
  repeat match goal with
         | |- context [if ?b then _ else _] => destruct b
         | |- context [match ?o with Some _ => _ | None => _ end] => destruct o
         end;
  reflexivity.

Ltac next_block r u a :=
  match goal with
  | |- (let '(_, _) := ?X in _) = _ =>
      replace X with r by block_is_rule;
      destruct r as [u a]; cbv beta iota
  end.

Lemma extract_rules (message : str) (a : Application) :
  extract_info_from_message message a =
  rule (utf8 "contact") contact set_contact (found_contact message)
    (rule (utf8 "injuries") injuries set_injuries (found_injuries message)
      (rule (utf8 "damage") damage set_damage (found_damage message)
        (rule (utf8 "participants") participants set_participants
           (found_participants message)
          (rule (utf8 "location") location set_location (found_location message)
             ([], a))))).
Proof.
  unfold extract_info_from_message. cbv zeta.
  next_block (rule (utf8 "location") location set_location (found_location message) ([], a))
    u1 a1.
  next_block (rule (utf8 "participants") participants set_participants
                (found_participants message) (u1, a1)) u2 a2.
  next_block (rule (utf8 "damage") damage set_damage (found_damage message) (u2, a2)) u3 a3.
  next_block (rule (utf8 "injuries") injuries set_injuries (found_injuries message) (u3, a3))
    u4 a4.
  next_block (rule (utf8 "contact") contact set_contact (found_contact message) (u4, a4))
    u5 a5.
  reflexivity.
Qed.

(** What a block leaves in its own field, in another field, and in [updated]. *)
Section Rule.
Variables (key : str) (get : Application -> option str)
  (set : option str -> Application -> Application) (found : option str).
Hypothesis get_set : forall v x, get (set v x) = v.

Lemma rule_own (st : list str * Application) :
  get (snd (rule key get set found st)) = stored get found (snd st).
Proof.
  destruct st as [u a]. unfold rule, stored. simpl.
  destruct (truthy (get a)); simpl; [reflexivity|].
  destruct found; simpl; [apply get_set | reflexivity].
Qed.

Lemma rule_frame {T} (other : Application -> T) (st : list str * Application) :
  (forall v x, other (set v x) = other x) ->
  other (snd (rule key get set found st)) = other (snd st).
Proof.
  intros Hother. destruct st as [u a]. unfold rule. simpl.
  destruct (truthy (get a)); simpl; [reflexivity|].
  destruct found; simpl; [apply Hother | reflexivity].
Qed.

Lemma rule_updated (st : list str * Application) :
  fst (rule key get set found st) = fst st ++ reported key get found (snd st).
Proof.
  destruct st as [u a]. unfold rule, reported. simpl.
  destruct (truthy (get a)); simpl; [now rewrite app_nil_r|].
  destruct found; simpl; [reflexivity | now rewrite app_nil_r].
Qed.

Lemma reported_filled (a : Application) :
  truthy (get a) = true -> reported key get found a = [].
Proof. unfold reported. now intros ->. Qed.

Lemma reported_key (k : str) (a : Application) : In k (reported key get found a) -> k = key.
Proof.
  unfold reported. destruct (negb (truthy (get a))); [|contradiction].
  destruct found; [|contradiction]. intros [H|[]]. now symmetry.
Qed.

(** Storing twice stores the same. *)
Lemma stored_again (a b : Application) :
  get b = stored get found a ->
  (if negb (truthy (get b)) then
     match found with Some v => Some v | None => get b end
   else get b) = get b.
Proof.
  unfold stored. intros Hb.
  destruct (truthy (get a)) eqn:Ha; simpl in Hb.
  - rewrite Hb, Ha. reflexivity.
  - destruct found as [v|].
    + rewrite Hb. destruct (truthy (Some v)); reflexivity.
    + rewrite Hb, Ha. reflexivity.
Qed.
End Rule.

Ltac frames :=
  repeat (rewrite rule_frame by reflexivity); cbn [snd fst].

Lemma location_extracted (message : str) (a : Application) :
  location (snd (extract_info_from_message message a)) =
  stored location (found_location message) a.
Proof. rewrite extract_rules. frames. now rewrite rule_own. Qed.

Lemma participants_extracted (message : str) (a : Application) :
  participants (snd (extract_info_from_message message a)) =
  stored participants (found_participants message) a.
Proof.
  rewrite extract_rules. frames. rewrite rule_own by reflexivity.
  unfold stored. frames. reflexivity.
Qed.

Lemma damage_extracted (message : str) (a : Application) :
  damage (snd (extract_info_from_message message a)) =
  stored damage (found_damage message) a.
Proof.
  rewrite extract_rules. frames. rewrite rule_own by reflexivity.
  unfold stored. frames. reflexivity.
Qed.

Lemma injuries_extracted (message : str) (a : Application) :
  injuries (snd (extract_info_from_message message a)) =
  stored injuries (found_injuries message) a.
Proof.
  rewrite extract_rules. frames. rewrite rule_own by reflexivity.
  unfold stored. frames. reflexivity.
Qed.

Lemma contact_extracted (message : str) (a : Application) :
  contact (snd (extract_info_from_message message a)) =
  stored contact (found_contact message) a.
Proof.
  rewrite extract_rules. rewrite rule_own by reflexivity.
  unfold stored. frames. reflexivity.
Qed.

Lemma timestamp_extracted (message : str) (a : Application) :
  timestamp (snd (extract_info_from_message message a)) = timestamp a.
Proof. rewrite extract_rules. frames. reflexivity. Qed.

Lemma photos_count_extracted (message : str) (a : Application) :
  photos_count (snd (extract_info_from_message message a)) = photos_count a.
Proof. rewrite extract_rules. frames. reflexivity. Qed.

Lemma updated_extracted (message : str) (a : Application) :
  fst (extract_info_from_message message a) =
  reported (utf8 "location") location (found_location message) a
  ++ reported (utf8 "participants") participants (found_participants message) a
  ++ reported (utf8 "damage") damage (found_damage message) a
  ++ reported (utf8 "injuries") injuries (found_injuries message) a
  ++ reported (utf8 "contact") contact (found_contact message) a.
Proof.
  rewrite extract_rules. rewrite !rule_updated. cbn [fst app].
  unfold reported. frames. rewrite <- !app_assoc. reflexivity.
Qed.

End Extractor.

(** The key a block reports is its own. *)
Ltac other_key H := apply reported_key in H; vm_compute in H; discriminate H.

(** C3. The extractor never overwrites a field that is already filled: for
    every message and every application, a field that is filled before the
    call holds the same value after it and is not reported as updated, and
    running the extractor again with the same message on its own result
    changes nothing. *)
Theorem extractor_never_overwrites :
  forall (py : PyBuiltins) (message : str) (application : Application),
    let updated := fst (extract_info_from_message message application) in
    let application' := snd (extract_info_from_message message application) in
    (truthy (location application) = true ->
     location application' = location application /\ ~ In (utf8 "location") updated) /\
    (truthy (participants application) = true ->
     participants application' = participants application
     /\ ~ In (utf8 "participants") updated) /\
    (truthy (damage application) = true ->
     damage application' = damage application /\ ~ In (utf8 "damage") updated) /\
    (truthy (injuries application) = true ->
     injuries application' = injuries application /\ ~ In (utf8 "injuries") updated) /\
    (truthy (contact application) = true ->
     contact application' = contact application /\ ~ In (utf8 "contact") updated) /\
    snd (extract_info_from_message message application') = application'.
Proof.
  intros py message a updated a'. subst updated a'.
  assert (Hkeys : forall k,
            In k (fst (extract_info_from_message message a)) ->
            In k (reported (utf8 "location") location (found_location message) a)
            \/ In k (reported (utf8 "participants") participants
                       (found_participants message) a)
            \/ In k (reported (utf8 "damage") damage (found_damage message) a)
            \/ In k (reported (utf8 "injuries") injuries (found_injuries message) a)
            \/ In k (reported (utf8 "contact") contact (found_contact message) a)).
  { intros k. rewrite updated_extracted, !in_app_iff. exact (fun H => H). }
  repeat match goal with |- _ /\ _ => split end.
  - intros Ht. split.
    + rewrite location_extracted. unfold stored. now rewrite Ht.
    + intros Hin. apply Hkeys in Hin. rewrite (reported_filled _ _ _ _ Ht) in Hin.
      destruct Hin as [[]|[H|[H|[H|H]]]]; other_key H.
  - intros Ht. split.
    + rewrite participants_extracted. unfold stored. now rewrite Ht.
    + intros Hin. apply Hkeys in Hin. rewrite (reported_filled _ _ _ _ Ht) in Hin.
      destruct Hin as [H|[[]|[H|[H|H]]]]; other_key H.
  - intros Ht. split.
    + rewrite damage_extracted. unfold stored. now rewrite Ht.
    + intros Hin. apply Hkeys in Hin. rewrite (reported_filled _ _ _ _ Ht) in Hin.
      destruct Hin as [H|[H|[[]|[H|H]]]]; other_key H.
  - intros Ht. split.
    + rewrite injuries_extracted. unfold stored. now rewrite Ht.
    + intros Hin. apply Hkeys in Hin. rewrite (reported_filled _ _ _ _ Ht) in Hin.
      destruct Hin as [H|[H|[H|[[]|H]]]]; other_key H.
  - intros Ht. split.
    + rewrite contact_extracted. unfold stored. now rewrite Ht.
    + intros Hin. apply Hkeys in Hin. rewrite (reported_filled _ _ _ _ Ht) in Hin.
      destruct Hin as [H|[H|[H|[H|[]]]]]; other_key H.
  - apply application_ext.
    + now rewrite timestamp_extracted.
    + rewrite location_extracted at 1. eapply stored_again, location_extracted.
    + rewrite participants_extracted at 1. eapply stored_again, participants_extracted.
    + rewrite damage_extracted at 1. eapply stored_again, damage_extracted.
    + rewrite injuries_extracted at 1. eapply stored_again, injuries_extracted.
    + now rewrite photos_count_extracted.
    + rewrite contact_extracted at 1. eapply stored_again, contact_extracted.
Qed.

(** C9. The participants rule looks for the digit 2 in the raw message and
    tries the two-vehicles branch first: for every application whose
    participants field is not filled, a message in which the character 2 (code
    point 50) occurs anywhere gets the two-vehicles literal, whatever else
    the message contains, and the field is reported as updated. *)
Theorem digit_two_sets_two_vehicles :
  forall (py : PyBuiltins) (message : str) (application : Application),
    In 50%N message ->
    truthy (participants application) = false ->
    participants (snd (extract_info_from_message message application))
    = Some (utf8 "2 автомобиля")
    /\ In (utf8 "participants") (fst (extract_info_from_message message application)).
Proof.
  intros py message a Hin Ht.
  assert (Hfound : found_participants message = Some (utf8 "2 автомобиля")).
  { unfold found_participants.
    replace (str_in (utf8 "2") message) with true
      by (symmetry; exact (str_in_char 50%N message Hin)).
    now rewrite orb_true_r. }
  split.
  - rewrite participants_extracted. unfold stored. now rewrite Ht, Hfound.
  - rewrite updated_extracted, !in_app_iff. right. left.
    unfold reported. rewrite Ht, Hfound. now left.
Qed.

(** A message with the digit inside a house number, with both the word and
    the digit for three. *)
Lemma digit_two_sets_two_vehicles_witness :
  In 50%N Concrete.house_message
  /\ truthy (participants (Concrete.fresh Concrete.noon)) = false
  /\ participants (snd (extract_info_from_message (py := Concrete.Basic)
                          Concrete.house_message (Concrete.fresh Concrete.noon)))
     = Some (utf8 "2 автомобиля")
  /\ In (utf8 "participants")
       (fst (extract_info_from_message (py := Concrete.Basic)
               Concrete.house_message (Concrete.fresh Concrete.noon))).
Proof.
  assert (Hin : In 50%N Concrete.house_message).
  { vm_compute. do 4 right. now left. }
  split; [exact Hin|]. split; [reflexivity|].
  exact (digit_two_sets_two_vehicles Concrete.Basic Concrete.house_message
           (Concrete.fresh Concrete.noon) Hin eq_refl).
Defined.

(** C2, as the specification states it, fails: on the example message the
    location is not extracted, because the message has the word in the form
    «улице» and none of the address keywords occurs in it. *)
Lemma accident_location_not_extracted :
  let application :=
    snd (extract_info_from_message (py := Concrete.Basic) Concrete.accident_message
           (Concrete.fresh Concrete.noon)) in
  ~ (location application = Some Concrete.accident_message
     /\ participants application = Some (utf8 "2 автомобиля")
     /\ injuries application = Some (utf8 "Нет пострадавших")
     /\ contact application = Some (utf8 "+79001234567")
     /\ damage application = None).
Proof. vm_compute. intros [H _]. discriminate H. Qed.

(** C2, amended. On the example message and an application with no field
    filled, one pass of the extractor fills participants with the
    two-vehicles literal, injuries with the no-injuries literal and contact
    with the phone number, reports these three keys, and leaves location and
    damage unset. *)
Theorem accident_message_extraction :
  forall t : datetime,
    extract_info_from_message (py := Concrete.Basic) Concrete.accident_message
      (Concrete.fresh t)
    = ([utf8 "participants"; utf8 "injuries"; utf8 "contact"],
       {| timestamp := t;
          location := None;
          participants := Some (utf8 "2 автомобиля");
          damage := None;
          injuries := Some (utf8 "Нет пострадавших");
          photos_count := 0;
          contact := Some (utf8 "+79001234567") |}).
Proof. intros t. vm_compute. reflexivity. Qed.

(** ** Finishing the assisted interview *)

Lemma is_set_truthy (v : option str) : is_set v <-> truthy v = true.
Proof. symmetry. apply truthy_nonempty. Qed.

Lemma not_set_falsy (v : option str) : ~ is_set v <-> truthy v = false.
Proof. rewrite is_set_truthy. destruct (truthy v); intuition congruence. Qed.

Section Finish.
Context {py : PyBuiltins} {world : Services}.

Lemma finish_run (update : Update) (env : Env) :
  finish_ai_application update env =
  if nonempty (missing_fields (application env)) then
    (AI_CHAT,
     after (reply_text (utf8 "⚠️ Пожалуйста, укажите: "
                        ++ join (utf8 ", ") (missing_fields (application env)))
              NoMarkup None) env)
  else
    (CONFIRM,
     after (reply_text (summary (application env) ++ utf8 "

Проверьте данные:") confirm_keyboard None) env).
Proof.
  unfold finish_ai_application, bind, gets.
  destruct (nonempty (missing_fields (application env))); reflexivity.
Qed.

(** A text that is no command reaches the handler of the state. *)
Lemma text_reaches_the_handler (s : State) (handler : Update -> M State)
      (update : Update) :
  states s = [MessageHandler TEXT_and_not_COMMAND handler] ->
  TEXT_and_not_COMMAND update = true ->
  process_update s update = handler update.
Proof.
  intros Hs Hu.
  destruct s; try discriminate Hs; unfold process_update; rewrite Hs;
    cbn [first_accepting check_update callback MessageHandler]; rewrite Hu;
    reflexivity.
Qed.

(** No state has a handler for a command. *)
Lemma command_is_kept_from_the_states (s : State) (update : Update) :
  COMMAND update = true -> first_accepting (states s) update = None.
Proof.
  intros H.
  destruct s; cbn [states first_accepting check_update MessageHandler];
    unfold TEXT_and_not_COMMAND; rewrite ?H, ?andb_false_r; reflexivity.
Qed.

(** A message that starts with a command is never handed to the handler of
    a state: it is dropped, unless it is the command of the fallback, which
    then runs [cancel]. *)
Lemma command_is_dropped_or_cancels (s : State) (update : Update) (env : Env) :
  s <> END ->
  COMMAND update = true ->
  process_update s update env = (s, env)
  \/ process_update s update env = cancel update env.
Proof.
  intros Hs H. unfold process_update.
  rewrite (command_is_kept_from_the_states s update H).
  cbn [fallbacks first_accepting callback CommandHandler].
  destruct (check_update _ update).
  - right. destruct s; try reflexivity. contradiction.
  - left. destruct s; try reflexivity. contradiction.
Qed.

(** A finishing word handed to [ai_chat] runs [finish_ai_application], after
    the line [ai_chat] logs. *)
Lemma ai_chat_finish (update : Update) (env : Env) :
  str_in_list (lower (message_text update)) finish_words = true ->
  ai_chat update env =
  finish_ai_application update
    (after (logger INFO (utf8 "💬 AI-чат: " ++ message_text update)) env).
Proof.
  intros H. unfold ai_chat, bind. cbv zeta.
  unfold logger at 1, modify at 1. rewrite H. reflexivity.
Qed.

(** The names of the missing fields, by the two tests made. *)
Lemma missing_fields_cases (app : Application) :
  missing_fields app =
  (if truthy (location app) then [] else [utf8 "место ДТП"])
  ++ (if truthy (contact app) then [] else [utf8 "телефон"]).
Proof.
  unfold missing_fields. destruct (truthy (location app)), (truthy (contact app));
    reflexivity.
Qed.

End Finish.

(** C1. The message [/finish], as Telegram delivers it, is a bot command,
    and [main] gives the state [AI_CHAT] one handler, for texts that are no
    commands, and no handler for this command. So the message that
    [ai_chat] names first among its finishing words, and that every reply of
    the interview tells the user to write, never reaches [ai_chat]: with the
    location and the contact both set, where [ai_chat] itself would lead to
    [CONFIRM], the update is dropped, the conversation stays in [AI_CHAT]
    and nothing is replied or changed. *)
Theorem finish_command_is_not_handled :
  let update := Concrete.command 5 "/finish" in
  let env := Concrete.session Absent Concrete.complete in
  let handle := process_update (py := Concrete.Basic) (world := Concrete.Scripted) in
  str_in_list (lower (PyBuiltins := Concrete.Basic) (message_text update)) finish_words
  = true
  /\ is_set (location (application env))
  /\ is_set (contact (application env))
  /\ result (ai_chat (py := Concrete.Basic) (world := Concrete.Scripted) update) env
     = CONFIRM
  /\ COMMAND update = true
  /\ result (handle AI_CHAT update) env = AI_CHAT
  /\ after (handle AI_CHAT update) env = env.
Proof.
  cbv zeta. split; [reflexivity|].
  split; [eexists; split; [reflexivity | discriminate]|].
  split; [eexists; split; [reflexivity | discriminate]|].
  repeat split; vm_compute; reflexivity.
Qed.

(** X24. A finishing word that reaches the handler of [AI_CHAT], which a text
    that is no command does, leads to [CONFIRM] exactly when the location
    and the contact of the report are both set, whatever the other fields
    hold. Otherwise the conversation stays in [AI_CHAT] and the reply lists
    exactly the required fields that are missing: the name of the location
    when the location is not set and the word for the phone when the contact
    is not set. The report is left as it was. *)
Theorem finish_confirms_iff_location_and_contact :
  forall (py : PyBuiltins) (world : Services) (update : Update) (env : Env),
    TEXT_and_not_COMMAND update = true ->
    str_in_list (lower (message_text update)) finish_words = true ->
    let app := application env in
    let next := result (process_update AI_CHAT update) env in
    let env' := after (process_update AI_CHAT update) env in
    (next = CONFIRM <-> is_set (location app) /\ is_set (contact app))
    /\ (next = CONFIRM \/ next = AI_CHAT)
    /\ application env' = app
    /\ (next = AI_CHAT ->
        exists names,
          replies env' =
          replies env
          ++ [{| text := utf8 "⚠️ Пожалуйста, укажите: " ++ join (utf8 ", ") names;
                 reply_markup := NoMarkup; parse_mode := None |}]
          /\ (In (utf8 "место ДТП") names <-> ~ is_set (location app))
          /\ (In (utf8 "телефон") names <-> ~ is_set (contact app))
          /\ (forall n, In n names -> n = utf8 "место ДТП" \/ n = utf8 "телефон")).
Proof.
  intros py world update env Htext Hword app next env'.
  subst next env'. unfold result, after.
  rewrite (text_reaches_the_handler AI_CHAT update eq_refl Htext).
  rewrite (ai_chat_finish update env Hword), finish_run.
  cbn [application after logger modify snd fst].
  fold app. rewrite missing_fields_cases.
  pose proof (is_set_truthy (location app)) as HL.
  pose proof (is_set_truthy (contact app)) as HC.
  destruct (truthy (location app)), (truthy (contact app));
    cbn [List.app nonempty fst snd after reply_text modify application replies logger].
  - repeat split; try tauto; try discriminate.
  - assert (~ is_set (contact app)) by (rewrite HC; discriminate).
    split; [split; [discriminate | tauto]|]. split; [now right|]. split; [reflexivity|].
    intros _. exists [utf8 "телефон"]. split; [reflexivity|].
    assert (is_set (location app)) by now apply HL.
    repeat split; try tauto; try (intros _; now left).
    + intros K; vm_compute in K; intuition discriminate.
    + intros n [<-|[]]. now right.
  - assert (~ is_set (location app)) by (rewrite HL; discriminate).
    split; [split; [discriminate | tauto]|]. split; [now right|]. split; [reflexivity|].
    intros _. exists [utf8 "место ДТП"]. split; [reflexivity|].
    assert (is_set (contact app)) by now apply HC.
    repeat split; try tauto; try (intros _; now left).
    + intros K; vm_compute in K; intuition discriminate.
    + intros n [<-|[]]. now left.
  - assert (~ is_set (location app)) by (rewrite HL; discriminate).
    assert (~ is_set (contact app)) by (rewrite HC; discriminate).
    split; [split; [discriminate | tauto]|]. split; [now right|]. split; [reflexivity|].
    intros _. exists [utf8 "место ДТП"; utf8 "телефон"]. split; [reflexivity|].
    repeat split; try tauto; try (intros _; now left); try (intros _; right; now left).
    intros n [<-|[<-|[]]]; [now left | now right].
Qed.

(** The user 5 writes the finishing word with a capital letter while the
    contact is missing: the conversation stays in [AI_CHAT] and the reply asks
    for the phone. *)
Lemma finish_without_contact_witness :
  TEXT_and_not_COMMAND (Concrete.says 5 "Готово") = true
  /\ str_in_list (lower (PyBuiltins := Concrete.Basic)
                    (message_text (Concrete.says 5 "Готово"))) finish_words = true
  /\ result (process_update (py := Concrete.Basic) (world := Concrete.Scripted) AI_CHAT
               (Concrete.says 5 "Готово"))
       (Concrete.session Absent Concrete.located) = AI_CHAT
  /\ map text
       (replies (after (process_update (py := Concrete.Basic) (world := Concrete.Scripted)
                          AI_CHAT (Concrete.says 5 "Готово"))
                   (Concrete.session Absent Concrete.located)))
     = [utf8 "⚠️ Пожалуйста, укажите: телефон"].
Proof.
  split; [reflexivity|]. split; [reflexivity|].
  pose proof (finish_confirms_iff_location_and_contact Concrete.Basic Concrete.Scripted
                (Concrete.says 5 "Готово") (Concrete.session Absent Concrete.located)
                eq_refl eq_refl) as H.
  cbv zeta in H. destruct H as [Hiff [Hnext _]].
  split; [|vm_compute; reflexivity].
  destruct Hnext as [Hconfirm | Hstay]; [|exact Hstay].
  apply Hiff in Hconfirm. destruct Hconfirm as [_ [s [Hs _]]]. discriminate Hs.
Defined.

(** ** The request to the text-generation backend *)

Lemma last_n_suffix {A} (n : nat) (l : list A) :
  exists older, l = older ++ last_n n l /\ List.length (last_n n l) = Nat.min n (List.length l).
Proof.
  exists (firstn (List.length l - n) l). unfold last_n. split.
  - symmetry. apply firstn_skipn.
  - rewrite length_skipn. lia.
Qed.

Section Backend.
Context {world : Services}.

(** With a client, [get_ai_response] sends one request, whatever the
    backend then answers. *)
Lemma get_ai_response_request (user_message : str) (history : list chat_message)
    (app : Application) (env : Env) :
  openai_client = true ->
  requests (after (get_ai_response user_message history app) env) =
  requests env
  ++ [{| role := utf8 "system"; content := system_prompt app |}
      :: last_n 10 history ++ [{| role := utf8 "user"; content := user_message |}]].
Proof.
  intros Hclient. unfold get_ai_response, after. rewrite Hclient. cbn [negb].
  unfold bind, create_completion. cbv zeta.
  rewrite <- app_assoc. cbn [List.app].
  destruct (chat_completions_create _ _); reflexivity.
Qed.

(** Without a client no request is made. *)
Lemma get_ai_response_offline (user_message : str) (history : list chat_message)
    (app : Application) (env : Env) :
  openai_client = false ->
  get_ai_response user_message history app env =
  (utf8 "Извините, AI-помощник временно недоступен. Пожалуйста, используйте режим с кнопками или попробуйте позже.",
   env).
Proof. intros Hclient. unfold get_ai_response. rewrite Hclient. reflexivity. Qed.

End Backend.

(** C7. The request [get_ai_response] assembles holds the system prompt,
    then the most recent ten turns of the history it is given (all of them
    when there are ten or fewer) in their order, then the new user message;
    no older turn is part of it. *)
Theorem request_carries_last_ten_turns :
  forall (world : Services) (user_message : str)
         (history : list chat_message) (app : Application) (env : Env),
    openai_client = true ->
    exists older recent,
      history = older ++ recent
      /\ List.length recent = Nat.min 10 (List.length history)
      /\ requests (after (get_ai_response user_message history app) env) =
         requests env
         ++ [{| role := utf8 "system"; content := system_prompt app |}
             :: recent ++ [{| role := utf8 "user"; content := user_message |}]].
Proof.
  intros world user_message history app env Hclient.
  destruct (last_n_suffix 10 history) as [older [Hsplit Hlen]].
  exists older, (last_n 10 history). repeat split; try assumption.
  now apply get_ai_response_request.
Qed.

(** A history of twelve turns in a world that has a client. *)
Lemma request_carries_last_ten_turns_witness :
  openai_client (Services := Concrete.Scripted) = true
  /\ exists older recent,
      Concrete.twelve_turns = older ++ recent
      /\ List.length recent = Nat.min 10 (List.length Concrete.twelve_turns)
      /\ requests (after (get_ai_response (world := Concrete.Scripted)
                            (utf8 "дальше") Concrete.twelve_turns
                            (Concrete.fresh Concrete.noon))
                     (Concrete.session Absent (Concrete.fresh Concrete.noon))) =
         requests (Concrete.session Absent (Concrete.fresh Concrete.noon))
         ++ [{| role := utf8 "system";
                content := system_prompt (Concrete.fresh Concrete.noon) |}
             :: recent ++ [{| role := utf8 "user"; content := utf8 "дальше" |}]].
Proof.
  split; [reflexivity|].
  exact (request_carries_last_ten_turns Concrete.Scripted
           (utf8 "дальше") Concrete.twelve_turns (Concrete.fresh Concrete.noon)
           (Concrete.session Absent (Concrete.fresh Concrete.noon)) eq_refl).
Defined.

(** In that run the request carries the turns 3 to 12 and not the turns 1
    and 2. *)
Example twelve_turns_request :
  map (map content)
      (requests (after (get_ai_response (world := Concrete.Scripted)
                          (utf8 "дальше") Concrete.twelve_turns
                          (Concrete.fresh Concrete.noon))
                   (Concrete.session Absent (Concrete.fresh Concrete.noon))))
  = [system_prompt (Concrete.fresh Concrete.noon)
     :: map str_of_int [3; 4; 5; 6; 7; 8; 9; 10; 11; 12]%Z ++ [utf8 "дальше"]].
Proof. vm_compute. reflexivity. Qed.

(** ** The administrator roster *)

Lemma bind_run {A B} (m : M A) (k : A -> M B) (e : Env) :
  bind m k e = k (result m e) (after m e).
Proof. unfold bind, result, after. destruct (m e); reflexivity. Qed.

Lemma after_bind {A B} (m : M A) (k : A -> M B) (e : Env) :
  after (bind m k) e = after (k (result m e)) (after m e).
Proof. unfold after at 1. now rewrite bind_run. Qed.

Lemma result_bind {A B} (m : M A) (k : A -> M B) (e : Env) :
  result (bind m k) e = result (k (result m e)) (after m e).
Proof. unfold result at 1. now rewrite bind_run. Qed.

Lemma int_in_list_In (x : Z) (l : list Z) : int_in_list x l = true <-> In x l.
Proof.
  unfold int_in_list. rewrite existsb_exists. split.
  - intros [y [Hy Heq]]. apply Z.eqb_eq in Heq. now subst.
  - intros H. exists x. split; [assumption | apply Z.eqb_refl].
Qed.

(** [list_remove] deletes the first occurrence. *)
Lemma list_remove_first (x : Z) (l : list Z) :
  In x l ->
  exists before behind,
    l = before ++ x :: behind /\ ~ In x before /\ list_remove x l = before ++ behind.
Proof.
  induction l as [|y l IH]; intros Hin; [contradiction|].
  simpl. destruct (Z.eqb x y) eqn:Heq.
  - apply Z.eqb_eq in Heq. subst y. exists [], l. repeat split. intros [].
  - apply Z.eqb_neq in Heq. destruct Hin as [Hy | Hin]; [congruence|].
    destruct (IH Hin) as [before [behind [Hl [Hnot Hrem]]]].
    exists (y :: before), behind. repeat split.
    + simpl. now rewrite Hl at 1.
    + intros [H | H]; [congruence | contradiction].
    + simpl. now rewrite Hrem.
Qed.

Section Roster.
Context {py : PyBuiltins} {world : Services}.

Lemma load_admins_result (e : Env) : result load_admins e = roster_of (admins_txt e).
Proof. unfold load_admins, result, bind, gets. destruct (admins_txt e); reflexivity. Qed.

(** Loading the roster only writes one line to the log. *)
Lemma load_admins_after (e : Env) :
  exists lvl line, after load_admins e = after (logger lvl line) e /\ lvl <> WARNING.
Proof.
  unfold load_admins, after, bind, gets. cbn [fst snd].
  destruct (admins_txt e); do 2 eexists; (split; [reflexivity | discriminate]).
Qed.

End Roster.

Ltac loaded :=
  match goal with
  | |- context [after load_admins ?x] =>
      let lvl := fresh "lvl" in
      let line := fresh "line" in
      let Hlvl := fresh "Hlvl" in
      destruct (load_admins_after x) as [lvl [line [-> Hlvl]]]
  end.

Ltac run_effects :=
  cbn [bind ret gets modify logger reply_text put_admins_txt after result fst snd
       admins_txt write_error log replies deliveries requests clock_reads
       application ai_history].

Section Menu.
Context {py : PyBuiltins} {world : Services}.

(** [admin_menu] sends one reply and touches neither the file nor the
    deliveries. *)
Lemma admin_menu_effect (update : Update) (e : Env) :
  admins_txt (after (admin_menu update) e) = admins_txt e
  /\ write_error (after (admin_menu update) e) = write_error e
  /\ deliveries (after (admin_menu update) e) = deliveries e
  /\ exists r, replies (after (admin_menu update) e) = replies e ++ [r].
Proof.
  unfold admin_menu, is_admin.
  rewrite !after_bind, !result_bind. loaded. run_effects.
  match goal with |- context [if ?b then _ else _] => destruct b end.
  - run_effects. repeat split. eexists; reflexivity.
  - rewrite !after_bind. loaded. run_effects.
    repeat split. eexists; reflexivity.
Qed.

End Menu.

Lemma nth_error_first_new {A} (l : list A) (r : A) (rest : list A) :
  nth_error ((l ++ [r]) ++ rest) (List.length l) = Some r.
Proof.
  rewrite <- app_assoc. rewrite nth_error_app2 by lia.
  now rewrite Nat.sub_diag.
Qed.

Lemma len_one {A} (l : list A) : Z.eqb (len l) 1 = true <-> List.length l = 1%nat.
Proof. unfold len. rewrite Z.eqb_eq. lia. Qed.

Section Removal.
Context {py : PyBuiltins} {world : Services}.

(** The three outcomes of [admin_remove_handler] for a target that is on the
    roster: the environment after the handler and the text of its answer. *)
Lemma remove_present (update : Update) (env : Env) (target : Z) :
  int_of_str (strip (message_text update)) = Some target ->
  In target (result load_admins env) ->
  let roster := result load_admins env in
  let env' := after (admin_remove_handler update) env in
  if Z.eqb target (id (effective_user update)) && Z.eqb (len roster) 1 then
    admins_txt env' = admins_txt env
    /\ first_text env env' = Some last_admin_text
  else
    match write_error env with
    | None =>
        admins_txt env' = Lines (list_remove target roster)
        /\ first_text env env'
           = Some (utf8 "✅ Администратор " ++ str_of_int target
                   ++ utf8 " успешно удалён!")
    | Some failure =>
        admins_txt env' = left_by failure (list_remove target roster) (admins_txt env)
        /\ first_text env env' = Some (utf8 "❌ Ошибка при сохранении изменений.")
    end.
Proof.
  intros Hparse Hin roster env'. subst env'.
  unfold admin_remove_handler. rewrite Hparse. cbv beta iota.
  rewrite 2 after_bind. cbv beta.
  match goal with |- context [after (admin_menu update) ?e1] =>
    destruct (admin_menu_effect update e1) as [Hfile [_ [_ [r Hreplies]]]];
    unfold first_text, first_reply; rewrite Hfile, Hreplies; clear Hfile Hreplies
  end.
  fold roster.
  apply int_in_list_In in Hin. fold roster in Hin. rewrite Hin. cbn [negb].
  loaded.
  destruct (Z.eqb target (id (effective_user update)) && Z.eqb (len roster) 1).
  - run_effects. split; [reflexivity|].
    now rewrite nth_error_first_new.
  - unfold save_admins. rewrite !after_bind, !result_bind. run_effects.
    destruct (write_error env) as [[e | written e]|].
    + run_effects. split; [reflexivity|]. now rewrite nth_error_first_new.
    + run_effects. split; [reflexivity|]. now rewrite nth_error_first_new.
    + run_effects. split; [reflexivity|]. now rewrite nth_error_first_new.
Qed.

End Removal.

(** C4, as the specification states it, fails in its second half: with the
    target present and the guard not applying, the roster is persisted only
    when the file can be written. Here the roster is 42 and 7, the user 42
    asks to remove 42 and the file system refuses to open the file for
    writing: the request is not rejected by the guard, and the stored roster
    still lists 42. *)
Lemma remove_not_persisted_on_write_error :
  let update := Concrete.says 42 "42" in
  let env := Concrete.read_only (Lines [42; 7]%Z) in
  let roster := result load_admins env in
  let env' := after (admin_remove_handler (py := Concrete.Basic) update) env in
  int_of_str (PyBuiltins := Concrete.Basic) (strip (py := Concrete.Basic) (message_text update))
  = Some 42%Z
  /\ In 42%Z roster
  /\ ~ (42%Z = id (effective_user update) /\ List.length roster = 1%nat)
  /\ first_text env env' <> Some last_admin_text
  /\ ~ (result load_admins env' = list_remove 42%Z roster)
  /\ In 42%Z (result load_admins env').
Proof.
  vm_compute. repeat split; try discriminate; try (left; reflexivity).
  intros [_ H]. discriminate H.
Qed.

(** A save that fails after the file has been opened leaves less than there
    was: the user 42 asks to remove 7 from the roster 42, 7 on a full disk,
    the answer reports a save error, and the roster is empty from then on. *)
Example failed_save_can_empty_the_roster :
  let update := Concrete.says 42 "7" in
  let env := Concrete.disk_full (Lines [42; 7]%Z) in
  let env' := after (admin_remove_handler (py := Concrete.Basic) update) env in
  first_text env env' = Some (utf8 "❌ Ошибка при сохранении изменений.")
  /\ result load_admins env' = []
  /\ result (admin_remove_handler (py := Concrete.Basic) update) env = END.
Proof. vm_compute. repeat split. Qed.

(** C4, amended. For a numeric target that is on the roster, the removal is
    rejected with the guard's message, and the file left as it is, exactly
    when the target is the acting administrator and the roster has one
    entry. In every other case the handler saves the roster without the
    first occurrence of the target: when the file can be written the stored
    roster is that list and the answer reports the removal; when the save
    fails, in whichever way, the answer reports a save error. *)
Theorem remove_rejected_iff_sole_self :
  forall (py : PyBuiltins) (update : Update) (env : Env) (target : Z),
    int_of_str (strip (message_text update)) = Some target ->
    In target (result load_admins env) ->
    let roster := result load_admins env in
    let actor := id (effective_user update) in
    let env' := after (admin_remove_handler update) env in
    (first_text env env' = Some last_admin_text
     <-> target = actor /\ List.length roster = 1%nat)
    /\ (target = actor /\ List.length roster = 1%nat -> admins_txt env' = admins_txt env)
    /\ (~ (target = actor /\ List.length roster = 1%nat) ->
        (write_error env = None ->
         exists before behind,
           roster = before ++ target :: behind
           /\ ~ In target before
           /\ admins_txt env' = Lines (before ++ behind)
           /\ result load_admins env' = before ++ behind
           /\ first_text env env'
              = Some (utf8 "✅ Администратор " ++ str_of_int target
                      ++ utf8 " успешно удалён!"))
        /\ (forall failure, write_error env = Some failure ->
            first_text env env' = Some (utf8 "❌ Ошибка при сохранении изменений."))).
Proof.
  intros py update env target Hparse Hin roster actor env'.
  pose proof (@remove_present py update env target Hparse Hin) as H. cbv zeta in H.
  fold roster actor env' in H.
  assert (Hguard : Z.eqb target actor && Z.eqb (len roster) 1 = true
                   <-> target = actor /\ List.length roster = 1%nat).
  { rewrite andb_true_iff, Z.eqb_eq, len_one. reflexivity. }
  destruct (Z.eqb target actor && Z.eqb (len roster) 1) eqn:Hg.
  - destruct H as [Hfile Htext]. split; [|split].
    + split; [intros _; now apply Hguard | intros _; exact Htext].
    + intros _. exact Hfile.
    + intros Hn. exfalso. apply Hn. now apply Hguard.
  - assert (Hno : ~ (target = actor /\ List.length roster = 1%nat)).
    { intros K. apply Hguard in K. discriminate K. }
    split; [|split].
    + split; [|intros K; contradiction].
      intros Htext. exfalso.
      destruct (write_error env); destruct H as [_ H]; rewrite H in Htext.
      * revert Htext. vm_compute. discriminate.
      * apply (f_equal (fun o => match o with Some s => hd 0%N s | None => 0%N end))
          in Htext.
        vm_compute in Htext. discriminate Htext.
    + intros K. contradiction.
    + intros _. split.
      * intros Hw. rewrite Hw in H. destruct H as [Hfile Htext].
        destruct (@list_remove_first target roster Hin) as [before [behind [Hr [Hnot Hrem]]]].
        exists before, behind. repeat split; try assumption.
        -- now rewrite Hfile, Hrem.
        -- rewrite load_admins_result. fold env'. rewrite Hfile. simpl. exact Hrem.
      * intros failure Hw. rewrite Hw in H. exact (proj2 H).
Qed.

(** The two rosters of the specification's example: alone on the roster the
    user 42 may not remove 42; with 7 beside, 42 may. *)
Lemma remove_rejected_iff_sole_self_witness :
  int_of_str (PyBuiltins := Concrete.Basic)
    (strip (py := Concrete.Basic) (message_text (Concrete.says 42 "42"))) = Some 42%Z
  /\ In 42%Z (result load_admins (Concrete.session (Lines [42%Z]) (Concrete.fresh Concrete.noon)))
  /\ first_text (Concrete.session (Lines [42%Z]) (Concrete.fresh Concrete.noon))
       (after (admin_remove_handler (py := Concrete.Basic) (Concrete.says 42 "42"))
          (Concrete.session (Lines [42%Z]) (Concrete.fresh Concrete.noon)))
     = Some last_admin_text.
Proof.
  split; [reflexivity|]. split; [left; reflexivity|].
  pose proof (@remove_rejected_iff_sole_self Concrete.Basic (Concrete.says 42 "42")
                (Concrete.session (Lines [42%Z]) (Concrete.fresh Concrete.noon)) 42%Z
                eq_refl (or_introl eq_refl)) as H.
  cbv zeta in H. destruct H as [Hiff _]. apply Hiff. split; reflexivity.
Defined.

Example sole_admin_keeps_roster :
  result load_admins
    (after (admin_remove_handler (py := Concrete.Basic) (Concrete.says 42 "42"))
       (Concrete.session (Lines [42%Z]) (Concrete.fresh Concrete.noon)))
  = [42%Z].
Proof. vm_compute. reflexivity. Qed.

Example one_of_two_admins_leaves :
  result load_admins
    (after (admin_remove_handler (py := Concrete.Basic) (Concrete.says 42 "42"))
       (Concrete.session (Lines [42; 7]%Z) (Concrete.fresh Concrete.noon)))
  = [7%Z].
Proof. vm_compute. reflexivity. Qed.

(** C10, as the specification states it, fails where the file cannot be
    opened for writing: the roster is 42 alone, the user 7 asks to remove 42,
    the guard does not apply, and the stored roster is still 42. *)
Lemma empty_roster_not_persisted_on_write_error :
  let update := Concrete.says 7 "42" in
  let env := Concrete.read_only (Lines [42%Z]) in
  let env' := after (admin_remove_handler (py := Concrete.Basic) update) env in
  result load_admins env = [42%Z]
  /\ id (effective_user update) <> 42%Z
  /\ int_of_str (PyBuiltins := Concrete.Basic)
       (strip (py := Concrete.Basic) (message_text update)) = Some 42%Z
  /\ ~ (result load_admins env' = []).
Proof. vm_compute. repeat split; discriminate. Qed.

(** C10, amended. The guard protects the last administrator only against
    himself. When the roster holds one identity and another caller names it
    as the target, the request is not rejected by the guard: the handler
    saves the empty roster. When the file can be written the stored roster
    is empty from then on and the answer reports the removal; when the save
    fails, in whichever way, the answer reports a save error. *)
Theorem other_caller_empties_roster :
  forall (py : PyBuiltins) (update : Update) (env : Env) (sole : Z),
    result load_admins env = [sole] ->
    id (effective_user update) <> sole ->
    int_of_str (strip (message_text update)) = Some sole ->
    let env' := after (admin_remove_handler update) env in
    first_text env env' <> Some last_admin_text
    /\ (write_error env = None ->
        admins_txt env' = Lines []
        /\ result load_admins env' = []
        /\ first_text env env'
           = Some (utf8 "✅ Администратор " ++ str_of_int sole ++ utf8 " успешно удалён!"))
    /\ (forall failure, write_error env = Some failure ->
        first_text env env' = Some (utf8 "❌ Ошибка при сохранении изменений.")).
Proof.
  intros py update env sole Hroster Hother Hparse env'.
  assert (Hin : In sole (result load_admins env)) by (rewrite Hroster; now left).
  pose proof (@remove_present py update env sole Hparse Hin) as H. cbv zeta in H.
  fold env' in H. rewrite Hroster in H.
  replace (Z.eqb sole (id (effective_user update))) with false in H
    by (symmetry; apply Z.eqb_neq; congruence).
  cbn [andb list_remove] in H. rewrite Z.eqb_refl in H.
  split; [|split].
  - intros Htext. destruct (write_error env); destruct H as [_ H]; rewrite H in Htext.
    + revert Htext. vm_compute. discriminate.
    + apply (f_equal (fun o => match o with Some s => hd 0%N s | None => 0%N end))
        in Htext.
      vm_compute in Htext. discriminate Htext.
  - intros Hw. rewrite Hw in H. destruct H as [Hfile Htext].
    repeat split; try assumption.
    rewrite load_admins_result. fold env'. now rewrite Hfile.
  - intros failure Hw. rewrite Hw in H. exact (proj2 H).
Qed.

(** The user 7 removes 42, the only administrator. *)
Lemma other_caller_empties_roster_witness :
  result load_admins (Concrete.session (Lines [42%Z]) (Concrete.fresh Concrete.noon)) = [42%Z]
  /\ id (effective_user (Concrete.says 7 "42")) <> 42%Z
  /\ int_of_str (PyBuiltins := Concrete.Basic)
       (strip (py := Concrete.Basic) (message_text (Concrete.says 7 "42"))) = Some 42%Z
  /\ result load_admins
       (after (admin_remove_handler (py := Concrete.Basic) (Concrete.says 7 "42"))
          (Concrete.session (Lines [42%Z]) (Concrete.fresh Concrete.noon)))
     = [].
Proof.
  assert (Hother : id (effective_user (Concrete.says 7 "42")) <> 42%Z) by discriminate.
  split; [reflexivity|]. split; [exact Hother|]. split; [reflexivity|].
  pose proof (@other_caller_empties_roster Concrete.Basic (Concrete.says 7 "42")
                (Concrete.session (Lines [42%Z]) (Concrete.fresh Concrete.noon)) 42%Z
                eq_refl Hother eq_refl) as H.
  cbv zeta in H. destruct H as [_ [Hsaved _]].
  destruct (Hsaved eq_refl) as [_ [Hroster _]]. exact Hroster.
Defined.

(** ** The broadcast of a confirmed report *)

Section Broadcast.
Context {world : Services}.

(** The loop attempts every administrator in turn, whatever the earlier
    attempts gave, counts the successes and sends nothing to the user. *)
Lemma deliver_each_effect (admins : list Z) (message : str) :
  forall (count : Z) (env : Env),
  exists attempts,
    deliveries (after (deliver_each admins message count) env) = deliveries env ++ attempts
    /\ map chat_id attempts = admins
    /\ Forall (fun d => body d = message) attempts
    /\ (forall before d behind,
         attempts = before ++ d :: behind ->
         raised d = send_message (deliveries env ++ before) (chat_id d) message)
    /\ result (deliver_each admins message count) env
       = (count + len (filter delivered attempts))%Z
    /\ replies (after (deliver_each admins message count) env) = replies env
    /\ admins_txt (after (deliver_each admins message count) env) = admins_txt env.
Proof.
  induction admins as [|admin_id rest IH]; intros count env.
  - exists []. cbn [deliver_each ret after result fst snd filter map].
    rewrite app_nil_r. repeat split; try constructor.
    + intros before d behind H. destruct before; discriminate H.
    + unfold len. simpl. lia.
  - cbn [deliver_each]. rewrite after_bind, result_bind.
    unfold bot_send_message.
    cbn [after result fst snd].
    set (outcome := send_message (deliveries env) admin_id message).
    set (d0 := {| chat_id := admin_id; body := message; raised := outcome |}).
    destruct outcome as [e|] eqn:Hout.
    + rewrite after_bind, result_bind. run_effects.
      match goal with |- context [after (deliver_each rest message count) ?e1] =>
        destruct (IH count e1) as [attempts [Hd [Hids [Hbody [Hout' [Hcount [Hrep Hfile]]]]]]]
      end.
      cbn [deliveries replies admins_txt] in Hd, Hout', Hrep, Hfile.
      exists (d0 :: attempts). rewrite Hd, Hcount, Hrep, Hfile. repeat split.
      * now rewrite <- app_assoc.
      * cbn [map chat_id d0]. now rewrite Hids.
      * constructor; [reflexivity | assumption].
      * intros before d behind Hsplit. destruct before as [|b before].
        -- injection Hsplit as <- _. rewrite app_nil_r. symmetry. exact Hout.
        -- injection Hsplit as <- Hsplit. rewrite (Hout' _ _ _ Hsplit).
           now rewrite <- app_assoc.
    + rewrite after_bind, result_bind. run_effects.
      match goal with |- context [after (deliver_each rest message (count + 1)) ?e1] =>
        destruct (IH (count + 1)%Z e1)
          as [attempts [Hd [Hids [Hbody [Hout' [Hcount [Hrep Hfile]]]]]]]
      end.
      cbn [deliveries replies admins_txt] in Hd, Hout', Hrep, Hfile.
      exists (d0 :: attempts). rewrite Hd, Hcount, Hrep, Hfile. repeat split.
      * now rewrite <- app_assoc.
      * cbn [map chat_id d0]. now rewrite Hids.
      * constructor; [reflexivity | assumption].
      * intros before d behind Hsplit. destruct before as [|b before].
        -- injection Hsplit as <- _. rewrite app_nil_r. symmetry. exact Hout.
        -- injection Hsplit as <- Hsplit. rewrite (Hout' _ _ _ Hsplit).
           now rewrite <- app_assoc.
      * cbn [filter delivered raised d0]. unfold len. cbn [List.length].
        lia.
Qed.

End Broadcast.

Section Submission.
Context {world : Services}.

Lemma send_to_admins_nonempty (message : str) (env : Env) :
  result load_admins env <> [] ->
  let roster := result load_admins env in
  let env' := after (send_to_admins message) env in
  exists attempts earlier,
    deliveries env' = deliveries env ++ attempts
    /\ map chat_id attempts = roster
    /\ Forall (fun d => body d = message) attempts
    /\ (forall before d behind,
         attempts = before ++ d :: behind ->
         raised d = send_message (deliveries env ++ before) (chat_id d) message)
    /\ log env' =
       earlier
       ++ [(INFO, utf8 "📨 Заявка отправлена " ++ str_of_int (len (filter delivered attempts))
                  ++ utf8 " из " ++ str_of_int (len roster) ++ utf8 " администраторов")]
    /\ replies env' = replies env.
Proof.
  intros Hne roster env'. subst env'. unfold send_to_admins.
  rewrite after_bind. cbv beta. fold roster.
  destruct roster as [|a rest] eqn:Hroster; [contradiction|]. cbn [nonempty negb].
  rewrite after_bind. cbv beta. loaded.
  match goal with |- context [after (deliver_each ?l message 0) ?e1] =>
    destruct (deliver_each_effect l message 0 e1)
      as [attempts [Hd [Hids [Hbody [Hout [Hcount [Hrep _]]]]]]]
  end.
  exists attempts. eexists.
  unfold after, result in *.
  cbn [logger modify fst snd deliveries replies log] in *.
  rewrite Hd, Hcount, Hrep.
  repeat split; try assumption.
Qed.

Lemma send_to_admins_empty (message : str) (env : Env) :
  result load_admins env = [] ->
  let env' := after (send_to_admins message) env in
  deliveries env' = deliveries env
  /\ replies env' = replies env
  /\ exists loading,
      fst loading <> WARNING
      /\ log env' =
         log env ++ [loading; (WARNING, utf8 "⚠️ Нет администраторов для отправки заявки!")].
Proof.
  intros Hroster env'. subst env'. unfold send_to_admins.
  rewrite after_bind. cbv beta. rewrite Hroster. cbn [nonempty negb].
  loaded. run_effects. repeat split. exists (lvl, line). split; [assumption|].
  now rewrite <- app_assoc.
Qed.

End Submission.

(** C5. With a roster that is not empty the broadcaster makes one delivery
    attempt per administrator, in the order of the roster and each with the
    message, whatever the outcome of the attempts before it; the outcome of
    each is the one the transport gave; and the last line it logs reports
    the number of attempts that raised nothing, out of the size of the
    roster. *)
Theorem broadcast_attempts_every_admin :
  forall (world : Services) (message : str) (env : Env),
    result load_admins env <> [] ->
    let roster := result load_admins env in
    let env' := after (send_to_admins message) env in
    exists attempts earlier,
      deliveries env' = deliveries env ++ attempts
      /\ map chat_id attempts = roster
      /\ Forall (fun d => body d = message) attempts
      /\ (forall before d behind,
           attempts = before ++ d :: behind ->
           raised d = send_message (deliveries env ++ before) (chat_id d) message)
      /\ log env' =
         earlier
         ++ [(INFO, utf8 "📨 Заявка отправлена "
                    ++ str_of_int (len (filter delivered attempts))
                    ++ utf8 " из " ++ str_of_int (len roster)
                    ++ utf8 " администраторов")].
Proof.
  intros world message env Hne roster env'.
  destruct (@send_to_admins_nonempty world message env Hne)
    as [attempts [earlier [H1 [H2 [H3 [H4 [H5 _]]]]]]].
  exists attempts, earlier. repeat split; assumption.
Qed.

(** Three administrators, the second of which has blocked the bot. *)
Lemma broadcast_attempts_every_admin_witness :
  result load_admins (Concrete.session (Lines [42; 7; 99]%Z) (Concrete.fresh Concrete.noon))
  <> []
  /\ exists attempts earlier,
      deliveries (after (send_to_admins (world := Concrete.Scripted) (utf8 "заявка"))
                    (Concrete.session (Lines [42; 7; 99]%Z) (Concrete.fresh Concrete.noon)))
      = deliveries (Concrete.session (Lines [42; 7; 99]%Z) (Concrete.fresh Concrete.noon))
        ++ attempts
      /\ map chat_id attempts
         = result load_admins
             (Concrete.session (Lines [42; 7; 99]%Z) (Concrete.fresh Concrete.noon))
      /\ Forall (fun d => body d = utf8 "заявка") attempts
      /\ (forall before d behind,
           attempts = before ++ d :: behind ->
           raised d
           = send_message (Services := Concrete.Scripted)
               (deliveries (Concrete.session (Lines [42; 7; 99]%Z)
                              (Concrete.fresh Concrete.noon)) ++ before)
               (chat_id d) (utf8 "заявка"))
      /\ log (after (send_to_admins (world := Concrete.Scripted) (utf8 "заявка"))
                (Concrete.session (Lines [42; 7; 99]%Z) (Concrete.fresh Concrete.noon)))
         = earlier
           ++ [(INFO, utf8 "📨 Заявка отправлена "
                      ++ str_of_int (len (filter delivered attempts))
                      ++ utf8 " из "
                      ++ str_of_int
                           (len (result load_admins
                                   (Concrete.session (Lines [42; 7; 99]%Z)
                                      (Concrete.fresh Concrete.noon))))
                      ++ utf8 " администраторов")].
Proof.
  assert (Hne : result load_admins
                  (Concrete.session (Lines [42; 7; 99]%Z) (Concrete.fresh Concrete.noon))
                <> []) by discriminate.
  split; [exact Hne|].
  exact (@broadcast_attempts_every_admin Concrete.Scripted (utf8 "заявка")
           (Concrete.session (Lines [42; 7; 99]%Z) (Concrete.fresh Concrete.noon)) Hne).
Defined.

(** In that run 42 and 99 receive the report, the attempt to 7 raises, and
    the log reports 2 of 3. *)
Example two_of_three_delivered :
  let env' := after (send_to_admins (world := Concrete.Scripted) (utf8 "заявка"))
                (Concrete.session (Lines [42; 7; 99]%Z) (Concrete.fresh Concrete.noon)) in
  map (fun d => (chat_id d, delivered d)) (deliveries env')
  = [(42, true); (7, false); (99, true)]%Z
  /\ last (log env') (INFO, [])
     = (INFO, utf8 "📨 Заявка отправлена 2 из 3 администраторов").
Proof. vm_compute. split; reflexivity. Qed.

Section Confirmation.
Context {world : Services}.

(** What [send_to_admins] leaves to the user and on the roster file, empty
    roster or not. *)
Lemma send_to_admins_replies (message : str) (env : Env) :
  replies (after (send_to_admins message) env) = replies env.
Proof.
  destruct (result load_admins env) eqn:Hroster.
  - now destruct (@send_to_admins_empty world message env Hroster) as [_ [H _]].
  - assert (Hne : result load_admins env <> []) by (rewrite Hroster; discriminate).
    destruct (@send_to_admins_nonempty world message env Hne) as [? [? [_ [_ [_ [_ [_ H]]]]]]].
    exact H.
Qed.

Lemma replies_logger (l : level) (s : str) (e : Env) :
  replies (after (logger l s) e) = replies e.
Proof. reflexivity. Qed.

Lemma replies_reply_text (s : str) (k : markup) (mode : option str) (e : Env) :
  replies (after (reply_text s k mode) e)
  = replies e ++ [{| text := s; reply_markup := k; parse_mode := mode |}].
Proof. reflexivity. Qed.

Lemma replies_format_application (app : Application) (user_info : option User) (e : Env) :
  replies (after (format_application app user_info) e) = replies e.
Proof. reflexivity. Qed.

(** A confirmed report: the reply to the user and the next state. *)
Lemma confirm_application_reply (update : Update) (env : Env) :
  str_in (utf8 "✅") (message_text update) = true ->
  result (confirm_application update) env = END
  /\ replies (after (confirm_application update) env) =
     replies env
     ++ [{| text := submitted_text; reply_markup := ReplyKeyboardRemove;
            parse_mode := None |}].
Proof.
  intros Hyes. unfold confirm_application. cbv zeta. rewrite Hyes. split.
  - repeat (rewrite result_bind; cbv beta). reflexivity.
  - repeat (rewrite after_bind; cbv beta).
    cbn [ret after snd].
    rewrite replies_reply_text, !replies_logger, send_to_admins_replies,
      replies_format_application.
    reflexivity.
Qed.

End Confirmation.

Section Acknowledgment.
Context {world : Services}.

Lemma deliveries_logger (l : level) (s : str) (e : Env) :
  deliveries (after (logger l s) e) = deliveries e.
Proof. reflexivity. Qed.

Lemma deliveries_reply_text (s : str) (k : markup) (mode : option str) (e : Env) :
  deliveries (after (reply_text s k mode) e) = deliveries e.
Proof. reflexivity. Qed.

Lemma log_logger (l : level) (s : str) (e : Env) :
  log (after (logger l s) e) = log e ++ [(l, s)].
Proof. reflexivity. Qed.

Lemma log_reply_text (s : str) (k : markup) (mode : option str) (e : Env) :
  log (after (reply_text s k mode) e) = log e.
Proof. reflexivity. Qed.

(** A report confirmed while the roster is empty: nothing is delivered, and
    the log gets the line of the roster's loading, the warning, and the
    lines [confirm_application] writes about the report. *)
Lemma confirm_application_empty (update : Update) (env : Env) :
  str_in (utf8 "✅") (message_text update) = true ->
  result load_admins env = [] ->
  let env' := after (confirm_application update) env in
  deliveries env' = deliveries env
  /\ exists loading rest,
      log env' =
      log env
      ++ loading :: (WARNING, utf8 "⚠️ Нет администраторов для отправки заявки!") :: rest
      /\ fst loading <> WARNING
      /\ Forall (fun line => fst line = INFO) rest.
Proof.
  intros Hyes Hroster env'. subst env'.
  unfold confirm_application. cbv zeta. rewrite Hyes.
  repeat (rewrite after_bind; cbv beta). cbn [ret after snd].
  match goal with |- context [after (send_to_admins ?m) ?e1] =>
    assert (Hroster1 : result load_admins e1 = [])
      by (rewrite load_admins_result in *; exact Hroster);
    destruct (@send_to_admins_empty world m e1 Hroster1)
      as [Hd [_ [loading [Hlvl Hlog]]]]
  end.
  split.
  - rewrite deliveries_reply_text, !deliveries_logger, Hd. reflexivity.
  - exists loading. eexists.
    rewrite log_reply_text, !log_logger, Hlog.
    split; [|split; [exact Hlvl|]].
    + rewrite <- !app_assoc. cbn [List.app]. reflexivity.
    + repeat constructor.
Qed.

End Acknowledgment.

(** C6. A report confirmed while the roster is empty: the broadcast makes no
    delivery attempt and logs its warning, the only warning among the lines
    the confirmation adds to the log, and the user gets the acknowledgment
    that every confirmed report gets, with the conversation ended, whether
    the roster is empty or not. *)
Theorem empty_roster_still_acknowledged :
  forall (world : Services) (update : Update) (env : Env),
    str_in (utf8 "✅") (message_text update) = true ->
    let env' := after (confirm_application update) env in
    (result load_admins env = [] ->
     deliveries env' = deliveries env
     /\ exists loading rest,
         log env' =
         log env
         ++ loading :: (WARNING, utf8 "⚠️ Нет администраторов для отправки заявки!") :: rest
         /\ fst loading <> WARNING
         /\ Forall (fun line => fst line = INFO) rest)
    /\ result (confirm_application update) env = END
    /\ replies env' =
       replies env
       ++ [{| text := submitted_text; reply_markup := ReplyKeyboardRemove;
              parse_mode := None |}].
Proof.
  intros world update env Hyes env'. split.
  - intros Hroster. exact (@confirm_application_empty world update env Hyes Hroster).
  - exact (@confirm_application_reply world update env Hyes).
Qed.

(** The user 5 confirms a report while [admins.txt] does not exist. *)
Lemma empty_roster_still_acknowledged_witness :
  str_in (utf8 "✅") (message_text (Concrete.says 5 "✅ Подтвердить и отправить")) = true
  /\ result (confirm_application (world := Concrete.Scripted)
               (Concrete.says 5 "✅ Подтвердить и отправить"))
       (Concrete.session Absent Concrete.located) = END
  /\ replies (after (confirm_application (world := Concrete.Scripted)
                       (Concrete.says 5 "✅ Подтвердить и отправить"))
                (Concrete.session Absent Concrete.located))
     = replies (Concrete.session Absent Concrete.located)
       ++ [{| text := submitted_text; reply_markup := ReplyKeyboardRemove;
              parse_mode := None |}].
Proof.
  split; [reflexivity|].
  pose proof (@empty_roster_still_acknowledged Concrete.Scripted
                (Concrete.says 5 "✅ Подтвердить и отправить")
                (Concrete.session Absent Concrete.located) eq_refl) as H.
  cbv zeta in H. exact (proj2 H).
Defined.

(** In that run nothing is delivered and the log has one warning. *)
Example nobody_to_deliver_to :
  let env' := after (confirm_application (world := Concrete.Scripted)
                       (Concrete.says 5 "✅ Подтвердить и отправить"))
                (Concrete.session Absent Concrete.located) in
  deliveries env' = []
  /\ filter (fun line => match fst line with WARNING => true | _ => false end) (log env')
     = [(WARNING, utf8 "⚠️ Нет администраторов для отправки заявки!")]
  /\ map text (replies env') = [submitted_text].
Proof. vm_compute. repeat split; reflexivity. Qed.

(** ** The guided form *)

Section Guided.
Context {py : PyBuiltins} {world : Services}.

(** One step of the form: the next state and the report after it. *)
Lemma location_step (u : Update) (e : Env) :
  result (get_location u) e = PARTICIPANTS
  /\ application (after (get_location u) e)
     = set_location (Some (message_text u)) (application e).
Proof. split; reflexivity. Qed.

Lemma participants_step (u : Update) (e : Env) :
  result (get_participants u) e = DAMAGE
  /\ application (after (get_participants u) e)
     = set_participants (Some (message_text u)) (application e).
Proof. split; reflexivity. Qed.

Lemma damage_step (u : Update) (e : Env) :
  result (get_damage u) e = INJURIES
  /\ application (after (get_damage u) e)
     = set_damage (Some (message_text u)) (application e).
Proof. split; reflexivity. Qed.

Lemma injuries_step (u : Update) (e : Env) :
  result (get_injuries u) e = CONTACT
  /\ application (after (get_injuries u) e)
     = set_injuries (Some (message_text u)) (application e).
Proof. split; reflexivity. Qed.

Lemma contact_step (u : Update) (e : Env) :
  result (get_contact u) e = CONFIRM
  /\ application (after (get_contact u) e)
     = set_contact (Some (message_text u)) (application e).
Proof. split; reflexivity. Qed.

Lemma after_ret {A} (a : A) (e : Env) : after (ret a) e = e.
Proof. reflexivity. Qed.

(** A conversation of one update more. *)
Lemma conversation_step (s : State) (u : Update) (rest : list Update) (e : Env) :
  result (conversation s (u :: rest)) e
  = result (process_update s u) e
    :: result (conversation (result (process_update s u) e) rest)
         (after (process_update s u) e)
  /\ after (conversation s (u :: rest)) e
     = after (conversation (result (process_update s u) e) rest)
         (after (process_update s u) e).
Proof.
  cbn [conversation]. rewrite result_bind, after_bind, result_bind, after_bind.
  split; reflexivity.
Qed.

(** Five texts from [LOCATION]: the states visited, and the environment
    after them, which is what the five handlers make of it in turn. *)
Lemma guided_run (u1 u2 u3 u4 u5 : Update) (rest : list Update) (env : Env) :
  Forall (fun u => TEXT_and_not_COMMAND u = true) [u1; u2; u3; u4; u5] ->
  let e5 :=
    after (get_contact u5)
      (after (get_injuries u4)
         (after (get_damage u3)
            (after (get_participants u2) (after (get_location u1) env)))) in
  result (conversation LOCATION (u1 :: u2 :: u3 :: u4 :: u5 :: rest)) env
  = PARTICIPANTS :: DAMAGE :: INJURIES :: CONTACT :: CONFIRM
    :: result (conversation CONFIRM rest) e5
  /\ after (conversation LOCATION (u1 :: u2 :: u3 :: u4 :: u5 :: rest)) env
     = after (conversation CONFIRM rest) e5.
Proof.
  intros H e5. subst e5.
  apply Forall_cons_iff in H. destruct H as [H1 H].
  apply Forall_cons_iff in H. destruct H as [H2 H].
  apply Forall_cons_iff in H. destruct H as [H3 H].
  apply Forall_cons_iff in H. destruct H as [H4 H].
  apply Forall_cons_iff in H. destruct H as [H5 _].
  rewrite !(proj1 (conversation_step _ _ _ _)), !(proj2 (conversation_step _ _ _ _)).
  rewrite (text_reaches_the_handler LOCATION u1 eq_refl H1).
  rewrite !(proj1 (location_step _ _)).
  rewrite (text_reaches_the_handler PARTICIPANTS u2 eq_refl H2).
  rewrite !(proj1 (participants_step _ _)).
  rewrite (text_reaches_the_handler DAMAGE u3 eq_refl H3).
  rewrite !(proj1 (damage_step _ _)).
  rewrite (text_reaches_the_handler INJURIES u4 eq_refl H4).
  rewrite !(proj1 (injuries_step _ _)).
  rewrite (text_reaches_the_handler CONTACT u5 eq_refl H5).
  rewrite !(proj1 (contact_step _ _)).
  split; reflexivity.
Qed.

End Guided.

(** C8. The handler of each step of the guided form stores its message as
    it is in the field of the step, changes no other field and returns the
    next state of the order. So from [LOCATION] five text messages, which
    are the messages that [main] hands to these handlers (a text that is not
    empty and no command), take the form through [PARTICIPANTS], [DAMAGE],
    [INJURIES], [CONTACT] and [CONFIRM], in this order, each state once and
    none left out, whatever the texts are, and after the five the report
    holds the five texts. *)
Theorem guided_form_visits_steps_in_order :
  forall (py : PyBuiltins) (world : Services) (u1 u2 u3 u4 u5 : Update) (env : Env),
    Forall (fun u => TEXT_and_not_COMMAND u = true) [u1; u2; u3; u4; u5] ->
    (forall u e,
        (result (get_location u) e = PARTICIPANTS
         /\ application (after (get_location u) e)
            = set_location (Some (message_text u)) (application e))
        /\ (result (get_participants u) e = DAMAGE
            /\ application (after (get_participants u) e)
               = set_participants (Some (message_text u)) (application e))
        /\ (result (get_damage u) e = INJURIES
            /\ application (after (get_damage u) e)
               = set_damage (Some (message_text u)) (application e))
        /\ (result (get_injuries u) e = CONTACT
            /\ application (after (get_injuries u) e)
               = set_injuries (Some (message_text u)) (application e))
        /\ (result (get_contact u) e = CONFIRM
            /\ application (after (get_contact u) e)
               = set_contact (Some (message_text u)) (application e)))
    /\ result (conversation LOCATION [u1; u2; u3; u4; u5]) env
       = [PARTICIPANTS; DAMAGE; INJURIES; CONTACT; CONFIRM]
    /\ application (after (conversation LOCATION [u1; u2; u3; u4; u5]) env)
       = {| timestamp := timestamp (application env);
            location := Some (message_text u1);
            participants := Some (message_text u2);
            damage := Some (message_text u3);
            injuries := Some (message_text u4);
            photos_count := photos_count (application env);
            contact := Some (message_text u5) |}.
Proof.
  intros py world u1 u2 u3 u4 u5 env Htexts.
  destruct (guided_run [] env Htexts) as [Hstates Hafter].
  split; [|split].
  - intros u e.
    repeat split;
      first [apply location_step | apply participants_step | apply damage_step
            | apply injuries_step | apply contact_step].
  - rewrite Hstates. reflexivity.
  - rewrite Hafter. cbn [conversation]. rewrite after_ret.
    rewrite (proj2 (contact_step _ _)), (proj2 (injuries_step _ _)),
      (proj2 (damage_step _ _)), (proj2 (participants_step _ _)),
      (proj2 (location_step _ _)).
    reflexivity.
Qed.

(** Five answers of the user 5, one of them a single letter: the form goes
    through its five steps. *)
Lemma guided_form_visits_steps_in_order_witness :
  Forall (fun u => TEXT_and_not_COMMAND u = true)
    [Concrete.says 5 "ул. Кирова, 12"; Concrete.says 5 "2 автомобиля";
     Concrete.says 5 "бампер"; Concrete.says 5 "-"; Concrete.says 5 "+79001234567"]
  /\ result (conversation (py := Concrete.Basic) (world := Concrete.Scripted) LOCATION
               [Concrete.says 5 "ул. Кирова, 12"; Concrete.says 5 "2 автомобиля";
                Concrete.says 5 "бампер"; Concrete.says 5 "-";
                Concrete.says 5 "+79001234567"])
       (Concrete.session Absent (Concrete.fresh Concrete.noon))
     = [PARTICIPANTS; DAMAGE; INJURIES; CONTACT; CONFIRM].
Proof.
  assert (H : Forall (fun u => TEXT_and_not_COMMAND u = true)
                [Concrete.says 5 "ул. Кирова, 12"; Concrete.says 5 "2 автомобиля";
                 Concrete.says 5 "бампер"; Concrete.says 5 "-";
                 Concrete.says 5 "+79001234567"]).
  { repeat (apply Forall_cons; [reflexivity|]). apply Forall_nil. }
  split; [exact H|].
  exact (proj1 (proj2 (@guided_form_visits_steps_in_order Concrete.Basic Concrete.Scripted
                         _ _ _ _ _ (Concrete.session Absent (Concrete.fresh Concrete.noon))
                         H))).
Defined.

(** A command in the middle of the form is no answer: [/cancel] in
    [LOCATION] ends the conversation, and any other command is dropped with
    the form waiting at the same step. *)
Example commands_are_no_answers :
  result (process_update (py := Concrete.Basic) (world := Concrete.Scripted) LOCATION
            (Concrete.command 5 "/cancel"))
    (Concrete.session Absent (Concrete.fresh Concrete.noon)) = END
  /\ process_update (py := Concrete.Basic) (world := Concrete.Scripted) LOCATION
       (Concrete.command 5 "/help")
       (Concrete.session Absent (Concrete.fresh Concrete.noon))
     = (LOCATION, Concrete.session Absent (Concrete.fresh Concrete.noon)).
Proof. split; vm_compute; reflexivity. Qed.

(** * Further properties of the handlers *)

(** ** The administrator menu and its two handlers *)

Section AdminFlow.
Context {py : PyBuiltins}.

(** [admin_menu] checks the caller against the roster as it is stored now:
    a caller who is on it gets the menu, any other caller is refused and
    the conversation ends. *)
Lemma admin_menu_result (update : Update) (e : Env) :
  result (admin_menu update) e =
  if int_in_list (id (effective_user update)) (result load_admins e)
  then ADMIN_MENU else END.
Proof.
  unfold admin_menu, is_admin.
  rewrite !result_bind. cbv beta. cbn [ret result fst].
  destruct (int_in_list (id (effective_user update)) (result load_admins e)).
  - cbn [negb]. rewrite !result_bind. reflexivity.
  - cbn [negb]. rewrite !result_bind. reflexivity.
Qed.

Lemma load_admins_file (e : Env) : admins_txt (after load_admins e) = admins_txt e.
Proof. destruct (load_admins_after e) as [lvl [line [-> _]]]. reflexivity. Qed.

(** The roster after [admin_menu] is the roster before it. *)
Lemma admin_menu_roster (update : Update) (e : Env) :
  result load_admins (after (admin_menu update) e) = result load_admins e.
Proof.
  rewrite !load_admins_result.
  now destruct (admin_menu_effect update e) as [-> _].
Qed.

(** The outcomes of [admin_add_handler] for a numeric identity. *)
Lemma add_numeric (update : Update) (env : Env) (new_admin_id : Z) :
  int_of_str (strip (message_text update)) = Some new_admin_id ->
  let roster := result load_admins env in
  let env' := after (admin_add_handler update) env in
  if int_in_list new_admin_id roster then
    admins_txt env' = admins_txt env
    /\ first_text env env'
       = Some (utf8 "⚠️ Администратор " ++ str_of_int new_admin_id
               ++ utf8 " уже есть в списке!")
  else
    match write_error env with
    | None =>
        admins_txt env' = Lines (roster ++ [new_admin_id])
        /\ first_text env env'
           = Some (utf8 "✅ Администратор " ++ str_of_int new_admin_id
                   ++ utf8 " успешно добавлен!")
    | Some failure =>
        admins_txt env' = left_by failure (roster ++ [new_admin_id]) (admins_txt env)
        /\ first_text env env' = Some (utf8 "❌ Ошибка при сохранении администратора.")
    end.
Proof.
  intros Hparse roster env'. subst env'.
  unfold admin_add_handler. rewrite Hparse. cbv beta iota.
  rewrite 2 after_bind. cbv beta.
  match goal with |- context [after (admin_menu update) ?e1] =>
    destruct (admin_menu_effect update e1) as [Hfile [_ [_ [r Hreplies]]]];
    unfold first_text, first_reply; rewrite Hfile, Hreplies; clear Hfile Hreplies
  end.
  fold roster.
  loaded.
  destruct (int_in_list new_admin_id roster).
  - run_effects. split; [reflexivity|]. now rewrite nth_error_first_new.
  - unfold save_admins. rewrite !after_bind, !result_bind. run_effects.
    destruct (write_error env) as [[e | written e]|].
    + run_effects. split; [reflexivity|]. now rewrite nth_error_first_new.
    + run_effects. split; [reflexivity|]. now rewrite nth_error_first_new.
    + run_effects. split; [reflexivity|]. now rewrite nth_error_first_new.
Qed.

(** The outcome of [admin_remove_handler] for a numeric identity that is
    not on the roster. *)
Lemma remove_absent (update : Update) (env : Env) (target : Z) :
  int_of_str (strip (message_text update)) = Some target ->
  ~ In target (result load_admins env) ->
  let env' := after (admin_remove_handler update) env in
  admins_txt env' = admins_txt env
  /\ first_text env env'
     = Some (utf8 "⚠️ Администратор " ++ str_of_int target ++ utf8 " не найден в списке!").
Proof.
  intros Hparse Hout env'. subst env'.
  unfold admin_remove_handler. rewrite Hparse. cbv beta iota.
  rewrite 2 after_bind. cbv beta.
  match goal with |- context [after (admin_menu update) ?e1] =>
    destruct (admin_menu_effect update e1) as [Hfile [_ [_ [r Hreplies]]]];
    unfold first_text, first_reply; rewrite Hfile, Hreplies; clear Hfile Hreplies
  end.
  replace (int_in_list target (result load_admins env)) with false
    by (symmetry; apply not_true_is_false; now rewrite int_in_list_In).
  cbn [negb]. loaded. run_effects. split; [reflexivity|].
  now rewrite nth_error_first_new.
Qed.

(** The state a numeric request leaves the conversation in is the one
    [admin_menu] gives for the roster as it is after the request. *)
Lemma add_numeric_result (update : Update) (env : Env) (new_admin_id : Z) :
  int_of_str (strip (message_text update)) = Some new_admin_id ->
  result (admin_add_handler update) env =
  if int_in_list (id (effective_user update))
       (result load_admins (after (admin_add_handler update) env))
  then ADMIN_MENU else END.
Proof.
  intros Hparse. unfold admin_add_handler. rewrite Hparse. cbv beta iota.
  rewrite 2 result_bind, 2 after_bind. cbv beta.
  rewrite admin_menu_result, admin_menu_roster. reflexivity.
Qed.

Lemma remove_numeric_result (update : Update) (env : Env) (target : Z) :
  int_of_str (strip (message_text update)) = Some target ->
  result (admin_remove_handler update) env =
  if int_in_list (id (effective_user update))
       (result load_admins (after (admin_remove_handler update) env))
  then ADMIN_MENU else END.
Proof.
  intros Hparse. unfold admin_remove_handler. rewrite Hparse. cbv beta iota.
  rewrite 2 result_bind, 2 after_bind. cbv beta.
  rewrite admin_menu_result, admin_menu_roster. reflexivity.
Qed.

End AdminFlow.


Lemma list_remove_In (x y : Z) (l : list Z) : In y (list_remove x l) -> In y l.
Proof.
  induction l as [|z l IH]; simpl; [tauto|].
  destruct (Z.eqb x z); [now right|]. intros [H | H]; [now left | right; auto].
Qed.

Lemma list_remove_other (x y : Z) (l : list Z) :
  y <> x -> In y l -> In y (list_remove x l).
Proof.
  intros Hne. induction l as [|z l IH]; simpl; [tauto|].
  destruct (Z.eqb x z) eqn:Heq.
  - apply Z.eqb_eq in Heq. subst z. intros [H | H]; [congruence | assumption].
  - intros [H | H]; [now left | right; auto].
Qed.



Lemma list_remove_NoDup (x : Z) (l : list Z) :
  NoDup l -> NoDup (list_remove x l) /\ ~ In x (list_remove x l).
Proof.
  induction 1 as [|z l Hz Hl [IH1 IH2]]; simpl.
  - split; [constructor | intros []].
  - destruct (Z.eqb x z) eqn:Heq.
    + apply Z.eqb_eq in Heq. subst z. split; assumption.
    + apply Z.eqb_neq in Heq. split.
      * constructor; [|assumption]. intros H. apply Hz. eapply list_remove_In, H.
      * intros [H | H]; [congruence | contradiction].
Qed.

Section AdminProperties.
Context {py : PyBuiltins}.

(** A text that is no number leaves the roster file as it is. *)
Lemma add_not_numeric (update : Update) (env : Env) :
  int_of_str (strip (message_text update)) = None ->
  admin_add_handler update env
  = (ADMIN_ADD, after (reply_text invalid_id_text NoMarkup None) env).
Proof. intros H. unfold admin_add_handler. rewrite H. reflexivity. Qed.


(** The roster after [admin_add_handler], whatever the text. *)
Lemma roster_after_add (update : Update) (env : Env) :
  let roster := result load_admins env in
  let roster' := result load_admins (after (admin_add_handler update) env) in
  roster' = roster
  \/ (exists new_admin_id,
        int_of_str (strip (message_text update)) = Some new_admin_id
        /\ ~ In new_admin_id roster
        /\ write_error env = None
        /\ roster' = roster ++ [new_admin_id])
  \/ (exists new_admin_id written e,
        int_of_str (strip (message_text update)) = Some new_admin_id
        /\ ~ In new_admin_id roster
        /\ write_error env = Some (WriteRaises written e)
        /\ roster' = first_n written (roster ++ [new_admin_id])).
Proof.
  intros roster roster'. subst roster'.
  destruct (int_of_str (strip (message_text update))) as [n|] eqn:Hparse.
  - pose proof (@add_numeric py update env n Hparse) as H. cbv zeta in H.
    fold roster in H. rewrite (load_admins_result (after _ _)).
    destruct (int_in_list n roster) eqn:Hin.
    + left. destruct H as [-> _]. symmetry. apply load_admins_result.
    + assert (Hout : ~ In n roster).
      { intros K. apply int_in_list_In in K. congruence. }
      destruct (write_error env) as [[e | written e]|] eqn:Hw.
      * left. destruct H as [-> _]. symmetry. apply load_admins_result.
      * right. right. exists n, written, e. destruct H as [-> _]. repeat split.
        exact Hout.
      * right. left. exists n. destruct H as [-> _]. repeat split. exact Hout.
  - left. unfold after at 1. rewrite (add_not_numeric update env Hparse).
    unfold roster. rewrite !load_admins_result. reflexivity.
Qed.


(** A new identity on a file that can be written. *)
Lemma add_saved_roster (update : Update) (env : Env) (new_admin_id : Z) :
  int_of_str (strip (message_text update)) = Some new_admin_id ->
  ~ In new_admin_id (result load_admins env) ->
  write_error env = None ->
  result load_admins (after (admin_add_handler update) env)
  = result load_admins env ++ [new_admin_id].
Proof.
  intros Hparse Hnew Hw.
  destruct (roster_after_add update env)
    as [Hsame | [[n [Hn [_ [_ Hroster]]]] | [n [written [e [_ [_ [Hbroken _]]]]]]]];
    [| | congruence].
  - exfalso. pose proof (@add_numeric py update env new_admin_id Hparse) as H.
    cbv zeta in H.
    replace (int_in_list new_admin_id (result load_admins env)) with false in H
      by (symmetry; apply not_true_is_false; now rewrite int_in_list_In).
    rewrite Hw in H. destruct H as [Hfile _].
    rewrite (load_admins_result (after _ _)), Hfile in Hsame. cbn [roster_of] in Hsame.
    apply (f_equal (@List.length Z)) in Hsame. rewrite length_app in Hsame.
    cbn [List.length] in Hsame. lia.
  - rewrite Hparse in Hn. injection Hn as <-. exact Hroster.
Qed.

End AdminProperties.

(** X1. A numeric identity sent in [ADMIN_ADD]: when it is on the roster
    already the file is left as it is and the answer says so; otherwise the
    roster with the identity appended at its end is saved, and the answer
    reports it; when the save fails, in whichever way, the answer reports a
    save error. *)
Theorem add_appends_unless_present :
  forall (py : PyBuiltins) (update : Update) (env : Env) (new_admin_id : Z),
    int_of_str (strip (message_text update)) = Some new_admin_id ->
    let roster := result load_admins env in
    let env' := after (admin_add_handler update) env in
    (In new_admin_id roster ->
     admins_txt env' = admins_txt env
     /\ first_text env env'
        = Some (utf8 "⚠️ Администратор " ++ str_of_int new_admin_id
                ++ utf8 " уже есть в списке!"))
    /\ (~ In new_admin_id roster ->
        (write_error env = None ->
         result load_admins env' = roster ++ [new_admin_id]
         /\ first_text env env'
            = Some (utf8 "✅ Администратор " ++ str_of_int new_admin_id
                    ++ utf8 " успешно добавлен!"))
        /\ (forall failure, write_error env = Some failure ->
            first_text env env'
            = Some (utf8 "❌ Ошибка при сохранении администратора."))).
Proof.
  intros py update env n Hparse roster env'.
  pose proof (@add_numeric py update env n Hparse) as H. cbv zeta in H.
  fold roster env' in H.
  destruct (int_in_list n roster) eqn:Hin.
  - apply int_in_list_In in Hin. split; [intros _; exact H | intros K; contradiction].
  - assert (Hout : ~ In n roster).
    { intros K. apply int_in_list_In in K. congruence. }
    split; [intros K; contradiction|]. intros _. split.
    + intros Hw. rewrite Hw in H. destruct H as [Hfile Htext]. split; [|exact Htext].
      rewrite load_admins_result. fold env'. now rewrite Hfile.
    + intros failure Hw. rewrite Hw in H. exact (proj2 H).
Qed.

(** The user 42 adds 99 to the roster 42, 7. *)
Lemma add_appends_unless_present_witness :
  int_of_str (PyBuiltins := Concrete.Basic)
    (strip (py := Concrete.Basic) (message_text (Concrete.says 42 " 99 "))) = Some 99%Z
  /\ result load_admins
       (after (admin_add_handler (py := Concrete.Basic) (Concrete.says 42 " 99 "))
          (Concrete.session (Lines [42; 7]%Z) (Concrete.fresh Concrete.noon)))
     = result load_admins (Concrete.session (Lines [42; 7]%Z) (Concrete.fresh Concrete.noon))
       ++ [99%Z].
Proof.
  split; [reflexivity|].
  pose proof (@add_appends_unless_present Concrete.Basic (Concrete.says 42 " 99 ")
                (Concrete.session (Lines [42; 7]%Z) (Concrete.fresh Concrete.noon)) 99%Z
                eq_refl) as H.
  cbv zeta in H. destruct H as [_ H].
  assert (Hout : ~ In 99%Z (result load_admins
                    (Concrete.session (Lines [42; 7]%Z) (Concrete.fresh Concrete.noon)))).
  { vm_compute. intuition discriminate. }
  destruct (H Hout) as [Hsaved _]. destruct (Hsaved eq_refl) as [Hroster _].
  exact Hroster.
Defined.

(** X2. [admin_add_handler] does not check the caller: for a caller who is
    not on the roster the new identity is saved all the same. Only then is
    the caller checked, by [admin_menu], against the roster as it is now: the
    conversation ends, unless the identity the caller added is the caller's
    own. *)
Theorem add_is_saved_for_a_caller_off_the_roster :
  forall (py : PyBuiltins) (update : Update) (env : Env) (new_admin_id : Z),
    int_of_str (strip (message_text update)) = Some new_admin_id ->
    ~ In (id (effective_user update)) (result load_admins env) ->
    ~ In new_admin_id (result load_admins env) ->
    write_error env = None ->
    result load_admins (after (admin_add_handler update) env)
    = result load_admins env ++ [new_admin_id]
    /\ (new_admin_id = id (effective_user update) ->
        result (admin_add_handler update) env = ADMIN_MENU)
    /\ (new_admin_id <> id (effective_user update) ->
        result (admin_add_handler update) env = END).
Proof.
  intros py update env n Hparse Hcaller Hnew Hw.
  pose proof (@add_saved_roster py update env n Hparse Hnew Hw) as Hroster.
  split; [exact Hroster|].
  rewrite (add_numeric_result update env Hparse), Hroster.
  split; intros Hn.
  - replace (int_in_list _ _) with true; [reflexivity|].
    symmetry. apply int_in_list_In, in_app_iff. right. left. exact Hn.
  - replace (int_in_list _ _) with false; [reflexivity|].
    symmetry. apply not_true_is_false. rewrite int_in_list_In, in_app_iff.
    intros [K | [K | []]]; [contradiction | congruence].
Qed.

(** The user 5, who is not on the roster 42, adds himself. *)
Lemma add_is_saved_for_a_caller_off_the_roster_witness :
  result load_admins
    (after (admin_add_handler (py := Concrete.Basic) (Concrete.says 5 "5"))
       (Concrete.session (Lines [42%Z]) (Concrete.fresh Concrete.noon)))
  = result load_admins (Concrete.session (Lines [42%Z]) (Concrete.fresh Concrete.noon))
    ++ [5%Z]
  /\ result (admin_add_handler (py := Concrete.Basic) (Concrete.says 5 "5"))
       (Concrete.session (Lines [42%Z]) (Concrete.fresh Concrete.noon))
     = ADMIN_MENU.
Proof.
  assert (Hout : ~ In 5%Z (result load_admins
                   (Concrete.session (Lines [42%Z]) (Concrete.fresh Concrete.noon)))).
  { vm_compute. intuition discriminate. }
  destruct (@add_is_saved_for_a_caller_off_the_roster Concrete.Basic
              (Concrete.says 5 "5")
              (Concrete.session (Lines [42%Z]) (Concrete.fresh Concrete.noon)) 5%Z
              eq_refl Hout Hout eq_refl) as [Hroster [Hself _]].
  split; [exact Hroster | exact (Hself eq_refl)].
Defined.



(** X4. After a removal that is neither refused by the guard nor failed by
    the file, the target of a duplicate-free roster is no administrator any
    more, and every other identity is on the roster exactly when it was
    before. *)
Theorem removed_target_is_off_the_roster :
  forall (py : PyBuiltins) (update : Update) (env : Env) (target : Z),
    int_of_str (strip (message_text update)) = Some target ->
    NoDup (result load_admins env) ->
    In target (result load_admins env) ->
    ~ (target = id (effective_user update) /\ List.length (result load_admins env) = 1%nat) ->
    write_error env = None ->
    let env' := after (admin_remove_handler update) env in
    result (is_admin target) env' = false
    /\ forall other, other <> target ->
         (In other (result load_admins env') <-> In other (result load_admins env)).
Proof.
  intros py update env target Hparse Hnodup Hin Hguard Hw env'.
  assert (Hroster : result load_admins env' = list_remove target (result load_admins env)).
  { pose proof (@remove_present py update env target Hparse Hin) as H. cbv zeta in H.
    fold env' in H.
    replace (Z.eqb target (id (effective_user update))
             && Z.eqb (len (result load_admins env)) 1) with false in H.
    - rewrite Hw in H. destruct H as [Hfile _].
      rewrite (load_admins_result env'), Hfile. reflexivity.
    - symmetry. apply not_true_is_false. rewrite andb_true_iff, Z.eqb_eq, len_one.
      exact Hguard. }
  split.
  - unfold is_admin. rewrite result_bind. cbn [ret result fst]. fold (result load_admins env').
    rewrite Hroster. apply not_true_is_false. rewrite int_in_list_In.
    now apply list_remove_NoDup.
  - intros other Hother. rewrite Hroster. split.
    + apply list_remove_In.
    + now apply list_remove_other.
Qed.

Lemma removed_target_is_off_the_roster_witness :
  result (is_admin 7)
    (after (admin_remove_handler (py := Concrete.Basic) (Concrete.says 42 "7"))
       (Concrete.session (Lines [42; 7]%Z) (Concrete.fresh Concrete.noon)))
  = false.
Proof.
  assert (Hnodup : NoDup (result load_admins
                       (Concrete.session (Lines [42; 7]%Z) (Concrete.fresh Concrete.noon)))).
  { vm_compute. apply NoDup_cons; [intros [K | []]; discriminate K|].
    apply NoDup_cons; [intros [] | apply NoDup_nil]. }
  assert (Hin : In 7%Z (result load_admins
                       (Concrete.session (Lines [42; 7]%Z) (Concrete.fresh Concrete.noon)))).
  { vm_compute. right. now left. }
  assert (Hguard : ~ (7%Z = id (effective_user (Concrete.says 42 "7"))
                      /\ List.length (result load_admins
                           (Concrete.session (Lines [42; 7]%Z) (Concrete.fresh Concrete.noon)))
                         = 1%nat)).
  { intros [K _]. discriminate K. }
  pose proof (@removed_target_is_off_the_roster Concrete.Basic (Concrete.says 42 "7")
                (Concrete.session (Lines [42; 7]%Z) (Concrete.fresh Concrete.noon)) 7%Z
                eq_refl Hnodup Hin Hguard eq_refl) as H.
  cbv zeta in H. exact (proj1 H).
Defined.



Section Authorisation.

Lemma is_admin_result (user_id : Z) (e : Env) :
  result (is_admin user_id) e = int_in_list user_id (result load_admins e).
Proof. unfold is_admin. rewrite result_bind. reflexivity. Qed.

Lemma result_ret {A} (a : A) (e : Env) : result (ret a) e = a.
Proof. reflexivity. Qed.

(** The reply of [admin_menu] to a caller who is not on the roster. *)
Lemma admin_menu_refusal (update : Update) (e : Env) :
  ~ In (id (effective_user update)) (result load_admins e) ->
  replies (after (admin_menu update) e)
  = replies e
    ++ [{| text := utf8 "❌ У вас нет доступа к этой функции.";
           reply_markup := ReplyKeyboardRemove; parse_mode := None |}].
Proof.
  intros Hout. unfold admin_menu, is_admin.
  rewrite !after_bind, !result_bind. cbv beta. rewrite !result_ret, !after_ret.
  replace (int_in_list (id (effective_user update)) (result load_admins e)) with false
    by (symmetry; apply not_true_is_false; now rewrite int_in_list_In).
  cbn [negb]. rewrite !after_bind. cbv beta. rewrite after_ret.
  loaded. reflexivity.
Qed.

End Authorisation.

(** X6. A numeric identity sent in [ADMIN_REMOVE] that is not on the roster:
    the file is left as it is and the answer says that the identity was not
    found. *)
Theorem unknown_target_is_reported_not_found :
  forall (py : PyBuiltins) (update : Update) (env : Env) (target : Z),
    int_of_str (strip (message_text update)) = Some target ->
    ~ In target (result load_admins env) ->
    let env' := after (admin_remove_handler update) env in
    admins_txt env' = admins_txt env
    /\ first_text env env'
       = Some (utf8 "⚠️ Администратор " ++ str_of_int target ++ utf8 " не найден в списке!")
    /\ (In (id (effective_user update)) (result load_admins env) ->
        result (admin_remove_handler update) env = ADMIN_MENU).
Proof.
  intros py update env target Hparse Hout env'.
  destruct (@remove_absent py update env target Hparse Hout) as [Hfile Htext].
  fold env' in Hfile, Htext. repeat split; try assumption.
  intros Hadmin. rewrite (remove_numeric_result update env Hparse).
  rewrite (load_admins_result (after _ _)). fold env'. rewrite Hfile.
  rewrite <- load_admins_result.
  apply int_in_list_In in Hadmin. now rewrite Hadmin.
Qed.

Lemma unknown_target_is_reported_not_found_witness :
  first_text (Concrete.session (Lines [42%Z]) (Concrete.fresh Concrete.noon))
    (after (admin_remove_handler (py := Concrete.Basic) (Concrete.says 42 "7"))
       (Concrete.session (Lines [42%Z]) (Concrete.fresh Concrete.noon)))
  = Some (utf8 "⚠️ Администратор " ++ str_of_int 7 ++ utf8 " не найден в списке!").
Proof.
  assert (Hout : ~ In 7%Z (result load_admins
                   (Concrete.session (Lines [42%Z]) (Concrete.fresh Concrete.noon)))).
  { vm_compute. intuition discriminate. }
  pose proof (@unknown_target_is_reported_not_found Concrete.Basic (Concrete.says 42 "7")
                (Concrete.session (Lines [42%Z]) (Concrete.fresh Concrete.noon)) 7%Z
                eq_refl Hout) as H.
  cbv zeta in H. exact (proj1 (proj2 H)).
Defined.

(** X7. An administrator of a duplicate-free roster of two or more who
    removes himself is off the roster once the file is written, and the
    handler, which returns through [admin_menu], then ends the conversation
    instead of showing the menu. *)
Theorem self_removal_ends_the_conversation :
  forall (py : PyBuiltins) (update : Update) (env : Env),
    int_of_str (strip (message_text update)) = Some (id (effective_user update)) ->
    NoDup (result load_admins env) ->
    In (id (effective_user update)) (result load_admins env) ->
    List.length (result load_admins env) <> 1%nat ->
    write_error env = None ->
    result (admin_remove_handler update) env = END
    /\ result (is_admin (id (effective_user update)))
         (after (admin_remove_handler update) env) = false.
Proof.
  intros py update env Hparse Hnodup Hin Hlen Hw.
  assert (Hroster : result load_admins (after (admin_remove_handler update) env)
                    = list_remove (id (effective_user update)) (result load_admins env)).
  { pose proof (@remove_present py update env _ Hparse Hin) as H. cbv zeta in H.
    replace (Z.eqb (len (result load_admins env)) 1) with false in H
      by (symmetry; apply not_true_is_false; now rewrite len_one).
    rewrite andb_false_r, Hw in H. destruct H as [Hfile _].
    rewrite (load_admins_result (after _ _)), Hfile. reflexivity. }
  assert (Hgone : int_in_list (id (effective_user update))
                    (result load_admins (after (admin_remove_handler update) env)) = false).
  { apply not_true_is_false. rewrite int_in_list_In, Hroster.
    now apply list_remove_NoDup. }
  split.
  - rewrite (remove_numeric_result update env Hparse). now rewrite Hgone.
  - rewrite is_admin_result. exact Hgone.
Qed.

Lemma self_removal_ends_the_conversation_witness :
  result (admin_remove_handler (py := Concrete.Basic) (Concrete.says 42 "42"))
    (Concrete.session (Lines [42; 7]%Z) (Concrete.fresh Concrete.noon))
  = END.
Proof.
  assert (Hnodup : NoDup (result load_admins
                       (Concrete.session (Lines [42; 7]%Z) (Concrete.fresh Concrete.noon)))).
  { vm_compute. apply NoDup_cons; [intros [K | []]; discriminate K|].
    apply NoDup_cons; [intros [] | apply NoDup_nil]. }
  assert (Hin : In (id (effective_user (Concrete.says 42 "42")))
                  (result load_admins
                     (Concrete.session (Lines [42; 7]%Z) (Concrete.fresh Concrete.noon)))).
  { vm_compute. now left. }
  assert (Hlen : List.length (result load_admins
                    (Concrete.session (Lines [42; 7]%Z) (Concrete.fresh Concrete.noon)))
                 <> 1%nat) by discriminate.
  exact (proj1 (@self_removal_ends_the_conversation Concrete.Basic (Concrete.says 42 "42")
                  (Concrete.session (Lines [42; 7]%Z) (Concrete.fresh Concrete.noon))
                  eq_refl Hnodup Hin Hlen eq_refl)).
Defined.

(** X8. [admin_menu] decides by the roster as it is stored at the call: a
    caller on it gets the menu; any other caller gets the refusal, the
    keyboard is removed and the conversation ends. In neither case does the
    roster file change. *)
Theorem admin_menu_is_for_the_roster_only :
  forall (update : Update) (env : Env),
    (In (id (effective_user update)) (result load_admins env) ->
     result (admin_menu update) env = ADMIN_MENU)
    /\ (~ In (id (effective_user update)) (result load_admins env) ->
        result (admin_menu update) env = END
        /\ replies (after (admin_menu update) env)
           = replies env
             ++ [{| text := utf8 "❌ У вас нет доступа к этой функции.";
                    reply_markup := ReplyKeyboardRemove; parse_mode := None |}])
    /\ admins_txt (after (admin_menu update) env) = admins_txt env.
Proof.
  intros update env. rewrite admin_menu_result. repeat split.
  - intros H. apply int_in_list_In in H. now rewrite H.
  - replace (int_in_list _ _) with false; [reflexivity|].
    symmetry. apply not_true_is_false. now rewrite int_in_list_In.
  - now apply admin_menu_refusal.
  - now destruct (admin_menu_effect update env) as [-> _].
Qed.

(** X9. Without a readable [admins.txt] the roster is the empty list of the
    code, so nobody is an administrator: [is_admin] is false for every
    identity and [admin_menu] ends the conversation for every caller. *)
Theorem nobody_is_admin_without_the_file :
  forall (update : Update) (user_id : Z) (env : Env),
    (forall ids, admins_txt env <> Lines ids) ->
    result (is_admin user_id) env = false
    /\ result (admin_menu update) env = END.
Proof.
  intros update user_id env Hfile.
  assert (Hroster : result load_admins env = []).
  { rewrite load_admins_result. destruct (admins_txt env) as [|ids|e]; try reflexivity.
    now elim (Hfile ids). }
  split.
  - now rewrite is_admin_result, Hroster.
  - now rewrite admin_menu_result, Hroster.
Qed.

Lemma nobody_is_admin_without_the_file_witness :
  result (is_admin 42) (Concrete.session Absent (Concrete.fresh Concrete.noon)) = false
  /\ result (admin_menu (Concrete.says 42 "⚙️"))
       (Concrete.session Absent (Concrete.fresh Concrete.noon)) = END.
Proof.
  assert (Hfile : forall ids,
             admins_txt (Concrete.session Absent (Concrete.fresh Concrete.noon))
             <> Lines ids) by (intros ids; discriminate).
  exact (@nobody_is_admin_without_the_file (Concrete.says 42 "⚙️") 42%Z
           (Concrete.session Absent (Concrete.fresh Concrete.noon)) Hfile).
Defined.

(** ** Entering the conversation *)

Section Entry.
Context {py : PyBuiltins}.

Lemma is_admin_file (user_id : Z) (e : Env) :
  admins_txt (after (is_admin user_id) e) = admins_txt e.
Proof.
  unfold is_admin. rewrite after_bind. cbv beta. rewrite after_ret.
  apply load_admins_file.
Qed.

Lemma is_admin_application (user_id : Z) (e : Env) :
  application (after (is_admin user_id) e) = application e.
Proof.
  unfold is_admin. rewrite after_bind. cbv beta. rewrite after_ret.
  loaded. reflexivity.
Qed.

Lemma admin_menu_application (update : Update) (e : Env) :
  application (after (admin_menu update) e) = application e.
Proof.
  unfold admin_menu, is_admin.
  rewrite !after_bind, !result_bind. cbv beta. rewrite !result_ret, !after_ret.
  destruct (negb (int_in_list (id (effective_user update)) (result load_admins e))).
  - rewrite !after_bind. cbv beta. rewrite after_ret. loaded. reflexivity.
  - rewrite !after_bind. cbv beta. rewrite after_ret. loaded. loaded. reflexivity.
Qed.

Lemma ai_greeting_effect (e : Env) :
  result ai_greeting e = AI_CHAT
  /\ application (after ai_greeting e) = application e
  /\ admins_txt (after ai_greeting e) = admins_txt e.
Proof. repeat split. Qed.

Lemma guided_greeting_effect (e : Env) :
  result guided_greeting e = LOCATION
  /\ application (after guided_greeting e) = application e
  /\ admins_txt (after guided_greeting e) = admins_txt e.
Proof. repeat split. Qed.

End Entry.

(** X10. [choose_mode] enters the administrator menu only for a choice with
    the gear sign made by a caller who is on the roster at that moment; any
    other choice starts the assisted interview when it has the robot sign or
    the letters AI in any case, and the guided form otherwise. The report is
    not touched. *)
Theorem choose_mode_admits_admins_only :
  forall (py : PyBuiltins) (update : Update) (env : Env),
    let choice := message_text update in
    let admin := str_in (utf8 "⚙️") choice
                 && int_in_list (id (effective_user update)) (result load_admins env) in
    let assisted := str_in (utf8 "🤖") choice || str_in (utf8 "AI") (upper choice) in
    result (choose_mode update) env
    = (if admin then ADMIN_MENU else if assisted then AI_CHAT else LOCATION)
    /\ application (after (choose_mode update) env) = application env
    /\ admins_txt (after (choose_mode update) env) = admins_txt env.
Proof.
  intros py update env choice admin assisted. subst admin assisted choice.
  unfold choose_mode. cbv zeta.
  rewrite !result_bind, !after_bind. cbv beta.
  set (e1 := after (logger INFO (utf8 "📌 Выбран режим: " ++ message_text update)) env).
  assert (Hroster : result load_admins e1 = result load_admins env)
    by (rewrite !load_admins_result; reflexivity).
  destruct (str_in (utf8 "⚙️") (message_text update)).
  - rewrite is_admin_result, Hroster. cbn [andb].
    destruct (int_in_list (id (effective_user update)) (result load_admins env)) eqn:Hadmin.
    + rewrite admin_menu_result, admin_menu_application.
      destruct (admin_menu_effect update (after (is_admin (id (effective_user update))) e1))
        as [-> _].
      rewrite is_admin_file, is_admin_application.
      rewrite (load_admins_result (after _ _)), is_admin_file, <- load_admins_result.
      rewrite Hroster, Hadmin. repeat split.
    + destruct (str_in (utf8 "🤖") (message_text update)
                || str_in (utf8 "AI") (upper (message_text update))).
      * destruct (ai_greeting_effect (after (is_admin (id (effective_user update))) e1))
          as [-> [-> ->]].
        rewrite is_admin_file, is_admin_application. repeat split.
      * destruct (guided_greeting_effect (after (is_admin (id (effective_user update))) e1))
          as [-> [-> ->]].
        rewrite is_admin_file, is_admin_application. repeat split.
  - rewrite result_ret, after_ret. cbn [andb].
    destruct (str_in (utf8 "🤖") (message_text update)
              || str_in (utf8 "AI") (upper (message_text update))); repeat split.
Qed.

(** A caller who is not on the roster and sends the text of the
    administrators' button is taken to the guided form. *)
Example gear_of_a_stranger_starts_the_form :
  result (choose_mode (py := Concrete.Basic)
            (Concrete.says 5 "⚙️ Управление администраторами"))
    (Concrete.session (Lines [42%Z]) (Concrete.fresh Concrete.noon))
  = LOCATION.
Proof. vm_compute. reflexivity. Qed.

(** X11. [start] begins anew whatever the session held: the report has the
    time of the clock and no field set, the history is empty, the state is
    [CHOOSING_MODE], the roster file is as before, and the keyboard sent has
    the administrators' row exactly for a caller who is on the roster. *)
Theorem start_discards_the_session :
  forall (world : Services) (update : Update) (env : Env),
    let env' := after (start update) env in
    result (start update) env = CHOOSING_MODE
    /\ application env'
       = {| timestamp := now (clock_reads env); location := None; participants := None;
            damage := None; injuries := None; photos_count := 0; contact := None |}
    /\ ai_history env' = []
    /\ admins_txt env' = admins_txt env
    /\ exists greeting,
        replies env' = replies env ++ [greeting]
        /\ reply_markup greeting
           = ReplyKeyboardMarkup
               ([[utf8 "🤖 Общаться с AI-помощником"]; [utf8 "📋 Заполнить по шагам"]]
                ++ (if int_in_list (id (effective_user update)) (result load_admins env)
                    then [[utf8 "⚙️ Управление администраторами"]] else [])).
Proof.
  intros world update env env'. subst env'. unfold start. cbv zeta.
  rewrite !result_bind, !after_bind. cbv beta. rewrite result_ret, after_ret.
  set (e1 := after (logger INFO _) env).
  rewrite is_admin_result.
  assert (Hroster : result load_admins e1 = result load_admins env)
    by (rewrite !load_admins_result; reflexivity).
  rewrite Hroster.
  assert (Hclock : clock_reads (after (is_admin (id (effective_user update))) e1)
                   = clock_reads env).
  { unfold is_admin. rewrite after_bind. cbv beta. rewrite after_ret. loaded. reflexivity. }
  assert (Hreplies : replies (after (is_admin (id (effective_user update))) e1)
                     = replies env).
  { unfold is_admin. rewrite after_bind. cbv beta. rewrite after_ret. loaded. reflexivity. }
  pose proof (is_admin_file (id (effective_user update)) e1) as Hfile.
  change (admins_txt e1) with (admins_txt env) in Hfile.
  remember (after (is_admin (id (effective_user update))) e1) as e2 eqn:He2.
  clear He2 Hroster. clearbody e1.
  cbn [after result datetime_now put_application put_ai_history reply_text modify
       fst snd application ai_history admins_txt replies clock_reads].
  rewrite Hclock, Hreplies, Hfile.
  repeat split. eexists. split; [reflexivity|].
  cbn [reply_markup].
  destruct (int_in_list (id (effective_user update)) (result load_admins env)); reflexivity.
Qed.

(** ** The phone patterns *)

Section Patterns.
Context {py : PyBuiltins}.

Lemma match_times_split (k : Re.char_class) (n : nat) :
  forall s m r, Re.match_times k n s = Some (m, r) -> s = m ++ r /\ List.length m = n.
Proof.
  induction n as [|n IH]; intros s m r H; simpl in H.
  - injection H as <- <-. split; reflexivity.
  - destruct s as [|c s]; [discriminate|].
    destruct (Re.in_class k c); [|discriminate].
    destruct (Re.match_times k n s) as [[m' r']|] eqn:Hm; [|discriminate].
    injection H as <- <-. destruct (IH _ _ _ Hm) as [-> <-]. split; reflexivity.
Qed.

(** A match at the start of a text is a prefix of it, of a length the
    pattern allows. *)
Lemma match_here_prefix (p : Re.regex) :
  forall s m, Re.match_here p s = Some m ->
    (exists r, s = m ++ r) /\ (shortest p <= List.length m <= longest p)%nat.
Proof.
  induction p as [|i p IH]; intros s m H.
  - simpl in H. injection H as <-. split; [now exists s | unfold shortest, longest; simpl; lia].
  - destruct i as [k|k|n k]; cbn [Re.match_here] in H.
    + destruct s as [|c s]; [discriminate|].
      destruct (Re.in_class k c); [|discriminate].
      destruct (Re.match_here p s) as [m'|] eqn:Hm; [|discriminate].
      injection H as <-. destruct (IH _ _ Hm) as [[r ->] Hlen].
      split; [now exists r|]. unfold shortest, longest in *. simpl in *. lia.
    + assert (Hskip : Re.match_here p s = Some m ->
                      (exists r, s = m ++ r)
                      /\ (shortest (Re.Optional k :: p) <= List.length m
                          <= longest (Re.Optional k :: p))%nat).
      { intros Hm. destruct (IH _ _ Hm) as [Hr Hlen]. split; [exact Hr|].
        unfold shortest, longest in *. simpl in *. lia. }
      destruct s as [|c s]; [now apply Hskip|].
      destruct (Re.in_class k c); [|now apply Hskip].
      destruct (Re.match_here p s) as [m'|] eqn:Hm; [|now apply Hskip].
      injection H as <-. destruct (IH _ _ Hm) as [[r ->] Hlen].
      split; [now exists r|]. unfold shortest, longest in *. simpl in *. lia.
    + destruct (Re.match_times k n s) as [[m1 r1]|] eqn:Ht; [|discriminate].
      destruct (Re.match_here p r1) as [m'|] eqn:Hm; [|discriminate].
      injection H as <-. destruct (match_times_split _ _ _ Ht) as [-> Hn].
      destruct (IH _ _ Hm) as [[r ->] Hlen].
      split; [exists r; now rewrite app_assoc|].
      unfold shortest, longest in *. simpl in *. rewrite length_app. lia.
Qed.

(** What [search] finds is a part of the text. *)
Lemma search_part (p : Re.regex) :
  forall s m, Re.search p s = Some m ->
    (exists before behind, s = before ++ m ++ behind)
    /\ (shortest p <= List.length m <= longest p)%nat.
Proof.
  induction s as [|c s IH]; intros m H; simpl in H.
  - destruct (Re.match_here p []) as [m'|] eqn:Hm; [|discriminate].
    injection H as <-. destruct (match_here_prefix _ _ Hm) as [[r Hr] Hlen].
    split; [now exists [], r | exact Hlen].
  - destruct (Re.match_here p (c :: s)) as [m'|] eqn:Hm.
    + injection H as <-. destruct (match_here_prefix _ _ Hm) as [[r Hr] Hlen].
      split; [now exists [], r | exact Hlen].
    + destruct (IH _ H) as [[before [behind ->]] Hlen].
      split; [now exists (c :: before), behind | exact Hlen].
Qed.

Lemma first_found_part (ps : list Re.regex) :
  forall s m, Re.first_found ps s = Some m ->
    exists p, In p ps
      /\ (exists before behind, s = before ++ m ++ behind)
      /\ (shortest p <= List.length m <= longest p)%nat.
Proof.
  induction ps as [|p ps IH]; intros s m H; simpl in H; [discriminate|].
  destruct (Re.search p s) as [m'|] eqn:Hs.
  - injection H as <-. exists p. split; [now left | now apply search_part].
  - destruct (IH _ _ H) as [q [Hq Hrest]]. exists q. split; [now right | exact Hrest].
Qed.

(** What a block reports, it has stored. *)
Lemma reported_stored (key : str) (get : Application -> option str) (found : option str)
    (a : Application) (k : str) :
  In k (reported key get found a) ->
  k = key /\ truthy (get a) = false /\ exists v, found = Some v /\ stored get found a = Some v.
Proof.
  unfold reported, stored. destruct (truthy (get a)); cbn [negb]; [contradiction|].
  destruct found as [v|]; [|contradiction].
  intros [<- | []]. repeat split. now exists v.
Qed.

Lemma updated_cases (message : str) (a : Application) (k : str) :
  In k (fst (extract_info_from_message message a)) ->
  In k (reported (utf8 "location") location (found_location message) a)
  \/ In k (reported (utf8 "participants") participants (found_participants message) a)
  \/ In k (reported (utf8 "damage") damage (found_damage message) a)
  \/ In k (reported (utf8 "injuries") injuries (found_injuries message) a)
  \/ In k (reported (utf8 "contact") contact (found_contact message) a).
Proof. rewrite updated_extracted, !in_app_iff. exact (fun H => H). Qed.

End Patterns.

(** X12. When the extractor reports the contact as updated, the contact it
    has stored is a part of the message as written, between 11 and 16
    characters long. *)
Theorem extracted_contact_is_part_of_the_message :
  forall (py : PyBuiltins) (message : str) (application : Application),
    In (utf8 "contact") (fst (extract_info_from_message message application)) ->
    exists group before behind,
      contact (snd (extract_info_from_message message application)) = Some group
      /\ message = before ++ group ++ behind
      /\ (11 <= List.length group <= 16)%nat.
Proof.
  intros py message a Hin.
  apply updated_cases in Hin.
  destruct Hin as [H | [H | [H | [H | H]]]];
    apply reported_stored in H; destruct H as [Hkey [Ht [v [Hfound Hstored]]]];
    try (exfalso; vm_compute in Hkey; discriminate Hkey).
  exists v. unfold found_contact in Hfound.
  destruct (first_found_part _ _ Hfound) as [p [Hp [[before [behind Hsplit]] Hlen]]].
  exists before, behind. rewrite contact_extracted. repeat split; try assumption.
  - destruct Hp as [<- | [<- | [<- | []]]];
      unfold shortest, longest, phone_tail in Hlen; simpl in Hlen; lia.
  - destruct Hp as [<- | [<- | [<- | []]]];
      unfold shortest, longest, phone_tail in Hlen; simpl in Hlen; lia.
Qed.

Lemma extracted_contact_is_part_of_the_message_witness :
  exists group before behind,
    contact (snd (extract_info_from_message (py := Concrete.Basic) Concrete.accident_message
                    (Concrete.fresh Concrete.noon))) = Some group
    /\ Concrete.accident_message = before ++ group ++ behind
    /\ (11 <= List.length group <= 16)%nat.
Proof.
  assert (Hin : In (utf8 "contact")
                  (fst (extract_info_from_message (py := Concrete.Basic)
                          Concrete.accident_message (Concrete.fresh Concrete.noon)))).
  { vm_compute. do 2 right. now left. }
  exact (@extracted_contact_is_part_of_the_message Concrete.Basic Concrete.accident_message
           (Concrete.fresh Concrete.noon) Hin).
Defined.

(** X13. Every key the extractor reports as updated names a field that was
    not filled before the call and holds a value after it: the whole message
    for the location and the damage, one of the two literals for the
    participants and for the injuries, and for the contact the text that the
    first of the three phone patterns to match has matched in the message. *)
Theorem updated_names_fields_filled_by_the_call :
  forall (py : PyBuiltins) (message : str) (application : Application) (key : str),
    In key (fst (extract_info_from_message message application)) ->
    let application' := snd (extract_info_from_message message application) in
    (key = utf8 "location" /\ truthy (location application) = false
     /\ location application' = Some message)
    \/ (key = utf8 "participants" /\ truthy (participants application) = false
        /\ (participants application' = Some (utf8 "2 автомобиля")
            \/ participants application' = Some (utf8 "3 автомобиля")))
    \/ (key = utf8 "damage" /\ truthy (damage application) = false
        /\ damage application' = Some message)
    \/ (key = utf8 "injuries" /\ truthy (injuries application) = false
        /\ (injuries application' = Some (utf8 "Нет пострадавших")
            \/ injuries application' = Some (utf8 "Есть пострадавшие")))
    \/ (key = utf8 "contact" /\ truthy (contact application) = false
        /\ exists group,
            Re.first_found phone_patterns message = Some group
            /\ contact application' = Some group).
Proof.
  intros py message a key Hin a'. subst a'.
  apply updated_cases in Hin.
  destruct Hin as [H | [H | [H | [H | H]]]];
    apply reported_stored in H; destruct H as [Hkey [Ht [v [Hfound Hstored]]]].
  - left. rewrite location_extracted, Hstored. repeat split; try assumption.
    unfold found_location in Hfound.
    destruct (existsb _ _); [|discriminate]. now injection Hfound as <-.
  - right. left. rewrite participants_extracted, Hstored. repeat split; try assumption.
    unfold found_participants in Hfound.
    destruct (_ || _); [injection Hfound as <-; now left|].
    destruct (_ || _); [injection Hfound as <-; now right | discriminate].
  - do 2 right. left. rewrite damage_extracted, Hstored. repeat split; try assumption.
    unfold found_damage in Hfound.
    destruct (existsb _ _); [|discriminate]. now injection Hfound as <-.
  - do 3 right. left. rewrite injuries_extracted, Hstored. repeat split; try assumption.
    unfold found_injuries in Hfound.
    destruct (_ || _); [injection Hfound as <-; now left|].
    destruct (_ || _); [injection Hfound as <-; now right | discriminate].
  - do 4 right. rewrite contact_extracted, Hstored. repeat split; try assumption.
    exists v. split; [exact Hfound | reflexivity].
Qed.

Lemma updated_names_fields_filled_by_the_call_witness :
  In (utf8 "injuries")
    (fst (extract_info_from_message (py := Concrete.Basic) Concrete.accident_message
            (Concrete.fresh Concrete.noon)))
  /\ injuries (snd (extract_info_from_message (py := Concrete.Basic)
                      Concrete.accident_message (Concrete.fresh Concrete.noon)))
     = Some (utf8 "Нет пострадавших").
Proof.
  assert (Hin : In (utf8 "injuries")
                  (fst (extract_info_from_message (py := Concrete.Basic)
                          Concrete.accident_message (Concrete.fresh Concrete.noon)))).
  { vm_compute. right. now left. }
  split; [exact Hin|].
  pose proof (@updated_names_fields_filled_by_the_call Concrete.Basic
                Concrete.accident_message (Concrete.fresh Concrete.noon)
                (utf8 "injuries") Hin) as H.
  cbv zeta in H.
  destruct H as [[K _] | [[K _] | [[K _] | [[_ [_ [K | K]]] | [K _]]]]];
    try (exfalso; vm_compute in K; discriminate K).
  exact K.
Defined.

(** X14. The phrases for no injuries are tried first: a message whose
    lower-case form has one of them gets the no-injuries literal when the
    field is not filled, although the word for injured, which the second
    test looks for, is a part of one of the phrases. *)
Theorem no_injuries_phrase_wins :
  forall (py : PyBuiltins) (message : str) (application : Application),
    str_in (utf8 "нет пострадавших") (lower message) = true
    \/ str_in (utf8 "никто не пострадал") (lower message) = true ->
    truthy (injuries application) = false ->
    injuries (snd (extract_info_from_message message application))
    = Some (utf8 "Нет пострадавших")
    /\ In (utf8 "injuries") (fst (extract_info_from_message message application)).
Proof.
  intros py message a Hphrase Ht.
  assert (Hfound : found_injuries message = Some (utf8 "Нет пострадавших")).
  { unfold found_injuries.
    replace (str_in (utf8 "нет пострадавших") (lower message)
             || str_in (utf8 "никто не пострадал") (lower message)) with true;
      [reflexivity|].
    symmetry. apply orb_true_iff. exact Hphrase. }
  split.
  - rewrite injuries_extracted. unfold stored. now rewrite Ht, Hfound.
  - rewrite updated_extracted, !in_app_iff. do 3 right. left.
    unfold reported. rewrite Ht, Hfound. now left.
Qed.

Lemma no_injuries_phrase_wins_witness :
  str_in (utf8 "пострадал") (lower (PyBuiltins := Concrete.Basic) Concrete.accident_message)
  = true
  /\ injuries (snd (extract_info_from_message (py := Concrete.Basic)
                      Concrete.accident_message (Concrete.fresh Concrete.noon)))
     = Some (utf8 "Нет пострадавших").
Proof.
  split; [reflexivity|].
  exact (proj1 (@no_injuries_phrase_wins Concrete.Basic Concrete.accident_message
                  (Concrete.fresh Concrete.noon) (or_intror eq_refl) eq_refl)).
Defined.

(** ** A turn of the assisted interview *)

Lemma last_n_snoc {A} (n : nat) (l : list A) (x : A) :
  last_n (S n) (l ++ [x]) = last_n n l ++ [x].
Proof.
  unfold last_n. rewrite length_app. cbn [List.length].
  replace (List.length l + 1 - S n)%nat with (List.length l - n)%nat by lia.
  rewrite skipn_app.
  replace (List.length l - n - List.length l)%nat with 0%nat by lia.
  reflexivity.
Qed.

Lemma result_gets {A} (f : Env -> A) (e : Env) : result (gets f) e = f e.
Proof. reflexivity. Qed.

Lemma after_gets {A} (f : Env -> A) (e : Env) : after (gets f) e = e.
Proof. reflexivity. Qed.

Section Interview.
Context {py : PyBuiltins} {world : Services}.

(** [get_ai_response] touches the log and the list of requests only. *)
Lemma get_ai_response_frame (user_message : str) (history : list chat_message)
    (app : Application) (e : Env) :
  let e' := after (get_ai_response user_message history app) e in
  application e' = application e
  /\ ai_history e' = ai_history e
  /\ replies e' = replies e
  /\ admins_txt e' = admins_txt e
  /\ deliveries e' = deliveries e.
Proof.
  unfold get_ai_response. destruct openai_client; cbn [negb].
  - cbv zeta. rewrite after_bind. cbv beta.
    unfold create_completion at 1 3 5 7 9. unfold result. cbn [fst].
    destruct (chat_completions_create _ _); repeat split.
  - repeat split.
Qed.

(** A message that is no finishing word: the run of [ai_chat], step by step. *)
Lemma ai_chat_turn (update : Update) (env : Env) :
  str_in_list (lower (message_text update)) finish_words = false ->
  let user_message := message_text update in
  let extracted := extract_info_from_message user_message (application env) in
  let history := ai_history env ++ [{| role := utf8 "user"; content := user_message |}] in
  let asked :=
    after (put_ai_history history)
      (after (put_application (snd extracted))
         (after (logger INFO (utf8 "💬 AI-чат: " ++ user_message)) env)) in
  let answer := result (get_ai_response user_message history (snd extracted)) asked in
  let answered := after (get_ai_response user_message history (snd extracted)) asked in
  ai_chat update env
  = (AI_CHAT,
     after (reply_text
              ((if nonempty (fst extracted) then
                  utf8 "✅ Сохранено: " ++ join (utf8 ", ") (fst extracted) ++ utf8 "

" ++ answer
                else answer) ++ utf8 "

💡 Когда закончите, напишите /finish") NoMarkup None)
       (after (put_ai_history
                 (history ++ [{| role := utf8 "assistant"; content := answer |}]))
          answered)).
Proof.
  intros Hword. cbv zeta. unfold ai_chat. cbv zeta.
  rewrite bind_run. cbv beta. rewrite Hword.
  rewrite bind_run. cbv beta. rewrite result_gets, after_gets.
  change (application (after (logger INFO (utf8 "💬 AI-чат: " ++ message_text update)) env))
    with (application env).
  destruct (extract_info_from_message (message_text update) (application env))
    as [updated app].
  cbn [fst snd].
  repeat (rewrite bind_run; cbv beta).
  rewrite !result_gets, !after_gets.
  match goal with |- context [ai_history (after (get_ai_response ?m ?h ?a) ?e)] =>
    destruct (get_ai_response_frame m h a e) as [_ [Hhist _]]; rewrite Hhist; clear Hhist
  end.
  reflexivity.
Qed.

End Interview.



(** That turn: the damage is saved, and the reply starts with its key. *)
Example damage_is_saved_and_named :
  let env' := after (ai_chat (py := Concrete.Basic) (world := Concrete.Scripted)
                       (Concrete.says 5 "разбита фара"))
                (Concrete.session Absent (Concrete.fresh Concrete.noon)) in
  damage (application env') = Some (utf8 "разбита фара")
  /\ map text (replies env')
     = [utf8 "✅ Сохранено: damage

Где произошло ДТП?

💡 Когда закончите, напишите /finish"]
  /\ map content (ai_history env') = [utf8 "разбита фара"; utf8 "Где произошло ДТП?"].
Proof. vm_compute. repeat split; reflexivity. Qed.

(** X16. [ai_chat] appends the message to the history before it asks the
    backend, and [get_ai_response] appends it again after the slice of the
    history: the request of a turn ends with the message of the user twice,
    and before these it carries the most recent nine turns of the history
    as it was before the message (all of them when there are nine or fewer),
    after the system prompt made from the report as the extractor left it. *)
Theorem assisted_request_ends_with_the_message_twice :
  forall (py : PyBuiltins) (world : Services) (update : Update) (env : Env),
    str_in_list (lower (message_text update)) finish_words = false ->
    openai_client = true ->
    let app' := snd (extract_info_from_message (message_text update) (application env)) in
    let said := {| role := utf8 "user"; content := message_text update |} in
    exists older recent,
      ai_history env = older ++ recent
      /\ List.length recent = Nat.min 9 (List.length (ai_history env))
      /\ requests (after (ai_chat update) env)
         = requests env
           ++ [{| role := utf8 "system"; content := system_prompt app' |}
               :: recent ++ [said; said]].
Proof.
  intros py world update env Hword Hclient app' said.
  destruct (last_n_suffix 9 (ai_history env)) as [older [Hsplit Hlen]].
  exists older, (last_n 9 (ai_history env)). split; [exact Hsplit|]. split; [exact Hlen|].
  pose proof (ai_chat_turn update env Hword) as Hturn. cbv zeta in Hturn.
  fold app' said in Hturn.
  set (history := ai_history env ++ [said]) in *.
  set (asked := after (put_ai_history history) _) in *.
  pose proof (get_ai_response_request (message_text update) history app' asked Hclient)
    as Hreq.
  set (answer := result (get_ai_response (message_text update) history app') asked) in *.
  set (answered := after (get_ai_response (message_text update) history app') asked) in *.
  unfold after at 1. rewrite Hturn.
  cbn [snd after reply_text put_ai_history modify requests].
  rewrite Hreq. unfold history. rewrite last_n_snoc, <- app_assoc. reflexivity.
Qed.

Lemma assisted_request_ends_with_the_message_twice_witness :
  exists older recent,
    ai_history (Concrete.session Absent (Concrete.fresh Concrete.noon)) = older ++ recent
    /\ List.length recent
       = Nat.min 9 (List.length (ai_history (Concrete.session Absent
                                               (Concrete.fresh Concrete.noon))))
    /\ requests (after (ai_chat (py := Concrete.Basic) (world := Concrete.Scripted)
                          (Concrete.says 5 "разбита фара"))
                   (Concrete.session Absent (Concrete.fresh Concrete.noon)))
       = requests (Concrete.session Absent (Concrete.fresh Concrete.noon))
         ++ [{| role := utf8 "system";
                content := system_prompt
                             (snd (extract_info_from_message (py := Concrete.Basic)
                                     (message_text (Concrete.says 5 "разбита фара"))
                                     (application (Concrete.session Absent
                                                     (Concrete.fresh Concrete.noon))))) |}
             :: recent
                ++ [{| role := utf8 "user";
                       content := message_text (Concrete.says 5 "разбита фара") |};
                    {| role := utf8 "user";
                       content := message_text (Concrete.says 5 "разбита фара") |}]].
Proof.
  exact (@assisted_request_ends_with_the_message_twice Concrete.Basic Concrete.Scripted
           (Concrete.says 5 "разбита фара")
           (Concrete.session Absent (Concrete.fresh Concrete.noon)) eq_refl eq_refl).
Defined.

(** X17. Without a client of the backend the turn makes no request and the
    answer, in the history and in the reply, is the fixed text that sends the
    user to the buttons; the conversation stays in [AI_CHAT]. *)
Theorem assisted_turn_without_client :
  forall (py : PyBuiltins) (world : Services) (update : Update) (env : Env),
    str_in_list (lower (message_text update)) finish_words = false ->
    openai_client = false ->
    let env' := after (ai_chat update) env in
    result (ai_chat update) env = AI_CHAT
    /\ requests env' = requests env
    /\ ai_history env'
       = ai_history env
         ++ [{| role := utf8 "user"; content := message_text update |};
             {| role := utf8 "assistant";
                content := utf8 "Извините, AI-помощник временно недоступен. Пожалуйста, используйте режим с кнопками или попробуйте позже." |}].
Proof.
  intros py world update env Hword Hclient env'. subst env'.
  pose proof (ai_chat_turn update env Hword) as Hturn. cbv zeta in Hturn.
  set (history := ai_history env
                  ++ [{| role := utf8 "user"; content := message_text update |}]) in *.
  set (asked := after (put_ai_history history) _) in *.
  pose proof (get_ai_response_offline (message_text update) history
                (snd (extract_info_from_message (message_text update) (application env)))
                asked Hclient) as Hoff.
  assert (Hres : result (get_ai_response (message_text update) history
                           (snd (extract_info_from_message (message_text update)
                                   (application env)))) asked
                 = utf8 "Извините, AI-помощник временно недоступен. Пожалуйста, используйте режим с кнопками или попробуйте позже.")
    by (unfold result; now rewrite Hoff).
  assert (Haft : after (get_ai_response (message_text update) history
                          (snd (extract_info_from_message (message_text update)
                                  (application env)))) asked
                 = asked)
    by (unfold after; now rewrite Hoff).
  rewrite Hres, Haft in Hturn. clear Hoff Hres Haft.
  unfold result, after at 1 2. rewrite Hturn.
  cbn [fst snd after result reply_text put_ai_history modify requests ai_history].
  repeat split. unfold history. now rewrite <- app_assoc.
Qed.

Lemma assisted_turn_without_client_witness :
  openai_client (Services := Concrete.Offline) = false
  /\ result (ai_chat (py := Concrete.Basic) (world := Concrete.Offline)
               (Concrete.says 5 "разбита фара"))
       (Concrete.session Absent (Concrete.fresh Concrete.noon)) = AI_CHAT.
Proof.
  split; [reflexivity|].
  pose proof (@assisted_turn_without_client Concrete.Basic Concrete.Offline
                (Concrete.says 5 "разбита фара")
                (Concrete.session Absent (Concrete.fresh Concrete.noon))
                eq_refl eq_refl) as H.
  cbv zeta in H. exact (proj1 H).
Defined.

(** ** Confirmation *)



Section Sending.
Context {world : Services}.

Lemma deliveries_format_application (app : Application) (user_info : option User)
    (e : Env) :
  deliveries (after (format_application app user_info) e) = deliveries e.
Proof. reflexivity. Qed.

Lemma admins_txt_format_application (app : Application) (user_info : option User)
    (e : Env) :
  admins_txt (after (format_application app user_info) e) = admins_txt e.
Proof. reflexivity. Qed.

End Sending.

Section Sent.
Context {world : Services}.

(** The deliveries of a confirmed report. *)
Lemma confirm_application_sends (update : Update) (env : Env) :
  str_in (utf8 "✅") (message_text update) = true ->
  result load_admins env <> [] ->
  let formatted :=
    result (format_application (application env) (Some (effective_user update))) env in
  let env' := after (confirm_application update) env in
  exists attempts,
    deliveries env' = deliveries env ++ attempts
    /\ map chat_id attempts = result load_admins env
    /\ Forall (fun d => body d = formatted) attempts.
Proof.
  intros Hyes Hne formatted env'. subst env'.
  unfold confirm_application. cbv zeta. rewrite Hyes.
  repeat (rewrite after_bind; cbv beta). rewrite after_ret, result_gets, after_gets.
  rewrite deliveries_reply_text, !deliveries_logger.
  fold formatted.
  set (e1 := after (format_application (application env) (Some (effective_user update)))
               env).
  assert (Hroster : result load_admins e1 = result load_admins env).
  { rewrite !load_admins_result. unfold e1.
    now rewrite admins_txt_format_application. }
  assert (Hne1 : result load_admins e1 <> []) by now rewrite Hroster.
  destruct (@send_to_admins_nonempty world formatted e1 Hne1)
    as [attempts [earlier [Hd [Hids [Hbody _]]]]].
  exists attempts. rewrite Hd. unfold e1 at 1.
  rewrite deliveries_format_application, <- Hroster.
  repeat split; assumption.
Qed.

End Sent.



(** ** How an unset field is shown *)

Lemma starts_with_app (p s : str) : starts_with p (p ++ s) = true.
Proof. induction p as [|c p IH]; simpl; [reflexivity|]. now rewrite N.eqb_refl. Qed.

Lemma str_in_app_r (p a b : str) : str_in p b = true -> str_in p (a ++ b) = true.
Proof.
  intros H. induction a as [|c a IH]; [exact H|].
  cbn [List.app]. unfold str_in; fold str_in. rewrite IH. apply orb_true_r.
Qed.

Lemma starts_with_app_l (p a b : str) :
  starts_with p a = true -> starts_with p (a ++ b) = true.
Proof.
  revert a. induction p as [|c p IH]; intros a H; [reflexivity|].
  destruct a as [|d a]; [discriminate|]. simpl in *.
  apply andb_true_iff in H. destruct H as [-> H]. now apply IH.
Qed.

Lemma str_in_app_l (p a b : str) : str_in p a = true -> str_in p (a ++ b) = true.
Proof.
  induction a as [|c a IH]; intros H.
  - destruct p; [destruct b; reflexivity | discriminate H].
  - assert (Hcases : starts_with p (c :: a) = true \/ str_in p a = true).
    { unfold str_in in H; fold str_in in H. now apply orb_true_iff in H. }
    change ((c :: a) ++ b) with (c :: (a ++ b)).
    unfold str_in; fold str_in. apply orb_true_iff.
    destruct Hcases as [Hc | Hc].
    + left. exact (starts_with_app_l p (c :: a) b Hc).
    + right. exact (IH Hc).
Qed.

(** A text made of three literal pieces in a row contains the part. *)
Ltac find_part :=
  match goal with
  | |- str_in _ (?x1 ++ ?x2 ++ ?x3 ++ ?r) = true =>
      first [ solve [ rewrite (app_assoc x2 x3 r), (app_assoc x1 (x2 ++ x3) r);
                      apply str_in_app_l; vm_compute; reflexivity ]
            | apply str_in_app_r; find_part ]
  end.

(** X20. The summary shown for review, in the guided form and in the
    assisted interview alike, prints a field that was never set as the word
    None: the dict of the session has the key, with the value [None], so the
    default that [get] is given is not used. *)
Theorem unset_field_is_shown_as_None :
  forall (app : Application),
    (participants app = None ->
     str_in (utf8 "👥 Участники:
None
") (summary app) = true)
    /\ (damage app = None ->
        str_in (utf8 "🚗 Повреждения:
None
") (summary app) = true)
    /\ (injuries app = None ->
        str_in (utf8 "🚑 Пострадавшие:
None
") (summary app) = true).
Proof.
  intros app. repeat split; intros H; unfold summary; rewrite H; cbn [render]; find_part.
Qed.

(** X21. The report sent to the administrators prints what is missing in
    the same way: a caller without a user name appears as [@None], and a
    field of the report that was never set appears as the word None. *)
Theorem report_to_admins_shows_None :
  forall (world : Services) (app : Application) (user : User) (env : Env),
    let formatted := result (format_application app (Some user)) env in
    (username user = None ->
     str_in (utf8 "Username: @None
") formatted = true)
    /\ (participants app = None ->
        str_in (utf8 "👥 *Участники:*
None
") formatted = true)
    /\ (damage app = None ->
        str_in (utf8 "🚗 *Повреждения:*
None
") formatted = true)
    /\ (injuries app = None ->
        str_in (utf8 "🚑 *Пострадавшие:*
None
") formatted = true).
Proof.
  intros world app user env formatted. subst formatted.
  unfold format_application, result, bind, datetime_now, ret. cbn [fst].
  repeat split; intros H; rewrite H; cbn [render]; rewrite <- !app_assoc; find_part.
Qed.

(** ** The choices of the administrator menu *)

Section MenuChoice.
Context {world : Services}.

Lemma start_result (update : Update) (e : Env) : result (start update) e = CHOOSING_MODE.
Proof.
  unfold start. cbv zeta. repeat (rewrite result_bind; cbv beta). reflexivity.
Qed.

End MenuChoice.

(** X22. [admin_menu_handler] goes by the first mark it finds in the text,
    in the order plus, minus, list: the plus leads to [ADMIN_ADD] without
    the roster being loaded; the minus leads to [ADMIN_REMOVE], or ends the
    conversation when the roster is empty; the list returns through
    [admin_menu], which shows the menu to a caller on the roster and ends
    the conversation for any other; a text with none of the marks starts
    over in [CHOOSING_MODE]. *)
Theorem admin_menu_handler_goes_by_the_first_mark :
  forall (world : Services) (update : Update) (env : Env),
    let choice := message_text update in
    result (admin_menu_handler update) env
    = (if str_in (utf8 "➕") choice then ADMIN_ADD
       else if str_in (utf8 "➖") choice then
              if nonempty (result load_admins env) then ADMIN_REMOVE else END
       else if str_in (utf8 "📋") choice then
              if int_in_list (id (effective_user update)) (result load_admins env)
              then ADMIN_MENU else END
       else CHOOSING_MODE)
    /\ (str_in (utf8 "➕") choice = true ->
        log (after (admin_menu_handler update) env) = log env).
Proof.
  intros world update env choice. subst choice. unfold admin_menu_handler. cbv zeta.
  destruct (str_in (utf8 "➕") (message_text update)).
  - split; reflexivity.
  - split; [|discriminate].
    destruct (str_in (utf8 "➖") (message_text update)).
    + rewrite result_bind. cbv beta.
      destruct (nonempty (result load_admins env)); reflexivity.
    + destruct (str_in (utf8 "📋") (message_text update)).
      * rewrite 2 result_bind. cbv beta. rewrite admin_menu_result.
        rewrite (load_admins_result (after _ _)).
        change (admins_txt (after (reply_text _ _ _) (after load_admins env)))
          with (admins_txt (after load_admins env)).
        now rewrite load_admins_file, <- load_admins_result.
      * apply start_result.
Qed.

(** ** From the guided form to the administrators *)

Lemma part_between (pre p t q post rest : str) :
  str_in (p ++ t ++ q) ((pre ++ p) ++ t ++ (q ++ post) ++ rest) = true.
Proof.
  rewrite <- !app_assoc. apply str_in_app_r.
  replace (p ++ t ++ q ++ post ++ rest) with ((p ++ t ++ q) ++ post ++ rest)
    by (now rewrite <- !app_assoc).
  unfold str_in. destruct (p ++ t ++ q) eqn:E.
  - destruct (post ++ rest); reflexivity.
  - rewrite <- E. destruct ((p ++ t ++ q) ++ post ++ rest) eqn:E2.
    + rewrite E in E2. discriminate E2.
    + rewrite <- E2. now rewrite starts_with_app.
Qed.

Section GuidedReport.
Context {world : Services}.

(** The formatted report has every field that is set in its place, as it
    was typed. *)
Lemma formatted_shows_fields (app : Application) (user_info : option User) (e : Env)
    (l p d i c : str) :
  location app = Some l -> participants app = Some p -> damage app = Some d ->
  injuries app = Some i -> contact app = Some c ->
  let formatted := result (format_application app user_info) e in
  str_in (utf8 "📍 *Место ДТП:*
" ++ l ++ utf8 "
") formatted = true
  /\ str_in (utf8 "👥 *Участники:*
" ++ p ++ utf8 "
") formatted = true
  /\ str_in (utf8 "🚗 *Повреждения:*
" ++ d ++ utf8 "
") formatted = true
  /\ str_in (utf8 "🚑 *Пострадавшие:*
" ++ i ++ utf8 "
") formatted = true
  /\ str_in (utf8 "📞 *Контакт:*
" ++ c ++ utf8 "
") formatted = true.
Proof.
  intros Hl Hp Hd Hi Hc formatted. subst formatted.
  unfold format_application, result, bind, datetime_now, ret. cbn [fst].
  rewrite Hl, Hp, Hd, Hi, Hc. cbn [render].
  generalize (strftime_seconds (timestamp app)) as created.
  generalize (strftime_seconds (now (clock_reads e))) as received.
  generalize (match user_info with
              | Some user => utf8 "
👤 *ИНФОРМАЦИЯ О ПОЛЬЗОВАТЕЛЕ:*
Имя: " ++ first_name user ++ utf8 "
Username: @" ++ render (username user) ++ utf8 "
Telegram ID: `" ++ str_of_int (id user) ++ utf8 "`

"
              | None => []
              end) as user_section.
  intros user_section received created.
  repeat split.
  - do 4 apply str_in_app_r.
    replace (utf8 "

📍 *Место ДТП:*
") with (utf8 "

" ++ utf8 "📍 *Место ДТП:*
") by (vm_compute; reflexivity).
    replace (utf8 "

👥 *Участники:*
") with (utf8 "
" ++ utf8 "
👥 *Участники:*
") by (vm_compute; reflexivity).
    apply part_between.
  - do 6 apply str_in_app_r.
    replace (utf8 "

👥 *Участники:*
") with (utf8 "

" ++ utf8 "👥 *Участники:*
") by (vm_compute; reflexivity).
    replace (utf8 "

🚗 *Повреждения:*
") with (utf8 "
" ++ utf8 "
🚗 *Повреждения:*
") by (vm_compute; reflexivity).
    apply part_between.
  - do 8 apply str_in_app_r.
    replace (utf8 "

🚗 *Повреждения:*
") with (utf8 "

" ++ utf8 "🚗 *Повреждения:*
") by (vm_compute; reflexivity).
    replace (utf8 "

🚑 *Пострадавшие:*
") with (utf8 "
" ++ utf8 "
🚑 *Пострадавшие:*
") by (vm_compute; reflexivity).
    apply part_between.
  - do 10 apply str_in_app_r.
    replace (utf8 "

🚑 *Пострадавшие:*
") with (utf8 "

" ++ utf8 "🚑 *Пострадавшие:*
") by (vm_compute; reflexivity).
    replace (utf8 "

📞 *Контакт:*
") with (utf8 "
" ++ utf8 "
📞 *Контакт:*
") by (vm_compute; reflexivity).
    apply part_between.
  - do 12 apply str_in_app_r.
    replace (utf8 "

📞 *Контакт:*
") with (utf8 "

" ++ utf8 "📞 *Контакт:*
") by (vm_compute; reflexivity).
    replace (utf8 "

━━━━━━━━━━━━━━━━━━━━━
⏰ Время получения: ") with (utf8 "
" ++ utf8 "
━━━━━━━━━━━━━━━━━━━━━
⏰ Время получения: ") by (vm_compute; reflexivity).
    apply part_between.
Qed.

End GuidedReport.

Section GuidedRun.
Context {py : PyBuiltins} {world : Services}.

(** The steps of the form send nothing to the administrators and leave the
    roster file alone. *)
Lemma guided_step_frame (handler : Update -> M State) (u : Update) (e : Env) :
  In handler [get_location; get_participants; get_damage; get_injuries; get_contact] ->
  deliveries (after (handler u) e) = deliveries e
  /\ admins_txt (after (handler u) e) = admins_txt e.
Proof.
  intros [<- | [<- | [<- | [<- | [<- | []]]]]]; split; reflexivity.
Qed.

(** The environment after the five steps. *)
Lemma guided_steps (u1 u2 u3 u4 u5 : Update) (env : Env) :
  let e5 :=
    after (get_contact u5)
      (after (get_injuries u4)
         (after (get_damage u3)
            (after (get_participants u2) (after (get_location u1) env)))) in
  application e5
  = set_contact (Some (message_text u5))
      (set_injuries (Some (message_text u4))
         (set_damage (Some (message_text u3))
            (set_participants (Some (message_text u2))
               (set_location (Some (message_text u1)) (application env)))))
  /\ deliveries e5 = deliveries env
  /\ admins_txt e5 = admins_txt env.
Proof.
  cbv zeta. split; [|split].
  - rewrite (proj2 (contact_step _ _)), (proj2 (injuries_step _ _)),
      (proj2 (damage_step _ _)), (proj2 (participants_step _ _)),
      (proj2 (location_step _ _)).
    reflexivity.
  - repeat (rewrite (proj1 (guided_step_frame _ _ _)) by (simpl; tauto)). reflexivity.
  - repeat (rewrite (proj2 (guided_step_frame _ _ _)) by (simpl; tauto)). reflexivity.
Qed.

End GuidedRun.

(** X23. The guided form end to end: five answers from [LOCATION] and then
    an answer with the check mark, all of them texts that are no commands,
    pass through [PARTICIPANTS], [DAMAGE], [INJURIES], [CONTACT], [CONFIRM]
    and end the conversation, and with a roster that is not empty one
    delivery is attempted to every administrator, of a text that shows each
    of the five answers, as it was typed, under the heading of its field. *)
Theorem guided_answers_reach_the_admins :
  forall (py : PyBuiltins) (world : Services) (u1 u2 u3 u4 u5 u6 : Update) (env : Env),
    Forall (fun u => TEXT_and_not_COMMAND u = true) [u1; u2; u3; u4; u5; u6] ->
    str_in (utf8 "✅") (message_text u6) = true ->
    result load_admins env <> [] ->
    let run := conversation LOCATION [u1; u2; u3; u4; u5; u6] in
    result run env = [PARTICIPANTS; DAMAGE; INJURIES; CONTACT; CONFIRM; END]
    /\ exists attempts,
        deliveries (after run env) = deliveries env ++ attempts
        /\ map chat_id attempts = result load_admins env
        /\ Forall (fun d =>
                     str_in (utf8 "📍 *Место ДТП:*
" ++ message_text u1 ++ utf8 "
") (body d) = true
                     /\ str_in (utf8 "👥 *Участники:*
" ++ message_text u2 ++ utf8 "
") (body d) = true
                     /\ str_in (utf8 "🚗 *Повреждения:*
" ++ message_text u3 ++ utf8 "
") (body d) = true
                     /\ str_in (utf8 "🚑 *Пострадавшие:*
" ++ message_text u4 ++ utf8 "
") (body d) = true
                     /\ str_in (utf8 "📞 *Контакт:*
" ++ message_text u5 ++ utf8 "
") (body d) = true) attempts.
Proof.
  intros py world u1 u2 u3 u4 u5 u6 env Htexts Hyes Hne run. subst run.
  assert (Hfive : Forall (fun u => TEXT_and_not_COMMAND u = true) [u1; u2; u3; u4; u5]
                  /\ TEXT_and_not_COMMAND u6 = true).
  { repeat (apply Forall_cons_iff in Htexts; destruct Htexts as [? Htexts]).
    split; [|assumption].
    repeat (apply Forall_cons; [assumption|]). apply Forall_nil. }
  destruct Hfive as [Hfive H6].
  destruct (guided_run [u6] env Hfive) as [Hstates Hafter].
  destruct (guided_steps u1 u2 u3 u4 u5 env) as [Happ [Hdel Hfile]]. cbv zeta in *.
  set (e5 := after (get_contact u5) _) in *.
  assert (Hroster : result load_admins e5 = result load_admins env)
    by (rewrite !load_admins_result; now rewrite Hfile).
  assert (Hne5 : result load_admins e5 <> []) by now rewrite Hroster.
  rewrite Hstates, Hafter.
  rewrite (proj1 (conversation_step _ _ _ _)), (proj2 (conversation_step _ _ _ _)).
  rewrite (text_reaches_the_handler CONFIRM u6 eq_refl H6).
  cbn [conversation]. rewrite after_ret.
  split.
  - now rewrite (proj1 (@confirm_application_reply world u6 e5 Hyes)).
  - destruct (@confirm_application_sends world u6 e5 Hyes Hne5)
      as [attempts [Hd [Hids Hbody]]].
    exists attempts. rewrite Hd, Hdel, Hids, Hroster. repeat split.
    eapply Forall_impl; [|exact Hbody]. intros d ->.
    apply formatted_shows_fields; rewrite Happ; reflexivity.
Qed.

Lemma guided_answers_reach_the_admins_witness :
  Forall (fun u => TEXT_and_not_COMMAND u = true)
    [Concrete.says 5 "ул. Ленина, 1"; Concrete.says 5 "2 автомобиля";
     Concrete.says 5 "разбита фара"; Concrete.says 5 "Нет пострадавших";
     Concrete.says 5 "+79001234567"; Concrete.says 5 "✅ Подтвердить и отправить"]
  /\ result (conversation (py := Concrete.Basic) (world := Concrete.Scripted) LOCATION
            [Concrete.says 5 "ул. Ленина, 1"; Concrete.says 5 "2 автомобиля";
             Concrete.says 5 "разбита фара"; Concrete.says 5 "Нет пострадавших";
             Concrete.says 5 "+79001234567"; Concrete.says 5 "✅ Подтвердить и отправить"])
       (Concrete.session (Lines [42%Z]) (Concrete.fresh Concrete.noon))
     = [PARTICIPANTS; DAMAGE; INJURIES; CONTACT; CONFIRM; END].
Proof.
  assert (Htexts : Forall (fun u => TEXT_and_not_COMMAND u = true)
                     [Concrete.says 5 "ул. Ленина, 1"; Concrete.says 5 "2 автомобиля";
                      Concrete.says 5 "разбита фара"; Concrete.says 5 "Нет пострадавших";
                      Concrete.says 5 "+79001234567";
                      Concrete.says 5 "✅ Подтвердить и отправить"]).
  { repeat (apply Forall_cons; [reflexivity|]). apply Forall_nil. }
  assert (Hne : result load_admins
                  (Concrete.session (Lines [42%Z]) (Concrete.fresh Concrete.noon)) <> [])
    by discriminate.
  split; [exact Htexts|].
  pose proof (@guided_answers_reach_the_admins Concrete.Basic Concrete.Scripted
                _ _ _ _ _ _
                (Concrete.session (Lines [42%Z]) (Concrete.fresh Concrete.noon))
                Htexts eq_refl Hne) as H.
  cbv zeta in H. exact (proj1 H).
Defined.
